(** * Kitchen expense tracker: the Express API (backend/server.js) and the
      client table rendering (script.js), embedded in Rocq.

    The server is dynamically typed JavaScript: request bodies are JSON
    values and the handlers' guards rely on JavaScript's coercions
    ([isNaN], [<], [!x], [+=], [parseFloat]).  The embedding therefore starts
    with a small model of JavaScript values: Numbers are IEEE-754 binary64
    floats (Rocq's primitive floats), strings are sequences of code units,
    and the coercions follow ECMAScript. *)

From Stdlib Require Import ZArith List Bool Ascii String Lia.
From Stdlib Require Import Sorting.Sorted Sorting.Permutation.
From Stdlib Require OrdersEx.
From Stdlib Require Import RelationClasses.
From Stdlib Require Import Floats.PrimFloat Floats.SpecFloat Floats.FloatOps.
From Stdlib Require Floats.FloatAxioms.
Import ListNotations.

Local Open Scope string_scope.
Local Open Scope Z_scope.

(* ================================================================== *)
(** * JavaScript numbers and strings *)
(* ================================================================== *)

Module JS.

(** A JavaScript string is modelled by a Rocq [string] whose characters are
    the code units U+0000..U+00FF, so [String.length] is the [length]
    property on that range. *)

Definition code (c : ascii) : Z := Z.of_N (N_of_ascii c).

(** WhiteSpace and LineTerminator code units (TAB, LF, VT, FF, CR, SP, NBSP). *)
Definition is_space (c : ascii) : bool :=
  let n := code c in
  ((9 <=? n) && (n <=? 13)) || (n =? 32) || (n =? 160).

Definition is_digit (c : ascii) : bool :=
  let n := code c in (48 <=? n) && (n <=? 57).

Definition digit_val (c : ascii) : Z := code c - 48.

Fixpoint trimStart (s : string) : string :=
  match s with
  | String c r => if is_space c then trimStart r else s
  | EmptyString => EmptyString
  end.

Fixpoint rev_string (s acc : string) : string :=
  match s with
  | EmptyString => acc
  | String c r => rev_string r (String c acc)
  end.

Definition trimEnd (s : string) : string :=
  rev_string (trimStart (rev_string s "")) "".

(** [String.prototype.trim]. *)
Definition trim (s : string) : string := trimEnd (trimStart s).

(** [String.prototype.toLowerCase] on the code units below U+0100: the
    letters A-Z and U+00C0..U+00DE except the multiplication sign. *)
Definition lower_char (c : ascii) : ascii :=
  let n := code c in
  if ((65 <=? n) && (n <=? 90)) || ((192 <=? n) && (n <=? 222) && negb (n =? 215))
  then ascii_of_N (Z.to_N (n + 32)) else c.

Fixpoint toLowerCase (s : string) : string :=
  match s with
  | EmptyString => EmptyString
  | String c r => String (lower_char c) (toLowerCase r)
  end.

(** ** Decimal literals to Numbers

    [dec_to_float neg m e] is the Number nearest to [(-1)^neg * m * 10^e]
    (round to nearest, ties to even), computed exactly on integers. *)

Fixpoint ndigits_fuel (fuel : nat) (m : Z) : Z :=
  match fuel with
  | O => 0
  | S k => if m <=? 0 then 0 else 1 + ndigits_fuel k (m / 10)
  end.

(** Number of decimal digits of a non-negative integer ([0] for [0]). *)
Definition ndigits (m : Z) : Z := ndigits_fuel (S (Z.to_nat (Z.log2 m))) m.

Definition signed_zero (neg : bool) : float := if neg then neg_zero else zero.
Definition signed_inf (neg : bool) : float := if neg then neg_infinity else infinity.

Definition dec_to_float (neg : bool) (m e : Z) : float :=
  if m <=? 0 then signed_zero neg
  else
    let mag := ndigits m + e in
    if 320 <? mag then signed_inf neg
    else if mag <? -340 then signed_zero neg
    else if 0 <=? e then
      SF2Prim (binary_normalize prec emax (if neg then - (m * 10 ^ e) else m * 10 ^ e) 0 neg)
    else
      SF2Prim (SFdiv prec emax (S754_finite neg (Z.to_pos m) 0)
                               (S754_finite false (Z.to_pos (10 ^ (- e))) 0)).

(** ** Scanning numeric literals (ECMAScript StrDecimalLiteral) *)

Inductive numlit : Type :=
| LInfinity
| LDecimal (m e : Z).   (* the value [m * 10^e] *)

(** Longest run of decimal digits: accumulated value, number of digits read
    and the rest of the string. *)
Fixpoint scan_digits (s : string) (acc n : Z) : Z * Z * string :=
  match s with
  | String c r => if is_digit c then scan_digits r (10 * acc + digit_val c) (n + 1)
                  else (acc, n, s)
  | EmptyString => (acc, n, s)
  end.

(** ExponentPart, taken only when at least one digit follows. *)
Definition scan_exponent (s : string) : Z * string :=
  match s with
  | String c r =>
      if (code c =? 101) || (code c =? 69) then
        let '(neg, r1) :=
          match r with
          | String "+"%char r' => (false, r')
          | String "-"%char r' => (true, r')
          | _ => (false, r)
          end in
        let '(v, n, r2) := scan_digits r1 0 0 in
        if n =? 0 then (0, s) else ((if neg then - v else v), r2)
      else (0, s)
  | EmptyString => (0, s)
  end.

Fixpoint strip_prefix (p s : string) : option string :=
  match p, s with
  | EmptyString, _ => Some s
  | String a p', String b s' => if Ascii.eqb a b then strip_prefix p' s' else None
  | String _ _, EmptyString => None
  end.

(** Longest prefix that is a StrUnsignedDecimalLiteral. *)
Definition scan_unsigned (s : string) : option (numlit * string) :=
  match strip_prefix "Infinity" s with
  | Some r => Some (LInfinity, r)
  | None =>
      let '(i, ni, r1) := scan_digits s 0 0 in
      match r1 with
      | String "."%char r2 =>
          let '(f, nf, r3) := scan_digits r2 i 0 in
          if ni + nf =? 0 then None
          else let '(ex, r4) := scan_exponent r3 in Some (LDecimal f (ex - nf), r4)
      | _ =>
          if ni =? 0 then None
          else let '(ex, r4) := scan_exponent r1 in Some (LDecimal i ex, r4)
      end
  end.

Definition numlit_value (neg : bool) (l : numlit) : float :=
  match l with
  | LInfinity => signed_inf neg
  | LDecimal m e => dec_to_float neg m e
  end.

(** Longest prefix that is a StrDecimalLiteral (optional sign first). *)
Definition scan_decimal (s : string) : option (float * string) :=
  let '(neg, r) :=
    match s with
    | String "+"%char r' => (false, r')
    | String "-"%char r' => (true, r')
    | _ => (false, s)
    end in
  match scan_unsigned r with
  | Some (l, rest) => Some (numlit_value neg l, rest)
  | None => None
  end.

(** Digits of a NonDecimalIntegerLiteral in the given radix. *)
Definition radix_digit (radix : Z) (c : ascii) : option Z :=
  let n := code c in
  let v := if (48 <=? n) && (n <=? 57) then n - 48
           else if (97 <=? n) && (n <=? 102) then n - 87
           else if (65 <=? n) && (n <=? 70) then n - 55
           else radix in
  if v <? radix then Some v else None.

Fixpoint scan_radix (radix : Z) (s : string) (acc : Z) : option Z :=
  match s with
  | EmptyString => Some acc
  | String c r =>
      match radix_digit radix c with
      | Some v => scan_radix radix r (radix * acc + v)
      | None => None
      end
  end.

Definition radix_prefix (s : string) : option (Z * string) :=
  match s with
  | String "0"%char (String c r) =>
      let n := code c in
      if (n =? 120) || (n =? 88) then Some (16, r)
      else if (n =? 111) || (n =? 79) then Some (8, r)
      else if (n =? 98) || (n =? 66) then Some (2, r)
      else None
  | _ => None
  end.

(** StringToNumber: the value of [Number(s)] and of every implicit
    conversion of a string to a Number. *)
Definition StringToNumber (s : string) : float :=
  let t := trim s in
  match t with
  | EmptyString => zero
  | _ =>
      match radix_prefix t with
      | Some (radix, String c r) =>
          match scan_radix radix (String c r) 0 with
          | Some v => dec_to_float false v 0
          | None => nan
          end
      | Some (_, EmptyString) => nan
      | None =>
          match scan_decimal t with
          | Some (f, EmptyString) => f
          | _ => nan
          end
      end
  end.

(** The string part of the global [parseFloat]. *)
Definition parseFloat_string (s : string) : float :=
  match scan_decimal (trimStart s) with
  | Some (f, _) => f
  | None => nan
  end.

(** ** Numbers to strings (ECMAScript Number::toString, radix 10) *)

Definition digit_char (d : Z) : ascii := ascii_of_N (Z.to_N (48 + d)).

Fixpoint digits_fuel (fuel : nat) (n : Z) (acc : string) : string :=
  match fuel with
  | O => acc
  | S k => if n <? 10 then String (digit_char n) acc
           else digits_fuel k (n / 10) (String (digit_char (n mod 10)) acc)
  end.

(** Decimal digits of a non-negative integer. *)
Definition digits_of (n : Z) : string :=
  digits_fuel (S (Z.to_nat (Z.log2 n))) n "".

Fixpoint zeros (n : nat) : string :=
  match n with O => "" | S k => String "0"%char (zeros k) end.

Fixpoint take (n : nat) (s : string) : string :=
  match n, s with
  | S k, String c r => String c (take k r)
  | _, _ => ""
  end.

Fixpoint drop (n : nat) (s : string) : string :=
  match n, s with
  | S k, String _ r => drop k r
  | _, _ => s
  end.

(** [num / den] scaled by [10^p], as a fraction of two positive integers. *)
Definition scale10 (num den p : Z) : Z * Z :=
  if 0 <=? p then (num * 10 ^ p, den) else (num, den * 10 ^ (- p)).

(** The exact value of a finite positive Number as a fraction. *)
Definition exact_fraction (x : float) : Z * Z :=
  match Prim2SF x with
  | S754_finite _ m e => if 0 <=? e then (Zpos m * 2 ^ e, 1) else (Zpos m, 2 ^ (- e))
  | _ => (0, 1)
  end.

(** The [k] with [10^(k-1) <= num/den < 10^k]. *)
Definition decimal_exponent (num den : Z) : Z :=
  let g := ndigits num - ndigits den in
  let '(a, b) := scale10 num den (- g) in
  if b <=? a then g + 1 else g.

(** Shortest digit string: the least [n] for which some [s] of [n] digits
    makes [s * 10^(k-n)] round to [x]; among two candidates the one
    nearer to [x] (the even one on a tie).  Returns [(s, n)]. *)
Fixpoint shortest_from (fuel : nat) (x : float) (num den k n : Z) : Z * Z :=
  let '(a, b) := scale10 num den (n - k) in
  let lo := a / b in
  let r := a mod b in
  let ok s := PrimFloat.eqb (dec_to_float false s (k - n)) x in
  match fuel with
  | O => (lo, n)
  | S fuel' =>
      if r =? 0 then (lo, n)
      else
        match ok lo, ok (lo + 1) with
        | true, true =>
            match 2 * r ?= b with
            | Lt => (lo, n)
            | Gt => (lo + 1, n)
            | Eq => ((if Z.even lo then lo else lo + 1), n)
            end
        | true, false => (lo, n)
        | false, true => (lo + 1, n)
        | false, false => shortest_from fuel' x num den k (n + 1)
        end
  end.

(** Digits [s], their number [n] and the exponent [k] of Number::toString
    for a finite positive [x]. *)
Definition shortest_digits (x : float) : Z * Z * Z :=
  let '(num, den) := exact_fraction x in
  let k := decimal_exponent num den in
  let '(s, n) := shortest_from 17 x num den k 1 in
  if s =? 10 ^ n then (1, 1, k + 1) else (s, n, k).

Definition format_digits (s n k : Z) : string :=
  let ds := digits_of s in
  if (n <=? k) && (k <=? 21) then ds ++ zeros (Z.to_nat (k - n))
  else if (0 <? k) && (k <=? 21) then
    take (Z.to_nat k) ds ++ "." ++ drop (Z.to_nat k) ds
  else if (-6 <? k) && (k <=? 0) then "0." ++ zeros (Z.to_nat (- k)) ++ ds
  else
    let e := k - 1 in
    let ex := (if e <? 0 then "-" else "+") ++ digits_of (Z.abs e) in
    if n =? 1 then ds ++ "e" ++ ex
    else take 1 ds ++ "." ++ drop 1 ds ++ "e" ++ ex.

Definition NumberToString (x : float) : string :=
  if is_nan x then "NaN"
  else if is_zero x then "0"
  else
    let neg := PrimFloat.ltb x zero in
    let a := abs x in
    let body := if is_infinity a then "Infinity"
                else let '(s, n, k) := shortest_digits a in format_digits s n k in
    if neg then "-" ++ body else body.

(** ** Values and coercions

    The values a JSON request body can give to a field: [undefined] when the
    key is absent, [null], booleans, Numbers and strings.  (JSON arrays and
    objects are outside the modelled domain.) *)

Inductive value : Type :=
| VUndefined
| VNull
| VBool (b : bool)
| VNum (x : float)
| VStr (s : string).

Definition float_of_Z (n : Z) : float := dec_to_float (n <? 0) (Z.abs n) 0.

(** ToNumber. *)
Definition ToNumber (v : value) : float :=
  match v with
  | VUndefined => nan
  | VNull => zero
  | VBool b => if b then one else zero
  | VNum x => x
  | VStr s => StringToNumber s
  end.

(** ToString. *)
Definition ToString (v : value) : string :=
  match v with
  | VUndefined => "undefined"
  | VNull => "null"
  | VBool b => if b then "true" else "false"
  | VNum x => NumberToString x
  | VStr s => s
  end.

(** ToBoolean: [!v] is [negb (truthy v)]. *)
Definition truthy (v : value) : bool :=
  match v with
  | VUndefined | VNull => false
  | VBool b => b
  | VNum x => negb (is_zero x || is_nan x)
  | VStr s => negb (String.eqb s "")
  end.

(** [v === undefined]. *)
Definition is_undefined (v : value) : bool :=
  match v with VUndefined => true | _ => false end.

(** The global [isNaN]. *)
Definition isNaN (v : value) : bool := is_nan (ToNumber v).

(** The global [parseFloat]. *)
Definition parseFloat (v : value) : float := parseFloat_string (ToString v).

(** [v < n] and [v <= n] against a Number: the left operand is converted
    with ToNumber, and a NaN makes both false. *)
Definition lt_num (v : value) (n : float) : bool := PrimFloat.ltb (ToNumber v) n.
Definition le_num (v : value) (n : float) : bool := PrimFloat.leb (ToNumber v) n.

(** The [+] operator: concatenation when either operand is a string,
    addition of the ToNumber conversions otherwise. *)
Definition plus (a b : value) : value :=
  match a, b with
  | VStr _, _ | _, VStr _ => VStr (ToString a ++ ToString b)
  | _, _ => VNum (PrimFloat.add (ToNumber a) (ToNumber b))
  end.

(** [v.length]: the string length; [undefined] on the other primitives that
    can be dereferenced. *)
Definition length_of (v : value) : value :=
  match v with
  | VStr s => VNum (float_of_Z (Z.of_nat (String.length s)))
  | _ => VUndefined
  end.

(** [v === s] for a string [s]. *)
Definition strict_eq_string (v : value) (s : string) : bool :=
  match v with VStr t => String.eqb t s | _ => false end.

End JS.

(* ================================================================== *)
(** * Stable sorting *)
(* ================================================================== *)

(** MongoDB's [sort] on the server and [Array.prototype.sort] in the client
    are modelled by one stable insertion sort.  [before x y] tells that [x]
    may stay in front of [y].  (MongoDB leaves the order of records with
    equal sort keys open; no property below depends on it.) *)
Module StableSort.
Section Sort.
Context {A : Type}.
Variable before : A -> A -> bool.

Fixpoint insert (x : A) (l : list A) : list A :=
  match l with
  | [] => [x]
  | y :: t => if before x y then x :: l else y :: insert x t
  end.

Definition sort (l : list A) : list A := fold_right insert [] l.
End Sort.
End StableSort.

(* ================================================================== *)
(** * The object-document mapper (Mongoose schema types) *)
(* ================================================================== *)

Module Mongoose.
Import JS.

(** Result of casting a value to a schema type: the stored value ([None]
    is [null]) or a CastError, which makes the next [save] reject. *)
Inductive cast (A : Type) : Type :=
| CastOk (x : option A)
| CastError.
Arguments CastOk {A} x.
Arguments CastError {A}.

(** Schema type [Number]: [null] and [undefined] are kept, the empty
    string is [null], strings and booleans go through [Number(...)], and
    NaN is refused. *)
Definition castNumber (v : value) : cast float :=
  match v with
  | VUndefined | VNull => CastOk None
  | VStr EmptyString => CastOk None
  | VStr _ | VBool _ | VNum _ =>
      let x := ToNumber v in
      if is_nan x then CastError else CastOk (Some x)
  end.

(** Schema type [String]: primitives are converted with [toString()]. *)
Definition castString (v : value) : cast string :=
  match v with
  | VUndefined | VNull => CastOk None
  | _ => CastOk (Some (ToString v))
  end.

(** The setters [trim: true] and [lowercase: true]; setters also run on the
    values of query filters. *)
Definition map_cast {A} (f : A -> A) (c : cast A) : cast A :=
  match c with
  | CastOk (Some x) => CastOk (Some (f x))
  | other => other
  end.

Definition cast_username (v : value) : cast string := map_cast trim (castString v).
Definition cast_email (v : value) : cast string :=
  map_cast toLowerCase (map_cast trim (castString v)).

End Mongoose.

(* ================================================================== *)
(** * backend/server.js *)
(* ================================================================== *)

Module Server.
Import JS Mongoose.

Definition ObjectId := N.
Definition Timestamp := Z.

(** ** Collections (userSchema, expenseSchema) *)

Record User : Type := mkUser {
  u_id : ObjectId;
  username : string;
  email : string;
  password : string;                (* the bcrypt hash *)
  totalBudget : option float;       (* a Number, or [None] for [null] *)
  u_createdAt : Timestamp
}.

Record Expense : Type := mkExpense {
  e_id : ObjectId;
  userId : ObjectId;
  date : string;
  item : string;
  amount : float;
  quantity : string;
  mode : string;
  createdAt : Timestamp
}.

Record DB : Type := mkDB {
  users : list User;
  expenses : list Expense
}.

(** ** Documents

    A hydrated user document: its fields, the paths modified since it was
    loaded, and whether a cast error is pending on it.  [doc_password] is
    [None] when the document was loaded with [select('-password')]. *)

Inductive path : Type := P_username | P_email | P_password | P_totalBudget.

Definition path_eqb (p q : path) : bool :=
  match p, q with
  | P_username, P_username | P_email, P_email
  | P_password, P_password | P_totalBudget, P_totalBudget => true
  | _, _ => false
  end.

Record UserDoc : Type := mkUserDoc {
  doc_id : ObjectId;
  doc_isNew : bool;
  doc_username : option string;
  doc_email : option string;
  doc_password : option string;
  doc_totalBudget : option float;
  doc_createdAt : Timestamp;
  doc_modified : list path;
  doc_invalid : bool
}.

Definition isModified (d : UserDoc) (p : path) : bool :=
  existsb (path_eqb p) (doc_modified d).

(** A new expense document, before validation. *)
Record ExpenseDoc : Type := mkExpenseDoc {
  edoc_id : ObjectId;
  edoc_userId : ObjectId;
  edoc_date : cast string;
  edoc_item : cast string;
  edoc_amount : cast float;
  edoc_quantity : cast string;
  edoc_mode : cast string;
  edoc_createdAt : Timestamp
}.

(** Values supplied by the runtime to a request that creates a document:
    the generated [_id] and [Date.now()]. *)
Record env : Type := mkEnv { fresh_id : ObjectId; now : Timestamp }.

Definition cast_value {A} (c : cast A) : option A :=
  match c with CastOk x => x | CastError => None end.

Definition cast_failed {A} (c : cast A) : bool :=
  match c with CastOk _ => false | CastError => true end.

(** [new User({ username, email, password })]: the schema casts and setters
    run on the given values, [totalBudget] and [createdAt] get their defaults. *)
Definition new_User (e : env) (username email password : value) : UserDoc :=
  let cu := cast_username username in
  let ce := cast_email email in
  let cp := castString password in
  {| doc_id := fresh_id e;
     doc_isNew := true;
     doc_username := cast_value cu;
     doc_email := cast_value ce;
     doc_password := cast_value cp;
     doc_totalBudget := Some zero;
     doc_createdAt := now e;
     doc_modified := [P_username; P_email; P_password];
     doc_invalid := cast_failed cu || cast_failed ce || cast_failed cp |}.

(** Whether assigning [new] over [old] is a change (strict equality). *)
Definition same_budget (old new : option float) : bool :=
  match old, new with
  | None, None => true
  | Some a, Some b => PrimFloat.eqb a b
  | _, _ => false
  end.

(** [doc.totalBudget = v]: the value is cast to the schema type; the path
    is marked modified when the value changes; a cast error leaves the
    value and invalidates the document. *)
Definition set_totalBudget (d : UserDoc) (v : value) : UserDoc :=
  match castNumber v with
  | CastOk x =>
      {| doc_id := doc_id d; doc_isNew := doc_isNew d;
         doc_username := doc_username d; doc_email := doc_email d;
         doc_password := doc_password d;
         doc_totalBudget := x;
         doc_createdAt := doc_createdAt d;
         doc_modified := if same_budget (doc_totalBudget d) x then doc_modified d
                         else P_totalBudget :: doc_modified d;
         doc_invalid := doc_invalid d |}
  | CastError =>
      {| doc_id := doc_id d; doc_isNew := doc_isNew d;
         doc_username := doc_username d; doc_email := doc_email d;
         doc_password := doc_password d;
         doc_totalBudget := doc_totalBudget d;
         doc_createdAt := doc_createdAt d;
         doc_modified := doc_modified d;
         doc_invalid := true |}
  end.

(** The stored total of a user read as a JavaScript value. *)
Definition budget_value (u : User) : value :=
  match totalBudget u with Some x => VNum x | None => VNull end.

(** [doc.totalBudget] read as a JavaScript value. *)
Definition get_totalBudget (d : UserDoc) : value :=
  match doc_totalBudget d with Some x => VNum x | None => VNull end.

(** A stored user hydrated into a document, without its password when the
    query ends with [select('-password')]. *)
Definition hydrate (with_password : bool) (u : User) : UserDoc :=
  {| doc_id := u_id u; doc_isNew := false;
     doc_username := Some (username u); doc_email := Some (email u);
     doc_password := if with_password then Some (password u) else None;
     doc_totalBudget := totalBudget u;
     doc_createdAt := u_createdAt u;
     doc_modified := []; doc_invalid := false |}.

(** ** Store operations

    Every [await] in server.js waits for one of these operations on the
    database.  An operation returns a value or rejects (throws). *)

Inductive op : Type -> Type :=
| User_findById (id : ObjectId) : op (option UserDoc)
    (* User.findById(id).select('-password') *)
| User_findOne (email username : value) : op (option UserDoc)
    (* User.findOne({ $or: [{ email }, { username }] }) *)
| User_save (d : UserDoc) : op UserDoc
    (* doc.save() *)
| Expense_find (uid : ObjectId) : op (list Expense)
    (* Expense.find({ userId }).sort({ date: 1, createdAt: 1 }) *)
| Expense_save (d : ExpenseDoc) : op Expense
    (* expense.save() *)
| Expense_findOneAndDelete (id : option ObjectId) (uid : ObjectId) : op (option Expense)
    (* Expense.findOneAndDelete({ _id, userId }) *)
| Expense_deleteMany (uid : ObjectId) : op unit.
    (* Expense.deleteMany({ userId }) *)

(** Asynchronous handler bodies: straight-line code that awaits store
    operations, may throw, and may be wrapped in [try { } catch { }]. *)
Inductive prog (A : Type) : Type :=
| Ret (a : A)
| Throw
| Await {X : Type} (o : op X) (k : X -> prog A)
| TryCatch (body handler : prog A).
Arguments Ret {A} a.
Arguments Throw {A}.
Arguments Await {A X} o k.
Arguments TryCatch {A} body handler.

Notation "x <- 'await' o ;; k" := (Await o (fun x => k))
  (at level 61, o at next level, right associativity).
Notation "'await' o ;; k" := (Await o (fun _ => k))
  (at level 61, o at next level, right associativity).

Inductive outcome (A : Type) : Type :=
| Returned (a : A)
| Thrown.
Arguments Returned {A} a.
Arguments Thrown {A}.

(** ** Sorting and filtering in the store *)

(** The order of [sort({ date: 1, createdAt: 1 })]: dates as strings
    (compared code unit by code unit), then creation times. *)
Definition expense_leb (a b : Expense) : bool :=
  match OrdersEx.String_as_OT.compare (date a) (date b) with
  | Lt => true
  | Gt => false
  | Eq => createdAt a <=? createdAt b
  end.

Definition sort_expenses (l : list Expense) : list Expense :=
  StableSort.sort expense_leb l.

Definition owned_by (uid : ObjectId) (e : Expense) : bool := (userId e =? uid)%N.

(** Removes the first expense that satisfies [f]. *)
Fixpoint remove_first (f : Expense -> bool) (l : list Expense) : list Expense :=
  match l with
  | [] => []
  | x :: t => if f x then t else x :: remove_first f t
  end.

Definition matches (c : cast string) (s : string) : bool :=
  match c with
  | CastOk (Some t) => String.eqb t s
  | _ => false
  end.

(** The filter [{ $or: [{ email }, { username }] }], with the query values
    cast by the schema. *)
Definition or_filter (em un : value) (u : User) : bool :=
  matches (cast_email em) (email u) || matches (cast_username un) (username u).

(** ** Validation and persistence of documents *)

Definition required (s : option string) : bool :=
  match s with
  | Some t => negb (String.eqb t "")
  | None => false
  end.

Definition minlength (n : nat) (s : option string) : bool :=
  match s with
  | Some t => (n <=? String.length t)%nat
  | None => true
  end.

(** Schema validation of a user document: a pending cast error fails it;
    the validators of the paths of a new document are checked.  For a
    loaded document the validators of its paths are taken to hold: the
    stored accounts satisfy the schema, as every account that a route
    stores does. *)
Definition validate_user (d : UserDoc) : bool :=
  negb (doc_invalid d) &&
  (if doc_isNew d then
     required (doc_username d) && minlength 3 (doc_username d) &&
     required (doc_email d) &&
     required (doc_password d) && minlength 6 (doc_password d)
   else true).

Definition or_else {A} (o : option A) (d : A) : A :=
  match o with Some x => x | None => d end.

(** The update [$set] of the modified paths of [d] on its stored record. *)
Definition apply_modified (d : UserDoc) (u : User) : User :=
  {| u_id := u_id u;
     username := if isModified d P_username then or_else (doc_username d) (username u)
                 else username u;
     email := if isModified d P_email then or_else (doc_email d) (email u) else email u;
     password := if isModified d P_password then or_else (doc_password d) (password u)
                 else password u;
     totalBudget := if isModified d P_totalBudget then doc_totalBudget d else totalBudget u;
     u_createdAt := u_createdAt u |}.

Definition update_user (d : UserDoc) (l : list User) : list User :=
  map (fun u => if (u_id u =? doc_id d)%N then apply_modified d u else u) l.

(** The record inserted for a new document. *)
Definition to_User (d : UserDoc) : User :=
  {| u_id := doc_id d;
     username := or_else (doc_username d) "";
     email := or_else (doc_email d) "";
     password := or_else (doc_password d) "";
     totalBudget := doc_totalBudget d;
     u_createdAt := doc_createdAt d |}.

(** The unique indexes on [_id], [username] and [email]. *)
Definition duplicate_user (u : User) (l : list User) : bool :=
  existsb (fun v => (u_id v =? u_id u)%N || String.eqb (username v) (username u)
                    || String.eqb (email v) (email u)) l.

Definition saved (d : UserDoc) : UserDoc :=
  {| doc_id := doc_id d; doc_isNew := false;
     doc_username := doc_username d; doc_email := doc_email d;
     doc_password := doc_password d; doc_totalBudget := doc_totalBudget d;
     doc_createdAt := doc_createdAt d;
     doc_modified := []; doc_invalid := false |}.

(** Validation of a new expense: every path is required. *)
Definition validate_expense (d : ExpenseDoc) : option Expense :=
  match edoc_date d, edoc_item d, edoc_amount d, edoc_quantity d, edoc_mode d with
  | CastOk (Some da), CastOk (Some it), CastOk (Some am), CastOk (Some qu), CastOk (Some mo) =>
      if required (Some da) && required (Some it) && required (Some qu) && required (Some mo)
      then Some {| e_id := edoc_id d; userId := edoc_userId d; date := da; item := it;
                   amount := am; quantity := qu; mode := mo; createdAt := edoc_createdAt d |}
      else None
  | _, _, _, _, _ => None
  end.

(** Lookup by [_id], and the expenses an account owns. *)
Definition find_user (id : ObjectId) (db : DB) : option User :=
  find (fun u => (u_id u =? id)%N) (users db).

Definition ledger (uid : ObjectId) (db : DB) : list Expense :=
  filter (owned_by uid) (expenses db).

Section Semantics.

(** [bcrypt.hash(_, 12)], and the document a [findOne] returns among those
    that match its filter. *)
Variable bcrypt_hash : string -> string.
Variable choose : list User -> option User.

(** [userSchema.pre('save')]: the password is hashed only when the path
    [password] was modified. *)
Definition pre_save (d : UserDoc) : option UserDoc :=
  if negb (isModified d P_password) then Some d
  else
    match doc_password d with
    | Some pw =>
        Some {| doc_id := doc_id d; doc_isNew := doc_isNew d;
                doc_username := doc_username d; doc_email := doc_email d;
                doc_password := Some (bcrypt_hash pw);
                doc_totalBudget := doc_totalBudget d;
                doc_createdAt := doc_createdAt d;
                doc_modified := doc_modified d; doc_invalid := doc_invalid d |}
    | None => None
    end.

(** [doc.save()]: validation, then the pre-save hook, then an insert (new
    document) or an update of the modified paths. *)
Definition save_user (d : UserDoc) (db : DB) : option UserDoc * DB :=
  if negb (validate_user d) then (None, db)
  else
    match pre_save d with
    | None => (None, db)
    | Some d' =>
        if doc_isNew d' then
          let u := to_User d' in
          if duplicate_user u (users db) then (None, db)
          else (Some (saved d'), mkDB (users db ++ [u]) (expenses db))
        else (Some (saved d'), mkDB (update_user d' (users db)) (expenses db))
    end.

Definition save_expense (d : ExpenseDoc) (db : DB) : option Expense * DB :=
  match validate_expense d with
  | None => (None, db)
  | Some e =>
      if existsb (fun x => (e_id x =? e_id e)%N) (expenses db) then (None, db)
      else (Some e, mkDB (users db) (expenses db ++ [e]))
  end.

Definition id_and_owner (i uid : ObjectId) (e : Expense) : bool :=
  (e_id e =? i)%N && owned_by uid e.

(** What each operation returns ([None] when it rejects) and the database
    it leaves. *)
Definition exec {X : Type} (o : op X) (db : DB) : option X * DB :=
  match o in op T return option T * DB with
  | User_findById id =>
      (Some (option_map (hydrate false) (find_user id db)), db)
  | User_findOne em un =>
      if cast_failed (cast_email em) || cast_failed (cast_username un) then (None, db)
      else (Some (option_map (hydrate true) (choose (filter (or_filter em un) (users db)))), db)
  | User_save d => save_user d db
  | Expense_find uid =>
      (Some (sort_expenses (ledger uid db)), db)
  | Expense_save d => save_expense d db
  | Expense_findOneAndDelete id uid =>
      match id with
      | None => (None, db)
      | Some i =>
          match find (id_and_owner i uid) (expenses db) with
          | Some e => (Some (Some e),
                       mkDB (users db) (remove_first (id_and_owner i uid) (expenses db)))
          | None => (Some None, db)
          end
      end
  | Expense_deleteMany uid =>
      (Some tt, mkDB (users db) (filter (fun e => negb (owned_by uid e)) (expenses db)))
  end.

(** Running a handler to completion on a database. *)
Fixpoint run {A : Type} (p : prog A) (db : DB) : outcome A * DB :=
  match p with
  | Ret a => (Returned a, db)
  | Throw => (Thrown, db)
  | Await o k =>
      match exec o db with
      | (Some x, db') => run (k x) db'
      | (None, db') => (Thrown, db')
      end
  | TryCatch body handler =>
      match run body db with
      | (Thrown, db') => run handler db'
      | r => r
      end
  end.

(** The database after each store operation of a run, in order: the states
    another request can read while this one is suspended at an [await]. *)
Fixpoint trace {A : Type} (p : prog A) (db : DB) : list DB :=
  match p with
  | Ret _ | Throw => []
  | Await o k =>
      match exec o db with
      | (Some x, db') => db' :: trace (k x) db'
      | (None, db') => [db']
      end
  | TryCatch body handler =>
      match run body db with
      | (Thrown, db') => trace body db ++ trace handler db'
      | _ => trace body db
      end
  end.

End Semantics.

(** ** Requests and responses *)

(** The [Authorization] header as [authMiddleware] sees it: absent, a
    token that [jwt.verify] refuses, or a token it accepts with payload
    [{ userId }]. *)
Inductive auth_header : Type :=
| NoToken
| InvalidToken
| ValidToken (uid : ObjectId).

Record UserView : Type := mkView {
  view_id : ObjectId;
  view_username : option string;
  view_email : option string;
  view_totalBudget : option float
}.

Definition view (d : UserDoc) : UserView :=
  mkView (doc_id d) (doc_username d) (doc_email d) (doc_totalBudget d).

Inductive body : Type :=
| Error (error : string)
| Message (message : string)
| Budget (message : string) (totalBudget : option float)
| Auth (message : string) (token_userId : ObjectId) (user : UserView)
| Profile (user : UserView)
| Expenses (l : list Expense)
| Created (e : Expense).

Record response : Type := mkResponse { status : Z; json : body }.

Definition res (code : Z) (b : body) : prog response := Ret (mkResponse code b).

(** ** Auth middleware (server.js 66-82)

    [next()] starts the route handler; every handler below catches its own
    exceptions, so none reaches this [catch]. *)
Definition authMiddleware (a : auth_header) (next : UserDoc -> prog response)
  : prog response :=
  TryCatch
    (match a with
     | NoToken => res 401 (Error "Access denied. No token provided.")
     | InvalidToken => Throw
     | ValidToken uid =>
         user <- await (User_findById uid) ;;
         match user with
         | None => res 401 (Error "Invalid token. User not found.")
         | Some u => next u
         end
     end)
    (res 401 (Error "Invalid or expired token.")).

(** [jwt.sign(payload, process.env.JWT_SECRET, ...)] throws when the secret
    is undefined or empty. *)
Definition jwt_sign_throws (JWT_SECRET : option string) : bool :=
  match JWT_SECRET with
  | Some s => String.eqb s ""
  | None => true
  end.

(** ** POST /api/auth/signup (server.js 87-123)

    The token is signed after the account has been saved and inside the
    [try]: when [jwt.sign] throws, the account stays in the store and the
    [catch] answers 500. *)
Definition signup (JWT_SECRET : option string) (e : env)
    (username email password : value) : prog response :=
  TryCatch
    (if negb (truthy username) || negb (truthy email) || negb (truthy password) then
       res 400 (Error "All fields are required.")
     else if lt_num (length_of username) 3%float then
       res 400 (Error "Username must be at least 3 characters.")
     else if lt_num (length_of password) 6%float then
       res 400 (Error "Password must be at least 6 characters.")
     else
       existingUser <- await (User_findOne email username) ;;
       match existingUser with
       | Some existing =>
           if strict_eq_string email (or_else (doc_email existing) "") then
             res 400 (Error "Email already registered.")
           else res 400 (Error "Username already taken.")
       | None =>
           user <- await (User_save (new_User e username email password)) ;;
           if jwt_sign_throws JWT_SECRET then Throw
           else res 201 (Auth "Account created successfully!" (doc_id user) (view user))
       end)
    (res 500 (Error "Server error. Please try again.")).

(** ** GET /api/auth/me (server.js 163-172) *)
Definition me (a : auth_header) : prog response :=
  authMiddleware a (fun user => res 200 (Profile (view user))).

(** ** PUT /api/budget/set (server.js 177-189) *)
Definition budget_set (a : auth_header) (amount : value) : prog response :=
  authMiddleware a (fun user =>
    TryCatch
      (if is_undefined amount || isNaN amount || lt_num amount zero then
         res 400 (Error "Please provide a valid budget amount.")
       else
         let user := set_totalBudget user amount in
         user <- await (User_save user) ;;
         res 200 (Budget "Budget updated." (doc_totalBudget user)))
      (res 500 (Error "Server error."))).

(** ** PUT /api/budget/add (server.js 192-204) *)
Definition budget_add (a : auth_header) (amount : value) : prog response :=
  authMiddleware a (fun user =>
    TryCatch
      (if is_undefined amount || isNaN amount || le_num amount zero then
         res 400 (Error "Please provide a valid amount to add.")
       else
         let user := set_totalBudget user (plus (get_totalBudget user) amount) in
         user <- await (User_save user) ;;
         res 200 (Budget "Money added to budget." (doc_totalBudget user)))
      (res 500 (Error "Server error."))).

(** ** GET /api/expenses (server.js 209-216) *)
Definition expenses_get (a : auth_header) : prog response :=
  authMiddleware a (fun user =>
    TryCatch
      (expenses <- await (Expense_find (doc_id user)) ;;
       res 200 (Expenses expenses))
      (res 500 (Error "Server error."))).

(** [new Expense({ userId, date, item, amount, quantity, mode })]. *)
Definition new_Expense (e : env) (uid : ObjectId)
    (date item : value) (amount : float) (quantity mode : value) : ExpenseDoc :=
  {| edoc_id := fresh_id e;
     edoc_userId := uid;
     edoc_date := castString date;
     edoc_item := castString item;
     edoc_amount := castNumber (VNum amount);
     edoc_quantity := castString quantity;
     edoc_mode := castString mode;
     edoc_createdAt := now e |}.

(** ** POST /api/expenses (server.js 219-238) *)
Definition expenses_post (e : env) (a : auth_header)
    (date item amount quantity mode : value) : prog response :=
  authMiddleware a (fun user =>
    TryCatch
      (if negb (truthy date) || negb (truthy item) || negb (truthy amount)
          || negb (truthy quantity) || negb (truthy mode) then
         res 400 (Error "All fields are required.")
       else
         let expense :=
           new_Expense e (doc_id user) date item (parseFloat amount) quantity mode in
         expense <- await (Expense_save expense) ;;
         res 201 (Created expense))
      (res 500 (Error "Server error."))).

(** ** DELETE /api/expenses/:id (server.js 241-251)

    [id] is the route parameter cast to an ObjectId, [None] when the
    segment is not a well-formed id (the query then throws a CastError). *)
Definition expenses_delete_id (a : auth_header) (id : option ObjectId) : prog response :=
  authMiddleware a (fun user =>
    TryCatch
      (expense <- await (Expense_findOneAndDelete id (doc_id user)) ;;
       match expense with
       | None => res 404 (Error "Expense not found.")
       | Some _ => res 200 (Message "Expense deleted.")
       end)
      (res 500 (Error "Server error."))).

(** ** DELETE /api/expenses (server.js 254-263) *)
Definition expenses_delete (a : auth_header) : prog response :=
  authMiddleware a (fun user =>
    TryCatch
      (await (Expense_deleteMany (doc_id user)) ;;
       let user := set_totalBudget user (VNum zero) in
       await (User_save user) ;;
       res 200 (Message "All data cleared."))
      (res 500 (Error "Server error."))).

End Server.

(* ================================================================== *)
(** * script.js: the expense table *)
(* ================================================================== *)

Module Client.
Import JS.

(** An element of the global array [expenses]: a record as the API returns
    it in JSON. *)
Record expense : Type := mkExpense {
  _id : string;
  date : string;
  item : string;
  amount : value;
  quantity : string;
  mode : string
}.

(** [Number.prototype.toFixed(2)]. *)
Definition toFixed2 (x : float) : string :=
  if is_nan x || is_infinity x then NumberToString x
  else
    let neg := PrimFloat.ltb x zero in
    let a := abs x in
    let m :=
      if PrimFloat.leb 1e21%float a then NumberToString a
      else
        let '(num, den) := exact_fraction a in
        let n := (200 * num + den) / (2 * den) in
        let ds := digits_of n in
        let ds := zeros (3 - String.length ds) ++ ds in
        let k := String.length ds in
        take (k - 2) ds ++ "." ++ drop (k - 2) ds in
    if neg then "-" ++ m else m.

(** A rendered table row: the record it shows, the text of the amount cell
    and the cell of the running balance (its Number, its text and whether
    it has the class [negative]).  The texts are those of [toFixed(2)],
    without the currency sign put in front of them. *)
Record row : Type := mkRow {
  row_expense : expense;
  row_amount : string;
  row_balance : float;
  row_balance_text : string;
  row_negative : bool
}.

Inductive table : Type :=
| EmptyState                (* "No expenses recorded yet" *)
| Rows (rows : list row).

Section Rendering.

(** The time value of [new Date(s)] in milliseconds, [None] for an invalid
    date (the parsing of strings that are not in the ISO format is left to
    the implementation by ECMAScript). *)
Variable Date_parse : string -> option Z.

(** The comparator [(a, b) => new Date(a.date) - new Date(b.date)];
    [None] is NaN. *)
Definition compare_dates (a b : expense) : option Z :=
  match Date_parse (date a), Date_parse (date b) with
  | Some x, Some y => Some (x - y)
  | _, _ => None
  end.

(** [Array.prototype.sort] is stable and treats a NaN result as [0]: [a]
    moves behind [b] only when the comparator is positive.  When every date
    parses the comparator is consistent and the result of a stable sort is
    determined; the insertion sort below computes it.  When a date does
    not parse the comparator is not consistent and ECMAScript leaves the
    order to the engine: [sort] is then one permutation of the array, not
    necessarily the engine's, and what is stated about the order of the
    table assumes that every date parses. *)
Definition comes_after (a b : expense) : bool :=
  match compare_dates a b with
  | Some v => 0 <? v
  | None => false
  end.

Definition sort (l : list expense) : list expense :=
  StableSort.sort (fun a b => negb (comes_after a b)) l.

(** The [forEach] loop of [updateTable]. *)
Fixpoint render_rows (runningBalance : float) (l : list expense) : list row :=
  match l with
  | [] => []
  | exp :: t =>
      let runningBalance := PrimFloat.sub runningBalance (parseFloat (amount exp)) in
      {| row_expense := exp;
         row_amount := toFixed2 (parseFloat (amount exp));
         row_balance := runningBalance;
         row_balance_text := toFixed2 runningBalance;
         row_negative := PrimFloat.ltb runningBalance zero |}
      :: render_rows runningBalance t
  end.

(** [updateTable()] (script.js 146-171): the array after the call (it is
    sorted in place) and the table body. *)
Definition updateTable (totalBudget : float) (expenses : list expense)
  : list expense * table :=
  match expenses with
  | [] => ([], EmptyState)
  | _ :: _ =>
      let expenses := sort expenses in
      (expenses, Rows (render_rows totalBudget expenses))
  end.

End Rendering.

(** [fetchExpenses()]: a stored expense as the client receives it through
    [res.json] and [response.json()].  JSON has no infinities and no
    negative zero. *)
Definition json_number (x : float) : value :=
  if is_nan x || is_infinity x then VNull
  else if is_zero x then VNum zero else VNum x.

Definition of_json (e : Server.Expense) : expense :=
  {| _id := digits_of (Z.of_N (Server.e_id e));
     date := Server.date e;
     item := Server.item e;
     amount := json_number (Server.amount e);
     quantity := Server.quantity e;
     mode := Server.mode e |}.

(** The time value of a date in the form [YYYY-MM-DD], the format of the
    date input of the page (days from the civil calendar, at UTC midnight).
    Only valid dates in that form are read; an engine may accept other
    strings too (a month or day of one digit, a day past the end of the
    month), which [iso_date] gives as invalid. *)
Definition days_from_civil (y m d : Z) : Z :=
  let y' := if m <=? 2 then y - 1 else y in
  let era := y' / 400 in
  let yoe := y' - era * 400 in
  let mp := (m + 9) mod 12 in
  let doy := (153 * mp + 2) / 5 + d - 1 in
  let doe := yoe * 365 + yoe / 4 - yoe / 100 + doy in
  era * 146097 + doe - 719468.

Definition days_in_month (y m : Z) : Z :=
  if m =? 2 then
    (if ((y mod 4 =? 0) && negb (y mod 100 =? 0)) || (y mod 400 =? 0) then 29 else 28)
  else if (m =? 4) || (m =? 6) || (m =? 9) || (m =? 11) then 30 else 31.

Definition iso_date (s : string) : option Z :=
  let '(y, ny, r1) := scan_digits s 0 0 in
  match r1 with
  | String "-"%char r2 =>
      let '(m, nm, r3) := scan_digits r2 0 0 in
      match r3 with
      | String "-"%char r4 =>
          let '(d, nd, r5) := scan_digits r4 0 0 in
          match r5 with
          | EmptyString =>
              if (ny =? 4) && (nm =? 2) && (nd =? 2) && (1 <=? m) && (m <=? 12)
                 && (1 <=? d) && (d <=? days_in_month y m)
              then Some (days_from_civil y m d * 86400000)
              else None
          | _ => None
          end
      | _ => None
      end
  | _ => None
  end.

End Client.

(* ================================================================== *)
(** * backend/server.js: logging in *)
(* ================================================================== *)

Module Login.
Import JS Mongoose Server.

Section Login.

(** [bcrypt.compare(candidate, hash)] on two strings, and the document a
    [findOne] returns among those that match. *)
Variable bcrypt_compare : string -> string -> bool.
Variable choose : list User -> option User.

(** [userSchema.methods.comparePassword] (server.js 46-48):
    [bcrypt.compare] rejects when an argument is not a string. *)
Definition comparePassword (user : UserDoc) (candidatePassword : value) : option bool :=
  match candidatePassword, doc_password user with
  | VStr s, Some h => Some (bcrypt_compare s h)
  | _, _ => None
  end.

(** The filter [{ username }], with the query value cast by the schema. *)
Definition username_filter (un : value) (u : User) : bool :=
  matches (cast_username un) (username u).

(** [process.env.JWT_SECRET] is undefined or empty. *)
Definition no_secret (JWT_SECRET : option string) : bool :=
  match JWT_SECRET with
  | Some s => String.eqb s ""
  | None => true
  end.

Definition invalid_credentials : string := "Invalid username or password.".

(** POST /api/auth/login (server.js 126-160).  The handler only reads the
    store, so it is a function from the database to the response. *)
Definition login (JWT_SECRET : option string) (username password : value) (db : DB)
  : response :=
  if negb (truthy username) || negb (truthy password) then
    mkResponse 400 (Error "Username and password are required.")
  else
    match option_map (hydrate true)
                     (choose (filter (username_filter username) (users db))) with
    | None => mkResponse 401 (Error invalid_credentials)
    | Some user =>
        match comparePassword user password with
        | None => mkResponse 500 (Error "Server error. Please try again.")
        | Some false => mkResponse 401 (Error invalid_credentials)
        | Some true =>
            if no_secret JWT_SECRET then
              mkResponse 500 (Error "Server configuration error.")
            else
              mkResponse 200 (Auth "Login successful!" (doc_id user) (view user))
        end
    end.

End Login.
End Login.

(* ================================================================== *)
(** * script.js: requests, the summary and the event handlers *)
(* ================================================================== *)

(** The page and the server together.  A handler is a function on the state
    of the page (the two globals, [localStorage], the rendered summary and
    table, the alerts shown) and the database of the server, which answers
    the requests of the handler by the routes of [Server].

    The token is kept as the server reads it: [Some a] when a token is
    stored and the header built from it is read as [a] by [authMiddleware];
    [None] when no token is stored (the header is then [Bearer null], which
    [jwt.verify] refuses).  A request either reaches the server and is
    answered, or fails before reaching it ([online] is false).  The page is
    the tracker page, on which the elements of the summary and the table
    body exist.  Messages written to the console are left out. *)
Module App.
Import JS Client.

(** [data.totalBudget] and [user.totalBudget] after [response.json()]: a
    Number or [null]. *)
Definition json_budget (c : option float) : value :=
  match c with Some x => json_number x | None => VNull end.

(** [data.user]: the object that [loadData] caches in [localStorage]. *)
Record user : Type := mkUser {
  id : Server.ObjectId;
  username : option string;
  email : option string;
  user_totalBudget : value
}.

Definition user_of_json (v : Server.UserView) : user :=
  {| id := Server.view_id v;
     username := Server.view_username v;
     email := Server.view_email v;
     user_totalBudget := json_budget (Server.view_totalBudget v) |}.

(** What the user sees besides the summary and the table. *)
Inductive event : Type :=
| Alert (message : string)
| FormReset          (* this.reset() *)
| SetDefaultDate     (* setDefaultDate() *)
| FocusItem.         (* document.getElementById('item').focus() *)

(** The texts of the three summary elements, without the currency sign,
    and the class [negative] of the balance. *)
Record summary : Type := mkSummary {
  budgetEl : string;
  spentEl : string;
  balanceEl : string;
  balance_negative : bool
}.

Record page : Type := mkPage {
  token : option Server.auth_header;   (* localStorage 'token' *)
  cached_user : option user;           (* localStorage 'user' *)
  href : option string;                (* the last assignment to window.location.href *)
  totalBudget : float;
  expenses : list expense;
  summaryEl : option summary;          (* [None] until the summary is first written *)
  tbody : option table;                (* [None] until the table is first written *)
  events : list event                  (* in the order they happen *)
}.

Definition set_session (t : option Server.auth_header) (u : option user)
    (h : option string) (p : page) : page :=
  mkPage t u h (totalBudget p) (expenses p) (summaryEl p) (tbody p) (events p).

Definition set_cached_user (u : user) (p : page) : page :=
  mkPage (token p) (Some u) (href p) (totalBudget p) (expenses p) (summaryEl p) (tbody p)
         (events p).

Definition set_totalBudget (x : float) (p : page) : page :=
  mkPage (token p) (cached_user p) (href p) x (expenses p) (summaryEl p) (tbody p) (events p).

Definition set_expenses (l : list expense) (p : page) : page :=
  mkPage (token p) (cached_user p) (href p) (totalBudget p) l (summaryEl p) (tbody p)
         (events p).

Definition emit (e : event) (p : page) : page :=
  mkPage (token p) (cached_user p) (href p) (totalBudget p) (expenses p) (summaryEl p)
         (tbody p) (events p ++ [e]).

Definition alert (message : string) : page -> page := emit (Alert message).

(** [authHeaders()] (script.js 18-23), as the server reads it. *)
Definition authHeaders (p : page) : Server.auth_header :=
  match token p with Some a => a | None => Server.InvalidToken end.

(** [logout()] (script.js 33-37). *)
Definition logout (p : page) : page := set_session None None (Some "login.html") p.

(** [response.ok]. *)
Definition ok (r : Server.response) : bool :=
  (200 <=? Server.status r) && (Server.status r <=? 299).

(** The fields that the API functions read in a body.  With a 2xx status
    each route sends the body its reader expects; the other cases stand
    for an absent field. *)
Definition body_expenses (b : Server.body) : list expense :=
  match b with Server.Expenses l => map of_json l | _ => [] end.

Definition body_user (b : Server.body) : option user :=
  match b with Server.Profile v => Some (user_of_json v) | _ => None end.

Definition body_created (b : Server.body) : option expense :=
  match b with Server.Created e => Some (of_json e) | _ => None end.

Definition body_error (b : Server.body) : option string :=
  match b with Server.Error msg => Some msg | _ => None end.

(** [data.totalBudget] when it is a Number; [None] is [null]. *)
Definition body_totalBudget (b : Server.body) : option float :=
  match b with
  | Server.Budget _ c => match json_budget c with VNum y => Some y | _ => None end
  | _ => None
  end.

(** [user.totalBudget || 0]. *)
Definition or_zero (v : value) : float :=
  match v with
  | VNum x => if truthy v then x else zero
  | _ => zero
  end.

(** [expenses.reduce((sum, exp) => sum + parseFloat(exp.amount), 0)]. *)
Definition totalSpent (l : list expense) : float :=
  fold_left (fun sum exp => PrimFloat.add sum (parseFloat (amount exp))) l zero.

(** Asynchronous client code: a function on the page and the database that
    gives a result, or [None] when an [await] never resumes because the
    request is never answered. *)
Definition world : Type := page * Server.DB.
Definition task (A : Type) : Type := world -> option A * world.

Definition ret {A : Type} (a : A) : task A := fun w => (Some a, w).

Definition bind {A B : Type} (m : task A) (k : A -> task B) : task B :=
  fun w =>
    match m w with
    | (Some a, w') => k a w'
    | (None, w') => (None, w')
    end.

Definition update (f : page -> page) : task unit :=
  fun w => (Some tt, (f (fst w), snd w)).

Notation "x <-- m ;; k" := (bind m (fun x => k))
  (at level 61, m at next level, right associativity).
Notation "m ;;; k" := (bind m (fun _ => k))
  (at level 61, right associativity).

Section Handlers.

Variable bcrypt_hash : string -> string.
Variable choose : list Server.User -> option Server.User.

(** Whether [fetch] reaches the server. *)
Variable online : bool.

(** The ObjectId that the server casts a path segment to. *)
Variable cast_id : string -> option Server.ObjectId.

Variable Date_parse : string -> option Z.

(** [updateDisplay()] (script.js 130-144). *)
Definition updateDisplay (p : page) : page :=
  let spent := totalSpent (expenses p) in
  let balanceLeft := PrimFloat.sub (totalBudget p) spent in
  let s := {| budgetEl := toFixed2 (totalBudget p);
              spentEl := toFixed2 spent;
              balanceEl := toFixed2 balanceLeft;
              balance_negative := PrimFloat.ltb balanceLeft zero |} in
  let '(sorted, t) := updateTable Date_parse (totalBudget p) (expenses p) in
  mkPage (token p) (cached_user p) (href p) (totalBudget p) sorted (Some s) (Some t)
         (events p).

(** [apiRequest(url, options)] (script.js 40-57); [route] is the handler
    that the method and the path select, given the header. *)
Definition apiRequest (route : Server.auth_header -> Server.prog Server.response)
  : task (option Server.response) :=
  fun w =>
    let '(p, db) := w in
    if online then
      match Server.run bcrypt_hash choose (route (authHeaders p)) db with
      | (Server.Returned response, db') =>
          if Server.status response =? 401 then (Some None, (logout p, db'))
          else (Some (Some response), (p, db'))
      | (Server.Thrown, db') => (None, (p, db'))
      end
    else
      (Some None,
       (alert "Cannot connect to server. Please make sure the backend is running." p, db)).

(** [fetchExpenses()] (script.js 59-65). *)
Definition fetchExpenses : task (list expense) :=
  res <-- apiRequest Server.expenses_get ;;
  match res with
  | Some r => if ok r then ret (body_expenses (Server.json r)) else ret []
  | None => ret []
  end.

(** [fetchUserProfile()] (script.js 67-74). *)
Definition fetchUserProfile : task (option user) :=
  res <-- apiRequest Server.me ;;
  match res with
  | Some r => if ok r then ret (body_user (Server.json r)) else ret None
  | None => ret None
  end.

(** [addExpense(expense)] (script.js 76-89); the fields are those of the
    object literal of the form handler, [amount] a Number. *)
Definition addExpense (e : Server.env) (date item : string) (amount : float)
    (quantity mode : string) : task (option expense) :=
  res <-- apiRequest (fun a =>
            Server.expenses_post e a (VStr date) (VStr item) (json_number amount)
                                 (VStr quantity) (VStr mode)) ;;
  match res with
  | Some r =>
      if ok r then ret (body_created (Server.json r))
      else
        let message :=
          match body_error (Server.json r) with
          | Some msg => if truthy (VStr msg) then msg else "Failed to add expense."
          | None => "Failed to add expense."
          end in
        update (alert message) ;;; ret None
  | None => ret None
  end.

(** [deleteExpense(id)] (script.js 91-94), for the id of a rendered row. *)
Definition deleteExpense (id : string) : task bool :=
  res <-- apiRequest (fun a => Server.expenses_delete_id a (cast_id id)) ;;
  match res with
  | Some r => ret (ok r)
  | None => ret false
  end.

(** [clearAllData()] (script.js 96-99). *)
Definition clearAllData : task bool :=
  res <-- apiRequest Server.expenses_delete ;;
  match res with
  | Some r => ret (ok r)
  | None => ret false
  end.

(** [setBudget(amount)] (script.js 101-111). *)
Definition setBudget (amount : float) : task (option float) :=
  res <-- apiRequest (fun a => Server.budget_set a (json_number amount)) ;;
  match res with
  | Some r => if ok r then ret (body_totalBudget (Server.json r)) else ret None
  | None => ret None
  end.

(** [addMoneyToBudget(amount)] (script.js 113-123). *)
Definition addMoneyToBudget (amount : float) : task (option float) :=
  res <-- apiRequest (fun a => Server.budget_add a (json_number amount)) ;;
  match res with
  | Some r => if ok r then ret (body_totalBudget (Server.json r)) else ret None
  | None => ret None
  end.

(** [loadData()] (script.js 195-204). *)
Definition loadData : task unit :=
  user <-- fetchUserProfile ;;
  match user with
  | Some u => update (fun p => set_cached_user u (set_totalBudget (or_zero (user_totalBudget u)) p))
  | None => ret tt
  end ;;;
  l <-- fetchExpenses ;;
  update (fun p => updateDisplay (set_expenses l p)).

(** The submit handler of the expense form (script.js 227-248), on the
    values of the five inputs. *)
Definition on_submit (e : Server.env) (date item quantity amount mode : string)
  : task unit :=
  let item := trim item in
  let quantity := trim quantity in
  if negb (truthy (VStr date)) || negb (truthy (VStr item)) || negb (truthy (VStr quantity))
     || negb (truthy (VStr amount)) || negb (truthy (VStr mode)) then
    update (alert "Please fill in all fields.")
  else
    newExpense <-- addExpense e date item (parseFloat (VStr amount)) quantity mode ;;
    match newExpense with
    | Some x =>
        update (fun p =>
          emit FocusItem (emit SetDefaultDate (emit FormReset
            (updateDisplay (set_expenses (expenses p ++ [x]) p)))))
    | None => ret tt
    end.

(** The click handler of the table body (script.js 254-262); [target] is
    the [data-id] of the clicked delete button, [None] for a click
    elsewhere. *)
Definition on_delete_click (target : option string) : task unit :=
  match target with
  | Some id =>
      deleted <-- deleteExpense id ;;
      if deleted then
        update (fun p =>
          updateDisplay
            (set_expenses (filter (fun exp => negb (String.eqb (_id exp) id)) (expenses p)) p))
      else ret tt
  | None => ret tt
  end.

(** The click handler of "set budget" (script.js 268-280); [budget] is the
    answer to the prompt, [None] when it is cancelled. *)
Definition on_set_budget (budget : option string) : task unit :=
  match budget with
  | Some text =>
      if negb (is_nan (parseFloat (VStr text))) && PrimFloat.leb zero (parseFloat (VStr text))
      then
        newBudget <-- setBudget (parseFloat (VStr text)) ;;
        match newBudget with
        | Some y => update (fun p => updateDisplay (set_totalBudget y p))
        | None => ret tt
        end
      else update (alert "Please enter a valid positive number.")
  | None => ret tt
  end.

(** The click handler of "add money" (script.js 286-298). *)
Definition on_add_money (addAmount : option string) : task unit :=
  match addAmount with
  | Some text =>
      if negb (is_nan (parseFloat (VStr text))) && PrimFloat.ltb zero (parseFloat (VStr text))
      then
        newBudget <-- addMoneyToBudget (parseFloat (VStr text)) ;;
        match newBudget with
        | Some y => update (fun p => updateDisplay (set_totalBudget y p))
        | None => ret tt
        end
      else update (alert "Please enter a valid positive number.")
  | None => ret tt
  end.

(** The click handler of "clear data" (script.js 304-313); [confirmed] is
    the answer to the confirmation. *)
Definition on_clear_data (confirmed : bool) : task unit :=
  if confirmed then
    cleared <-- clearAllData ;;
    if cleared then
      update (fun p => updateDisplay (set_expenses [] (set_totalBudget zero p)))
    else ret tt
  else ret tt.

End Handlers.

End App.

(* ================================================================== *)
(** * Observations used in the statements *)
(* ================================================================== *)

Module ServerObs.
Import JS Mongoose Server.

Definition stored_budget (uid : ObjectId) (db : DB) : option (option float) :=
  option_map totalBudget (find_user uid db).

Definition passwords (db : DB) : list string := map password (users db).

(** After a save that assigns [c] to the budget of [uid] in [db], giving
    [db']: the expenses and the other accounts are as before, and the
    stored total is [c]; when the stored total already is strictly equal
    ([===]) to [c], the path is not modified and nothing is written. *)
Definition budget_written (db db' : DB) (uid : ObjectId) (c : option float) : Prop :=
  expenses db' = expenses db /\
  (forall other, other <> uid -> find_user other db' = find_user other db) /\
  (stored_budget uid db' = Some c \/
   (db' = db /\ exists old, stored_budget uid db = Some old /\ same_budget old c = true)).

(** The order of the listing, as a relation: earlier date first, and on
    equal dates the record created first. *)
Definition date_lt (a b : string) : Prop := OrdersEx.String_as_OT.lt a b.

Definition expense_le (a b : Expense) : Prop :=
  date_lt (date a) (date b) \/ (date a = date b /\ createdAt a <= createdAt b).

Definition id_unused (i : ObjectId) (db : DB) : Prop :=
  existsb (fun x => (e_id x =? i)%N) (expenses db) = false.

(** What the handlers rely on from [findOne]: it returns one of the
    documents that match, and it returns one whenever some document matches. *)
Definition lookup_ok (choose : list User -> option User) : Prop :=
  (forall l u, choose l = Some u -> In u l) /\
  (forall l, l <> [] -> choose l <> None).

Definition email_registered : string := "Email already registered.".
Definition username_taken : string := "Username already taken.".

Definition valid_budget_amount : string := "Please provide a valid budget amount.".
Definition valid_amount_to_add : string := "Please provide a valid amount to add.".

End ServerObs.

Module ClientObs.
Import JS Client.

(** The running balance after the first rows: the budget with their amounts
    subtracted one after the other, in floating point. *)
Definition balance_after (budget : float) (l : list expense) : float :=
  fold_left (fun acc exp => PrimFloat.sub acc (parseFloat (amount exp))) l budget.

Definition parses (Date_parse : string -> option Z) (exp : expense) : Prop :=
  Date_parse (date exp) <> None.

(** [a] is dated no later than [b]. *)
Definition date_le (Date_parse : string -> option Z) (a b : expense) : Prop :=
  exists x y, Date_parse (date a) = Some x /\ Date_parse (date b) = Some y /\ x <= y.

End ClientObs.

Module ExtraObs.
Import JS Mongoose Server.

(** No valid session: the token is missing or refused, or it names an
    account that is not in the store. *)
Definition unauthenticated (a : auth_header) (db : DB) : Prop :=
  match a with
  | NoToken | InvalidToken => True
  | ValidToken uid => find_user uid db = None
  end.

(** The request is answered 401 and the database is left as it is. *)
Definition denied (r : outcome response * DB) (db : DB) : Prop :=
  exists msg, r = (Returned (mkResponse 401 (Error msg)), db).

(** The unique indexes of the user collection. *)
Definition users_unique (db : DB) : Prop :=
  NoDup (map u_id (users db)) /\
  NoDup (map username (users db)) /\
  NoDup (map email (users db)).

(** Everything stored for account [B]: its record and its expenses. *)
Definition data_of (B : ObjectId) (db : DB) : option User * list Expense :=
  (find_user B db, ledger B db).

(** The request is not made in the name of [B]. *)
Definition not_as (B : ObjectId) (a : auth_header) : Prop :=
  match a with
  | ValidToken uid => uid <> B
  | _ => True
  end.

(** The account a successful signup stores. *)
Definition new_account (bcrypt_hash : string -> string) (e : env) (un em pw : string) : User :=
  {| u_id := fresh_id e;
     username := trim un;
     email := toLowerCase (trim em);
     password := bcrypt_hash pw;
     totalBudget := Some zero;
     u_createdAt := now e |}.

Definition public_view (u : User) : UserView :=
  mkView (u_id u) (Some (username u)) (Some (email u)) (totalBudget u).

(** A stored total is [null] or a Number that is not below zero. *)
Definition not_negative (c : option float) : Prop :=
  match c with
  | Some x => PrimFloat.ltb x zero = false
  | None => True
  end.

(** The writes a protected route makes in the name of the account [A] it
    authenticated: the save of [A]'s document after an assignment to
    [totalBudget], the insertion of an expense owned by [A], and the removal
    of one or of all expenses owned by [A]. *)
Inductive write (bcrypt_hash : string -> string) (A : ObjectId) : DB -> DB -> Prop :=
| write_budget db u v :
    find_user A db = Some u ->
    write bcrypt_hash A db
      (snd (save_user bcrypt_hash (set_totalBudget (hydrate false u) v) db))
| write_insert db d :
    edoc_userId d = A ->
    write bcrypt_hash A db (snd (save_expense d db))
| write_delete db i :
    write bcrypt_hash A db
      (mkDB (users db) (remove_first (id_and_owner i A) (expenses db)))
| write_deleteMany db :
    write bcrypt_hash A db
      (mkDB (users db) (filter (fun e => negb (owned_by A e)) (expenses db))).

Inductive writes (bcrypt_hash : string -> string) (A : ObjectId) : DB -> DB -> Prop :=
| writes_none db : writes bcrypt_hash A db db
| writes_more db db1 db2 :
    write bcrypt_hash A db db1 -> writes bcrypt_hash A db1 db2 ->
    writes bcrypt_hash A db db2.

End ExtraObs.

Module AppObs.
Import JS Client Server ServerObs.

(** The page holds a token that the server accepts for the stored account
    [uid]. *)
Definition logged_in (uid : ObjectId) (p : App.page) (db : DB) : Prop :=
  App.token p = Some (ValidToken uid) /\ exists u, find_user uid db = Some u.

(** The two globals of the page agree with the server: the array holds the
    expenses of the account as the API sends them, in some order, and the
    budget is the one a reload would show. *)
Definition mirrors (uid : ObjectId) (p : App.page) (db : DB) : Prop :=
  Permutation (App.expenses p) (map of_json (ledger uid db)) /\
  exists c, stored_budget uid db = Some c /\
            App.totalBudget p = App.or_zero (App.json_budget c).

Definition table_expenses (t : table) : list expense :=
  match t with
  | EmptyState => []
  | Rows rows => map row_expense rows
  end.

(** What is on the screen belongs to the globals: the budget shown is the
    global, and the table has one row for each element of the array, in
    the order of the array. *)
Definition displayed (p : App.page) : Prop :=
  exists s t,
    App.summaryEl p = Some s /\ App.tbody p = Some t /\
    App.budgetEl s = toFixed2 (App.totalBudget p) /\
    table_expenses t = App.expenses p.

Definition in_sync (uid : ObjectId) (p : App.page) (db : DB) : Prop :=
  mirrors uid p db /\ displayed p.

(** The path segment that the page sends for a stored expense is cast back
    to its id by the server. *)
Definition ids_round_trip (cast_id : string -> option ObjectId) (db : DB) : Prop :=
  forall x, In x (expenses db) -> cast_id (_id (of_json x)) = Some (e_id x).

(** The globals and what is on the screen are the same on both pages. *)
Definition same_view (p p' : App.page) : Prop :=
  App.totalBudget p' = App.totalBudget p /\ App.expenses p' = App.expenses p /\
  App.summaryEl p' = App.summaryEl p /\ App.tbody p' = App.tbody p.

Definition cannot_connect : string :=
  "Cannot connect to server. Please make sure the backend is running.".

End AppObs.

Module TableObs.
Import JS Client.
(** The record is dated on the day with time value [v]. *)
Definition on_day (Date_parse : string -> option Z) (v : Z) (exp : expense) : bool :=
  match Date_parse (date exp) with
  | Some t => t =? v
  | None => false
  end.

(** The date of the stored expense is in the format of the date input,
    YYYY-MM-DD. *)
Definition iso_dated (e : Server.Expense) : Prop := iso_date (Server.date e) <> None.

End TableObs.

(* ================================================================== *)
(** * Sample data *)
(* ================================================================== *)

Module Fixtures.
Import JS Server.

(** A stand-in for [bcrypt.hash], and the store that returns the first
    matching document. *)
Definition hash (s : string) : string := "$2a$12$" ++ s.
Definition first_match (l : list User) : option User := hd_error l.

Definition alice : User :=
  {| u_id := 1%N; username := "alice"; email := "a@x.com";
     password := hash "secret1"; totalBudget := Some 10%float; u_createdAt := 1000 |}.

Definition bob : User :=
  {| u_id := 2%N; username := "bob"; email := "b@x.com";
     password := hash "hunter22"; totalBudget := Some 0%float; u_createdAt := 1500 |}.

Definition tea : Expense :=
  {| e_id := 7%N; userId := 1%N; date := "2024-01-05"; item := "Tea";
     amount := 50%float; quantity := "1"; mode := "Cash"; createdAt := 3000 |}.

Definition rice : Expense :=
  {| e_id := 8%N; userId := 2%N; date := "2024-01-03"; item := "Rice";
     amount := 120%float; quantity := "2kg"; mode := "UPI"; createdAt := 3500 |}.

Definition db_users : DB := {| users := [alice; bob]; expenses := [] |}.

(** Two records of the client's array, in the order they were added. *)
Definition milk : Client.expense :=
  Client.mkExpense "65a0c1" "2024-01-10" "Milk" (VNum 1%float) "1" "Cash".
Definition salt : Client.expense :=
  Client.mkExpense "65a0c2" "2024-01-02" "Salt" (VNum 1%float) "1" "Cash".
Definition db_ledgers : DB := {| users := [alice; bob]; expenses := [tea; rice] |}.

End Fixtures.

Module ExtraFixtures.
Import JS Server Fixtures.

(** A stand-in for [bcrypt.compare] that fits [hash]. *)
Definition compare (s h : string) : bool := String.eqb (hash s) h.

(** A registration that the store of [db_users] accepts. *)
Definition carol_env : env := mkEnv 3%N 2000.
Definition carol_name : string := " carol ".
Definition carol_email : string := "Carol@X.com".
Definition carol_password : string := "secret3".

(** The tracker page of alice before anything is loaded, and after her
    tea has been loaded from [db_ledgers]. *)
Definition page0 : App.page :=
  App.mkPage (Some (ValidToken 1%N)) None None 0%float [] None None [].

(** A stand-in for the cast of a path segment to an id: a decimal
    numeral. *)
Definition parse_id (s : string) : option ObjectId :=
  let '(n, k, r) := scan_digits s 0 0 in
  if (0 <? k) && String.eqb r "" then Some (Z.to_N n) else None.

(** The page of alice after [loadData] against [db_ledgers]. *)
Definition page1 : App.page :=
  fst (snd (App.loadData hash first_match true Client.iso_date (page0, db_ledgers))).

(** A third record of the client's array, of the same day as [milk]. *)
Definition bread : Client.expense :=
  Client.mkExpense "65a0c3" "2024-01-10" "Bread" (VNum 2%float) "1" "UPI".

(** A page whose token names an account that is not stored. *)
Definition page9 : App.page :=
  App.mkPage (Some (ValidToken 9%N)) None None 0%float [] None None [].

End ExtraFixtures.

(* ================================================================== *)
(** * Properties of the stable sort *)
(* ================================================================== *)

Module SortProps.
Import StableSort.

Section Facts.
Context {A : Type}.
Variable before : A -> A -> bool.

Lemma insert_perm x l : Permutation (insert before x l) (x :: l).
Proof.
  induction l as [|y t IH]; simpl; [apply Permutation_refl|].
  destruct (before x y); [apply Permutation_refl|].
  eapply perm_trans; [apply perm_skip, IH | apply perm_swap].
Qed.

Lemma sort_perm l : Permutation (sort before l) l.
Proof.
  induction l as [|x t IH]; simpl; [apply perm_nil|].
  eapply perm_trans; [apply insert_perm | apply perm_skip, IH].
Qed.

Lemma sort_length l : List.length (sort before l) = List.length l.
Proof. apply Permutation_length, sort_perm. Qed.

(** Elements on which [before] is a total preorder. *)
Variable P : A -> Prop.
Hypothesis before_total :
  forall x y, P x -> P y -> before x y = false -> before y x = true.
Hypothesis before_trans :
  forall x y z, P x -> P y -> P z ->
    before x y = true -> before y z = true -> before x z = true.

Let ordered (x y : A) : Prop := before x y = true.

Lemma insert_sorted x l :
  P x -> Forall P l -> StronglySorted ordered l ->
  StronglySorted ordered (insert before x l).
Proof.
  intros Px Pl Hs. induction Hs as [|y t Ht IH Hy]; simpl.
  - constructor; constructor.
  - inversion Pl as [|? ? Py Pt]; subst.
    destruct (before x y) eqn:E.
    + constructor; [constructor; assumption|].
      constructor; [exact E|].
      rewrite Forall_forall in Hy, Pt |- *. intros z Hz.
      apply (before_trans x y z); auto. apply Hy; exact Hz.
    + constructor; [apply IH; exact Pt|].
      rewrite Forall_forall in Hy |- *. intros z Hz.
      apply (Permutation_in _ (insert_perm x t)) in Hz. destruct Hz as [<-|Hz].
      * apply before_total; assumption.
      * apply Hy; exact Hz.
Qed.

Lemma sort_sorted l : Forall P l -> StronglySorted ordered (sort before l).
Proof.
  induction 1 as [|x t Px Pt IH]; simpl; [constructor|].
  apply insert_sorted; [exact Px | | exact IH].
  rewrite Forall_forall in Pt |- *. intros z Hz. apply Pt.
  apply (Permutation_in _ (sort_perm t)); exact Hz.
Qed.
End Facts.
End SortProps.

(* ================================================================== *)
(** * Properties of the server *)
(* ================================================================== *)

Module ServerProps.
Import JS Mongoose Server ServerObs.

Section Store.

Variable bcrypt_hash : string -> string.
Variable choose : list User -> option User.

Local Abbreviation run := (run bcrypt_hash choose).
Local Abbreviation trace := (trace bcrypt_hash choose).
Local Abbreviation save_user := (save_user bcrypt_hash).

Lemma find_user_id uid db u : find_user uid db = Some u -> u_id u = uid.
Proof.
  unfold find_user. intros H. apply find_some in H. destruct H as [_ H].
  now apply N.eqb_eq in H.
Qed.

Lemma apply_modified_unmodified d u :
  doc_modified d = [] -> apply_modified d u = u.
Proof.
  intros H. unfold apply_modified, isModified. rewrite H. simpl. now destruct u.
Qed.

Lemma update_user_unmodified d l :
  doc_modified d = [] -> update_user d l = l.
Proof.
  intros H. unfold update_user. induction l as [|u t IH]; simpl; [reflexivity|].
  rewrite IH. destruct (u_id u =? doc_id d)%N; [rewrite apply_modified_unmodified|]; auto.
Qed.

Lemma find_user_update d us es uid :
  find_user uid (mkDB (update_user d us) es)
  = option_map (fun u => if (u_id u =? doc_id d)%N then apply_modified d u else u)
               (find_user uid (mkDB us es)).
Proof.
  unfold find_user, update_user. simpl. induction us as [|u t IH]; simpl; [reflexivity|].
  destruct (u_id u =? doc_id d)%N eqn:E; simpl.
  - destruct (u_id u =? uid)%N; simpl; [rewrite E; reflexivity | exact IH].
  - destruct (u_id u =? uid)%N; simpl; [rewrite E; reflexivity | exact IH].
Qed.

Lemma passwords_update d us :
  isModified d P_password = false ->
  map password (update_user d us) = map password us.
Proof.
  intros H. unfold update_user. rewrite map_map. apply map_ext. intros u.
  destruct (u_id u =? doc_id d)%N; [|reflexivity].
  unfold apply_modified. rewrite H. reflexivity.
Qed.

(** The pre-save hook leaves a document alone unless [password] was
    modified. *)
Lemma pre_save_unmodified d :
  isModified d P_password = false -> pre_save bcrypt_hash d = Some d.
Proof. intros H. unfold pre_save. now rewrite H. Qed.

(** ... and hashes the password when it was. *)
Lemma pre_save_modified d pw :
  isModified d P_password = true -> doc_password d = Some pw ->
  option_map doc_password (pre_save bcrypt_hash d) = Some (Some (bcrypt_hash pw)).
Proof. intros H P. unfold pre_save. rewrite H, P. reflexivity. Qed.

Lemma set_totalBudget_isNew d v : doc_isNew (set_totalBudget d v) = doc_isNew d.
Proof. unfold set_totalBudget. now destruct (castNumber v). Qed.

Lemma set_totalBudget_password_unmodified d v :
  isModified d P_password = false ->
  isModified (set_totalBudget d v) P_password = false.
Proof.
  unfold set_totalBudget, isModified. intros H.
  destruct (castNumber v); simpl; [|exact H].
  destruct (same_budget (doc_totalBudget d) x); simpl; exact H.
Qed.

(** Saving a loaded document whose password is unmodified changes no
    stored password. *)
Lemma save_user_passwords d db :
  doc_isNew d = false -> isModified d P_password = false ->
  passwords (snd (save_user d db)) = passwords db.
Proof.
  intros Hn Hm. unfold Server.save_user.
  destruct (validate_user d); simpl; [|reflexivity].
  rewrite (pre_save_unmodified d Hm), Hn. simpl.
  unfold passwords. simpl. now apply passwords_update.
Qed.

(** Saving the loaded document of [u] after [totalBudget = v] when the
    cast of [v] succeeds. *)
Lemma save_set_totalBudget db uid u v c :
  find_user uid db = Some u ->
  castNumber v = CastOk c ->
  exists d' db',
    save_user (set_totalBudget (hydrate false u) v) db = (Some d', db') /\
    doc_totalBudget d' = c /\
    budget_written db db' uid c.
Proof.
  intros Hu Hc. pose proof (find_user_id _ _ _ Hu) as Hid.
  unfold Server.save_user, set_totalBudget, validate_user, pre_save, isModified.
  rewrite Hc. simpl.
  destruct (same_budget (totalBudget u) c) eqn:Hs; simpl.
  - eexists _, _. split; [reflexivity|]. split; [reflexivity|].
    assert (Hdb : mkDB (update_user (mkUserDoc (u_id u) false (Some (username u))
                     (Some (email u)) None c (u_createdAt u) [] false) (users db))
                     (expenses db) = db).
    { destruct db as [us es]. simpl. f_equal. now apply update_user_unmodified. }
    rewrite Hdb. split; [reflexivity|]. split; [reflexivity|]. right.
    split; [reflexivity|].
    exists (totalBudget u). unfold stored_budget. rewrite Hu. auto.
  - eexists _, _. split; [reflexivity|]. split; [reflexivity|].
    split; [reflexivity|]. destruct db as [us es]. split.
    + intros other Hne. simpl. rewrite find_user_update.
      destruct (find_user other (mkDB us es)) as [w|] eqn:Hw; [|reflexivity].
      apply find_user_id in Hw. simpl.
      replace (u_id w =? u_id u)%N with false; [reflexivity|].
      symmetry. apply N.eqb_neq. congruence.
    + left. unfold stored_budget. simpl.
      rewrite find_user_update, Hu. simpl. rewrite Hid, N.eqb_refl. reflexivity.
Qed.

(** A value that passes the guard [amount === undefined || isNaN(amount)]
    casts to the schema type Number. *)
Lemma castNumber_of_guard v :
  is_undefined v = false -> isNaN v = false ->
  exists c, castNumber v = CastOk c /\ (forall x, v = VNum x -> c = Some x).
Proof.
  unfold isNaN. destruct v as [| |b|x|s]; simpl; intros Hu Hn; try discriminate.
  - exists None. split; [reflexivity | discriminate].
  - exists (Some (if b then one else zero)). rewrite Hn. split; [reflexivity | discriminate].
  - exists (Some x). rewrite Hn. split; [reflexivity|]. intros y [= ->]. reflexivity.
  - destruct s as [|a s'].
    + exists None. split; [reflexivity | discriminate].
    + exists (Some (StringToNumber (String a s'))). rewrite Hn.
      split; [reflexivity | discriminate].
Qed.

(** What PUT /api/budget/set does with an amount that passes its guard. *)
Lemma budget_set_accepted db uid u amount :
  find_user uid db = Some u ->
  is_undefined amount || isNaN amount || lt_num amount zero = false ->
  let r := run (budget_set (ValidToken uid) amount) db in
  exists c, castNumber amount = CastOk c /\
    fst r = Returned (mkResponse 200 (Budget "Budget updated." c)) /\
    budget_written db (snd r) uid c.
Proof.
  intros Hu G r. apply orb_false_elim in G. destruct G as [G G3].
  apply orb_false_elim in G. destruct G as [G1 G2].
  destruct (castNumber_of_guard amount G1 G2) as (c & Hc & _).
  destruct (save_set_totalBudget db uid u amount c Hu Hc) as (d' & db' & Hs & Hd & Hw).
  exists c. split; [exact Hc|].
  subst r. unfold budget_set, authMiddleware, res. cbn [Server.run exec].
  rewrite Hu. cbn [option_map Server.run]. rewrite G1, G2, G3.
  cbn [orb Server.run exec]. rewrite Hs. cbn. rewrite Hd.
  split; [reflexivity | exact Hw].
Qed.

(** C4 (as amended).  For an authenticated account, PUT /api/budget/set
    answers 400 and leaves the database unchanged exactly when [amount] is
    absent, converts to NaN or converts to a Number below zero.  Every other
    amount is cast to a Number [c] (or [null]), [c] becomes the stored
    total and is returned; for a Number [x] that is not negative, [c] is
    [x] itself. *)
Theorem budget_set_spec db uid u amount :
  find_user uid db = Some u ->
  let r := run (budget_set (ValidToken uid) amount) db in
  (if is_undefined amount || isNaN amount || lt_num amount zero then
     r = (Returned (mkResponse 400 (Error valid_budget_amount)), db)
   else
     exists c, castNumber amount = CastOk c /\
       fst r = Returned (mkResponse 200 (Budget "Budget updated." c)) /\
       budget_written db (snd r) uid c) /\
  (forall x, amount = VNum x -> is_nan x = false -> PrimFloat.ltb x zero = false ->
     fst r = Returned (mkResponse 200 (Budget "Budget updated." (Some x))) /\
     budget_written db (snd r) uid (Some x)).
Proof.
  intros Hu r. split.
  - destruct (is_undefined amount || isNaN amount || lt_num amount zero) eqn:G.
    + subst r. unfold budget_set, authMiddleware, res. cbn [Server.run exec].
      rewrite Hu. cbn [option_map Server.run]. rewrite G. reflexivity.
    + exact (budget_set_accepted db uid u amount Hu G).
  - intros x -> Hn Hl.
    destruct (budget_set_accepted db uid u (VNum x) Hu) as (c & Hc & Hr & Hw).
    { unfold isNaN, lt_num. simpl. now rewrite Hn, Hl. }
    simpl in Hc. rewrite Hn in Hc. injection Hc as <-. split; assumption.
Qed.

Lemma save_cast_error db u v :
  castNumber v = CastError ->
  save_user (set_totalBudget (hydrate false u) v) db = (None, db).
Proof.
  intros Hc. unfold Server.save_user, set_totalBudget, validate_user.
  rewrite Hc. reflexivity.
Qed.

(** C5 (as amended).  For an authenticated account, PUT /api/budget/add
    answers 400 and leaves the database unchanged exactly when [amount] is
    absent, converts to NaN or converts to a Number that is not above zero.
    Otherwise [totalBudget += amount] is evaluated with JavaScript's [+] and
    cast to a Number: for a Number [x > 0] the new stored total is the
    floating-point sum of the old total ([null] counting as 0) and [x], and
    it is returned. *)
Theorem budget_add_spec db uid u amount :
  find_user uid db = Some u ->
  let r := run (budget_add (ValidToken uid) amount) db in
  (if is_undefined amount || isNaN amount || le_num amount zero then
     r = (Returned (mkResponse 400 (Error valid_amount_to_add)), db)
   else
     match castNumber (plus (budget_value u) amount) with
     | CastOk c =>
         fst r = Returned (mkResponse 200 (Budget "Money added to budget." c)) /\
         budget_written db (snd r) uid c
     | CastError => r = (Returned (mkResponse 500 (Error "Server error.")), db)
     end) /\
  (forall x, amount = VNum x -> is_nan x = false -> PrimFloat.leb x zero = false ->
     let total := PrimFloat.add (ToNumber (budget_value u)) x in
     is_nan total = false ->
     fst r = Returned (mkResponse 200 (Budget "Money added to budget." (Some total))) /\
     budget_written db (snd r) uid (Some total)).
Proof.
  intros Hu r.
  assert (Hrun : r =
     if is_undefined amount || isNaN amount || le_num amount zero then
       (Returned (mkResponse 400 (Error valid_amount_to_add)), db)
     else
       match save_user (set_totalBudget (hydrate false u) (plus (budget_value u) amount)) db with
       | (Some d, db') =>
           (Returned (mkResponse 200 (Budget "Money added to budget." (doc_totalBudget d))), db')
       | (None, db') => (Returned (mkResponse 500 (Error "Server error.")), db')
       end).
  { subst r. unfold budget_add, authMiddleware, res. cbn [Server.run exec].
    rewrite Hu. cbn [option_map Server.run].
    destruct (is_undefined amount || isNaN amount || le_num amount zero); [reflexivity|].
    cbn [Server.run exec].
    change (get_totalBudget (hydrate false u)) with (budget_value u).
    destruct (save_user _ db) as [[d|] db']; reflexivity. }
  assert (Hacc : is_undefined amount || isNaN amount || le_num amount zero = false ->
     match castNumber (plus (budget_value u) amount) with
     | CastOk c =>
         fst r = Returned (mkResponse 200 (Budget "Money added to budget." c)) /\
         budget_written db (snd r) uid c
     | CastError => r = (Returned (mkResponse 500 (Error "Server error.")), db)
     end).
  { intros G. rewrite G in Hrun.
    destruct (castNumber (plus (budget_value u) amount)) as [c|] eqn:Hc.
    - destruct (save_set_totalBudget db uid u _ c Hu Hc) as (d' & db' & Hs & Hd & Hw).
      rewrite Hs in Hrun. rewrite Hrun, Hd. split; [reflexivity | exact Hw].
    - rewrite (save_cast_error db u _ Hc) in Hrun. exact Hrun. }
  split.
  - destruct (is_undefined amount || isNaN amount || le_num amount zero) eqn:G.
    + exact Hrun.
    + apply Hacc. reflexivity.
  - intros x -> Hn Hl total Ht.
    assert (G : is_undefined (VNum x) || isNaN (VNum x) || le_num (VNum x) zero = false).
    { unfold isNaN, le_num. simpl. now rewrite Hn, Hl. }
    specialize (Hacc G).
    assert (Hp : plus (budget_value u) (VNum x) = VNum total).
    { subst total. unfold budget_value. destruct (totalBudget u); reflexivity. }
    rewrite Hp in Hacc.
    change (castNumber (VNum total))
      with (if is_nan total then @CastError float else CastOk (Some total)) in Hacc.
    rewrite Ht in Hacc. exact Hacc.
Qed.

(** C10.  The guard of PUT /api/budget/set counts only [undefined] as a
    missing amount.  [null] passes it ([isNaN(null)] and [null < 0] are both
    false) and is written as the budget total; the numeric string ["5"]
    passes it and is written as the Number 5; neither is answered 400. *)
Theorem budget_set_null_and_string db uid u :
  find_user uid db = Some u ->
  (forall v, is_undefined v = true <-> v = VUndefined) /\
  (isNaN VNull = false /\ lt_num VNull zero = false) /\
  (isNaN (VStr "5") = false /\ lt_num (VStr "5") zero = false) /\
  (let r := run (budget_set (ValidToken uid) VNull) db in
   fst r = Returned (mkResponse 200 (Budget "Budget updated." None)) /\
   budget_written db (snd r) uid None) /\
  (let r := run (budget_set (ValidToken uid) (VStr "5")) db in
   fst r = Returned (mkResponse 200 (Budget "Budget updated." (Some 5%float))) /\
   budget_written db (snd r) uid (Some 5%float)).
Proof.
  intros Hu. split; [|split; [|split; [|split]]].
  - intros v. destruct v; simpl; split; intros H; try discriminate; reflexivity.
  - split; reflexivity.
  - split; vm_compute; reflexivity.
  - destruct (budget_set_accepted db uid u VNull Hu eq_refl) as (c & Hc & Hr & Hw).
    simpl in Hc. injection Hc as <-. split; assumption.
  - assert (G : is_undefined (VStr "5") || isNaN (VStr "5") || lt_num (VStr "5") zero
                = false) by (vm_compute; reflexivity).
    destruct (budget_set_accepted db uid u (VStr "5") Hu G) as (c & Hc & Hr & Hw).
    replace (castNumber (VStr "5")) with (CastOk (Some 5%float)) in Hc
      by (vm_compute; reflexivity).
    injection Hc as <-. split; assumption.
Qed.

Lemma hydrate_password_unmodified b u v :
  doc_isNew (set_totalBudget (hydrate b u) v) = false /\
  isModified (set_totalBudget (hydrate b u) v) P_password = false.
Proof.
  split; [now rewrite set_totalBudget_isNew|].
  now apply set_totalBudget_password_unmodified.
Qed.

Ltac save_keeps_passwords :=
  match goal with
  | |- context [Server.save_user ?h (set_totalBudget (hydrate ?b ?u) ?v) ?db] =>
      let H := fresh "H" in
      destruct (hydrate_password_unmodified b u v) as [?Hn ?Hm];
      pose proof (save_user_passwords (set_totalBudget (hydrate b u) v) db Hn Hm) as H;
      destruct (Server.save_user h (set_totalBudget (hydrate b u) v) db) as [[?d|] ?db'];
      cbn in H |- *; exact H
  end.

(** C9.  The pre-save hook returns the document as it is unless the path
    [password] was modified; the documents that PUT /api/budget/set,
    PUT /api/budget/add and DELETE /api/expenses save have only
    [totalBudget] assigned, so whatever the request, no stored password
    hash changes. *)
Theorem budget_operations_keep_password_hash :
  (forall d, isModified d P_password = false -> pre_save bcrypt_hash d = Some d) /\
  (forall a amount db,
     passwords (snd (run (budget_set a amount) db)) = passwords db) /\
  (forall a amount db,
     passwords (snd (run (budget_add a amount) db)) = passwords db) /\
  (forall a db,
     passwords (snd (run (expenses_delete a) db)) = passwords db).
Proof.
  split; [exact pre_save_unmodified|]. split; [|split].
  - intros a amount db. unfold budget_set, authMiddleware, res.
    destruct a as [| |uid]; cbn [Server.run exec]; try reflexivity.
    destruct (find_user uid db) as [u|]; cbn [option_map Server.run]; [|reflexivity].
    destruct (is_undefined amount || isNaN amount || lt_num amount zero);
      cbn [Server.run exec]; [reflexivity|].
    save_keeps_passwords.
  - intros a amount db. unfold budget_add, authMiddleware, res.
    destruct a as [| |uid]; cbn [Server.run exec]; try reflexivity.
    destruct (find_user uid db) as [u|]; cbn [option_map Server.run]; [|reflexivity].
    destruct (is_undefined amount || isNaN amount || le_num amount zero);
      cbn [Server.run exec]; [reflexivity|].
    save_keeps_passwords.
  - intros a db. unfold expenses_delete, authMiddleware, res.
    destruct a as [| |uid]; cbn [Server.run exec]; try reflexivity.
    destruct (find_user uid db) as [u|]; cbn [option_map Server.run exec]; [|reflexivity].
    change (passwords db) with
      (passwords (mkDB (users db) (filter (fun e => negb (owned_by (doc_id (hydrate false u)) e))
                                          (expenses db)))).
    save_keeps_passwords.
Qed.

(** The store seen while DELETE /api/expenses is suspended after its first
    operation: the expenses of [uid] are gone, the users are untouched. *)
Lemma ledger_after_deleteMany uid db :
  ledger uid (mkDB (users db) (filter (fun e => negb (owned_by uid e)) (expenses db))) = [].
Proof.
  unfold ledger. simpl. induction (expenses db) as [|e t IH]; simpl; [reflexivity|].
  destruct (owned_by uid e) eqn:E; simpl; [exact IH | rewrite E; exact IH].
Qed.

(** C1 (as amended).  For an authenticated account DELETE /api/expenses is
    two successive store operations: [deleteMany] removes the account's
    expenses, then [save] writes the total 0.  When it returns the account
    has no expense and the total 0 has been written; the state between the
    two operations, which a concurrent read can see, has the expenses gone
    and the budget total as it was. *)
Theorem clear_two_steps db uid u :
  find_user uid db = Some u ->
  let db1 := mkDB (users db) (filter (fun e => negb (owned_by uid e)) (expenses db)) in
  exists db2,
    run (expenses_delete (ValidToken uid)) db
      = (Returned (mkResponse 200 (Message "All data cleared.")), db2) /\
    trace (expenses_delete (ValidToken uid)) db = [db; db1; db2] /\
    ledger uid db1 = [] /\ stored_budget uid db1 = stored_budget uid db /\
    ledger uid db2 = [] /\ budget_written db1 db2 uid (Some zero).
Proof.
  intros Hu db1. pose proof (find_user_id _ _ _ Hu) as Hid. subst uid.
  assert (Hu1 : find_user (u_id u) db1 = Some u) by exact Hu.
  destruct (save_set_totalBudget db1 (u_id u) u (VNum zero) (Some zero) Hu1 eq_refl)
    as (d' & db2 & Hs & Hd & Hw).
  exists db2.
  assert (Hl1 : ledger (u_id u) db1 = []) by apply ledger_after_deleteMany.
  unfold expenses_delete, authMiddleware, res.
  cbn [Server.run Server.trace exec]. rewrite Hu.
  cbn [option_map Server.run Server.trace exec].
  change (doc_id (hydrate false u)) with (u_id u). fold db1.
  rewrite Hs. cbn [Server.run Server.trace exec app].
  split; [reflexivity|]. split; [reflexivity|]. split; [exact Hl1|].
  split; [reflexivity|]. split; [|exact Hw].
  destruct Hw as [He _]. unfold ledger. rewrite He. exact Hl1.
Qed.

(** ** Listing *)

Lemma compare_Gt_Lt a b :
  OrdersEx.String_as_OT.compare a b = Gt -> OrdersEx.String_as_OT.compare b a = Lt.
Proof.
  intros H. destruct (OrdersEx.String_as_OT.compare_spec a b) as [E|E|E];
    try discriminate. exact E.
Qed.

Lemma compare_Eq_eq a b : OrdersEx.String_as_OT.compare a b = Eq -> a = b.
Proof.
  intros H. destruct (OrdersEx.String_as_OT.compare_spec a b) as [E|E|E];
    try discriminate. exact E.
Qed.

Lemma compare_refl a : OrdersEx.String_as_OT.compare a a = Eq.
Proof.
  destruct (OrdersEx.String_as_OT.compare_spec a a) as [E|E|E]; try reflexivity;
    exfalso; exact (StrictOrder_Irreflexive a E).
Qed.

Lemma expense_leb_spec a b : expense_leb a b = true <-> expense_le a b.
Proof.
  unfold expense_leb, expense_le, date_lt, OrdersEx.String_as_OT.lt.
  destruct (OrdersEx.String_as_OT.compare (date a) (date b)) eqn:E.
  - apply compare_Eq_eq in E as E'. rewrite Z.leb_le. split.
    + intros H. right. split; assumption.
    + intros [H|[_ H]]; [discriminate | exact H].
  - split; [intros _; left; reflexivity | reflexivity].
  - split; [discriminate|]. intros [H|[H _]]; [discriminate|].
    rewrite H, compare_refl in E. discriminate.
Qed.

Lemma expense_leb_total a b : expense_leb a b = false -> expense_leb b a = true.
Proof.
  unfold expense_leb.
  destruct (OrdersEx.String_as_OT.compare (date a) (date b)) eqn:E; try discriminate.
  - apply compare_Eq_eq in E. rewrite E, compare_refl. rewrite Z.leb_gt, Z.leb_le. lia.
  - intros _. now rewrite (compare_Gt_Lt _ _ E).
Qed.

Lemma expense_leb_trans a b c :
  expense_leb a b = true -> expense_leb b c = true -> expense_leb a c = true.
Proof.
  rewrite !expense_leb_spec. unfold expense_le, date_lt.
  intros [H1|[H1 L1]] [H2|[H2 L2]].
  - left. exact (StrictOrder_Transitive _ _ _ H1 H2).
  - left. rewrite <- H2. exact H1.
  - left. rewrite H1. exact H2.
  - right. split; [congruence | lia].
Qed.

Lemma sort_expenses_sorted l : StronglySorted expense_le (sort_expenses l).
Proof.
  assert (H : StronglySorted (fun x y => expense_leb x y = true) (sort_expenses l)).
  { apply (SortProps.sort_sorted expense_leb (fun _ => True)).
    - intros x y _ _. apply expense_leb_total.
    - intros x y z _ _ _. apply expense_leb_trans.
    - apply Forall_forall. trivial. }
  induction H as [|x t Ht IH Hx]; constructor; [exact IH|].
  rewrite Forall_forall in Hx |- *. intros y Hy. apply expense_leb_spec, Hx, Hy.
Qed.

Lemma run_expenses_get db uid u :
  find_user uid db = Some u ->
  run (expenses_get (ValidToken uid)) db
  = (Returned (mkResponse 200 (Expenses (sort_expenses (ledger uid db)))), db).
Proof.
  intros Hu. pose proof (find_user_id _ _ _ Hu) as Hid.
  unfold expenses_get, authMiddleware, res. cbn [Server.run exec].
  rewrite Hu. cbn. rewrite Hid. reflexivity.
Qed.

Lemma run_expenses_post_valid db uid u e da it am qu mo x :
  find_user uid db = Some u ->
  truthy (VStr da) = true -> truthy (VStr it) = true -> truthy am = true ->
  truthy (VStr qu) = true -> truthy (VStr mo) = true ->
  parseFloat am = x -> is_nan x = false ->
  id_unused (fresh_id e) db ->
  let r := {| e_id := fresh_id e; userId := uid; date := da; item := it; amount := x;
              quantity := qu; mode := mo; createdAt := now e |} in
  run (expenses_post e (ValidToken uid) (VStr da) (VStr it) am (VStr qu) (VStr mo)) db
  = (Returned (mkResponse 201 (Created r)), mkDB (users db) (expenses db ++ [r])).
Proof.
  intros Hu Hda Hit Ham Hqu Hmo Hx Hn Hid r. pose proof (find_user_id _ _ _ Hu) as Hi.
  unfold expenses_post, authMiddleware, res. cbn [Server.run exec].
  rewrite Hu. cbn [option_map Server.run]. rewrite Hda, Hit, Ham, Hqu, Hmo.
  cbn [negb orb Server.run exec]. unfold save_expense, validate_expense, new_Expense.
  cbn [edoc_date edoc_item edoc_amount edoc_quantity edoc_mode edoc_id edoc_userId
       edoc_createdAt castString ToString].
  rewrite Hx. change (castNumber (VNum x)) with
    (if is_nan x then @CastError float else CastOk (Some x)). rewrite Hn.
  simpl in Hda, Hit, Hqu, Hmo. unfold required. rewrite Hda, Hit, Hqu, Hmo.
  cbn [andb e_id doc_id hydrate]. unfold id_unused in Hid. rewrite Hid. cbn.
  subst r. rewrite Hi. reflexivity.
Qed.

Lemma ledger_app uid us es l :
  ledger uid (mkDB us (es ++ l)) = (ledger uid (mkDB us es) ++ filter (owned_by uid) l)%list.
Proof. unfold ledger. simpl. apply filter_app. Qed.

Lemma id_unused_app i us es r :
  id_unused i (mkDB us es) -> e_id r <> i -> id_unused i (mkDB us (es ++ [r])).
Proof.
  unfold id_unused. simpl. intros H Hr. rewrite existsb_app, H. simpl.
  apply N.eqb_neq in Hr. now rewrite Hr.
Qed.

(** C3.  For an authenticated account GET /api/expenses returns exactly the
    expenses the account owns, ordered by date ascending and, on equal
    dates, by creation time ascending, and changes nothing.  After an
    expense dated 2024-01-10 and then one dated 2024-01-02 are added to an
    empty ledger, the listing gives the record of 2024-01-02 first. *)
Theorem expenses_get_sorted db uid u :
  find_user uid db = Some u ->
  let l := sort_expenses (ledger uid db) in
  run (expenses_get (ValidToken uid)) db
    = (Returned (mkResponse 200 (Expenses l)), db) /\
  Permutation l (ledger uid db) /\
  (forall e, In e l <-> In e (expenses db) /\ userId e = uid) /\
  StronglySorted expense_le l /\
  (forall e1 e2,
     ledger uid db = [] ->
     id_unused (fresh_id e1) db -> id_unused (fresh_id e2) db ->
     fresh_id e1 <> fresh_id e2 ->
     let post e d :=
       expenses_post e (ValidToken uid) (VStr d) (VStr "Tea") (VNum 50%float)
                     (VStr "1") (VStr "Cash") in
     let db1 := snd (run (post e1 "2024-01-10") db) in
     let db2 := snd (run (post e2 "2024-01-02") db1) in
     exists first second,
       fst (run (expenses_get (ValidToken uid)) db2)
         = Returned (mkResponse 200 (Expenses [first; second])) /\
       date first = "2024-01-02" /\ e_id first = fresh_id e2 /\
       date second = "2024-01-10" /\ e_id second = fresh_id e1).
Proof.
  intros Hu l. split; [exact (run_expenses_get db uid u Hu)|].
  assert (Hp : Permutation l (ledger uid db)) by apply SortProps.sort_perm.
  split; [exact Hp|]. split; [|split; [apply sort_expenses_sorted|]].
  - intros e. split.
    + intros H. apply (Permutation_in _ Hp) in H. unfold ledger in H.
      apply filter_In in H. destruct H as [H1 H2]. split; [exact H1|].
      now apply N.eqb_eq in H2.
    + intros [H1 H2]. apply (Permutation_in _ (Permutation_sym Hp)).
      unfold ledger. apply filter_In. split; [exact H1|]. now apply N.eqb_eq.
  - intros e1 e2 Hl F1 F2 Hne post db1 db2.
    assert (P50 : parseFloat (VNum 50%float) = 50%float) by (vm_compute; reflexivity).
    pose proof (run_expenses_post_valid db uid u e1 "2024-01-10" "Tea" (VNum 50%float)
                  "1" "Cash" 50%float Hu eq_refl eq_refl eq_refl eq_refl eq_refl P50
                  eq_refl F1) as R1.
    cbv zeta in R1. subst post db1 db2. cbv beta. rewrite R1. cbn [snd].
    match goal with
    | |- context [mkDB (users db) (expenses db ++ [?r])%list] => set (r1 := r)
    end.
    assert (Hu1 : find_user uid (mkDB (users db) (expenses db ++ [r1])) = Some u) by exact Hu.
    assert (F2' : id_unused (fresh_id e2) (mkDB (users db) (expenses db ++ [r1]))).
    { destruct db as [us es]. apply id_unused_app; [exact F2 | exact Hne]. }
    pose proof (run_expenses_post_valid _ uid u e2 "2024-01-02" "Tea" (VNum 50%float)
                  "1" "Cash" 50%float Hu1 eq_refl eq_refl eq_refl eq_refl eq_refl P50
                  eq_refl F2') as R2.
    cbv zeta in R2. rewrite R2. cbn [snd users expenses].
    match goal with
    | |- context [((expenses db ++ [r1]) ++ [?r])%list] => set (r2 := r)
    end.
    exists r2, r1. rewrite (run_expenses_get _ uid u); [|exact Hu].
    cbn [fst]. rewrite !ledger_app.
    replace (ledger uid (mkDB (users db) (expenses db))) with (@nil Expense)
      by (destruct db; symmetry; exact Hl).
    cbn [app filter]. unfold owned_by at 1 2. subst r1 r2. cbn [userId].
    rewrite N.eqb_refl. cbn. auto.
Qed.

(** ** The ids of the expenses stay unique *)

Lemma save_user_expenses d db : expenses (snd (save_user d db)) = expenses db.
Proof.
  unfold Server.save_user. destruct (validate_user d); [|reflexivity]. simpl.
  destruct (pre_save bcrypt_hash d) as [d'|]; [|reflexivity].
  destruct (doc_isNew d'); [|reflexivity].
  destruct (duplicate_user (to_User d') (users db)); reflexivity.
Qed.

Lemma NoDup_ids_remove_first f (l : list Expense) :
  NoDup (map e_id l) -> NoDup (map e_id (remove_first f l)).
Proof.
  induction l as [|x t IH]; simpl; intros H; [exact H|].
  inversion H as [|? ? Hx Ht]; subst. destruct (f x); [exact Ht|].
  simpl. constructor; [|apply IH; exact Ht].
  intros Hin. apply Hx. apply in_map_iff in Hin. destruct Hin as (y & Hy & Hin).
  apply in_map_iff. exists y. split; [exact Hy|].
  clear - Hin. induction t as [|z t IH]; simpl in *; [contradiction|].
  destruct (f z); [now right|]. destruct Hin as [<-|Hin]; [now left | right; auto].
Qed.

Lemma NoDup_ids_filter f (l : list Expense) :
  NoDup (map e_id l) -> NoDup (map e_id (filter f l)).
Proof.
  induction l as [|x t IH]; simpl; intros H; [exact H|].
  inversion H as [|? ? Hx Ht]; subst. destruct (f x); [|apply IH; exact Ht].
  simpl. constructor; [|apply IH; exact Ht].
  intros Hin. apply Hx. apply in_map_iff in Hin. destruct Hin as (y & Hy & Hin).
  apply in_map_iff. exists y. split; [exact Hy|]. apply filter_In in Hin. tauto.
Qed.

Lemma exec_unique_ids X (o : op X) db :
  NoDup (map e_id (expenses db)) ->
  NoDup (map e_id (expenses (snd (exec bcrypt_hash choose o db)))).
Proof.
  intros H. destruct o as [id|em un|d|uid|d|id uid|uid]; simpl; try exact H.
  - destruct (cast_failed (cast_email em) || cast_failed (cast_username un)); exact H.
  - rewrite save_user_expenses. exact H.
  - unfold save_expense. destruct (validate_expense d) as [e|]; [|exact H].
    destruct (existsb (fun x => (e_id x =? e_id e)%N) (expenses db)) eqn:E; [exact H|].
    simpl. rewrite map_app. simpl. apply NoDup_app; [exact H | repeat constructor; auto |].
    + intros a Ha [<-|[]]. apply in_map_iff in Ha. destruct Ha as (y & Hy & Hin).
      assert (E' : existsb (fun x => (e_id x =? e_id e)%N) (expenses db) = true).
      { apply existsb_exists. exists y. split; [exact Hin|]. now apply N.eqb_eq. }
      rewrite E in E'. discriminate.
  - destruct id as [i|]; [|exact H].
    destruct (find (id_and_owner i uid) (expenses db)); [|exact H].
    simpl. apply NoDup_ids_remove_first. exact H.
  - apply NoDup_ids_filter. exact H.
Qed.

(** No handler can introduce two expenses with the same [_id]. *)
Lemma run_unique_ids A (p : prog A) : forall db,
  NoDup (map e_id (expenses db)) -> NoDup (map e_id (expenses (snd (run p db)))).
Proof.
  induction p as [a| |X o k IH|body IHb handler IHh]; intros db H; simpl.
  - exact H.
  - exact H.
  - pose proof (exec_unique_ids X o db H) as Ho.
    destruct (exec bcrypt_hash choose o db) as [[x|] db']; simpl in *.
    + apply IH. exact Ho.
    + exact Ho.
  - specialize (IHb db H).
    destruct (Server.run bcrypt_hash choose body db) as [[a|] db']; simpl in *.
    + exact IHb.
    + apply IHh. exact IHb.
Qed.

(** ** Deleting one expense *)

Lemma NoDup_ids_inj (l : list Expense) x y :
  NoDup (map e_id l) -> In x l -> In y l -> e_id x = e_id y -> x = y.
Proof.
  induction l as [|z t IH]; simpl; [contradiction|].
  intros Hnd Hx Hy E. inversion Hnd as [|? ? Hz Ht]; subst.
  destruct Hx as [<-|Hx], Hy as [<-|Hy]; auto.
  - exfalso. apply Hz. rewrite E. now apply in_map.
  - exfalso. apply Hz. rewrite <- E. now apply in_map.
Qed.

Lemma remove_first_In (f : Expense -> bool) l e id :
  NoDup (map e_id l) -> find f l = Some e -> e_id e = id ->
  forall x, In x (remove_first f l) <-> In x l /\ e_id x <> id.
Proof.
  induction l as [|z t IH]; simpl; [discriminate|].
  intros Hnd Hf He x. inversion Hnd as [|? ? Hz Ht]; subst.
  destruct (f z) eqn:Fz.
  - injection Hf as ->. split.
    + intros Hx. split; [now right|]. intros E. apply Hz. rewrite <- E. now apply in_map.
    + intros [[<-|Hx] Hne]; [contradiction | exact Hx].
  - simpl. rewrite (IH Ht Hf eq_refl). split.
    + intros [<-|[Hx Hne]]; [|tauto]. split; [now left|].
      intros E. apply Hz. rewrite E. apply in_map. apply find_some in Hf. tauto.
    + intros [[<-|Hx] Hne]; [now left | right; tauto].
Qed.

Lemma run_expenses_delete_id db A u id :
  find_user A db = Some u ->
  run (expenses_delete_id (ValidToken A) (Some id)) db
  = match find (id_and_owner id A) (expenses db) with
    | Some _ => (Returned (mkResponse 200 (Message "Expense deleted.")),
                 mkDB (users db) (remove_first (id_and_owner id A) (expenses db)))
    | None => (Returned (mkResponse 404 (Error "Expense not found.")), db)
    end.
Proof.
  intros Hu. pose proof (find_user_id _ _ _ Hu) as Hid.
  unfold expenses_delete_id, authMiddleware, res. cbn [Server.run exec].
  rewrite Hu. cbn [option_map Server.run exec].
  change (doc_id (hydrate false u)) with (u_id u). rewrite Hid.
  destruct (find (id_and_owner id A) (expenses db)); reflexivity.
Qed.

(** C7.  With [_id] unique among the expenses, a DELETE /api/expenses/:id
    by account [A] for an expense owned by another account [B] answers 404
    and leaves the database, hence both ledgers, unchanged.  The request
    is answered 200 exactly when the id names an expense owned by [A], and
    then that record, and no other, is removed. *)
Theorem expenses_delete_id_owner db A u :
  find_user A db = Some u ->
  NoDup (map e_id (expenses db)) ->
  (forall B e, In e (expenses db) -> userId e = B -> A <> B ->
     run (expenses_delete_id (ValidToken A) (Some (e_id e))) db
     = (Returned (mkResponse 404 (Error "Expense not found.")), db)) /\
  (forall id,
     let r := run (expenses_delete_id (ValidToken A) (Some id)) db in
     (fst r = Returned (mkResponse 200 (Message "Expense deleted."))
      <-> exists e, In e (expenses db) /\ e_id e = id /\ userId e = A) /\
     (fst r = Returned (mkResponse 200 (Message "Expense deleted.")) ->
      users (snd r) = users db /\
      forall x, In x (expenses (snd r)) <-> In x (expenses db) /\ e_id x <> id)).
Proof.
  intros Hu Hnd. split.
  - intros B e He HB Hne. rewrite (run_expenses_delete_id db A u _ Hu).
    destruct (find (id_and_owner (e_id e) A) (expenses db)) as [x|] eqn:F; [|reflexivity].
    exfalso. apply find_some in F. destruct F as [Hx Fx].
    unfold id_and_owner, owned_by in Fx. apply andb_prop in Fx. destruct Fx as [F1 F2].
    apply N.eqb_eq in F1. apply N.eqb_eq in F2.
    assert (x = e) by (apply (NoDup_ids_inj (expenses db)); assumption).
    subst x. congruence.
  - intros id r. subst r. rewrite (run_expenses_delete_id db A u _ Hu).
    destruct (find (id_and_owner id A) (expenses db)) as [x|] eqn:F; cbn [fst snd].
    + split.
      * split; [|reflexivity]. intros _. exists x.
        pose proof F as F'. apply find_some in F'. destruct F' as [Hx Fx].
        unfold id_and_owner, owned_by in Fx. apply andb_prop in Fx. destruct Fx as [F1 F2].
        apply N.eqb_eq in F1. apply N.eqb_eq in F2. auto.
      * intros _. split; [reflexivity|]. cbn [expenses].
        apply (remove_first_In _ _ x); [exact Hnd | exact F |].
        apply find_some in F. destruct F as [_ Fx].
        unfold id_and_owner in Fx. apply andb_prop in Fx. destruct Fx as [F1 _].
        now apply N.eqb_eq in F1.
    + split; [|discriminate]. split; [discriminate|].
      intros (e & He & Hi & Ho). exfalso.
      apply (find_none _ _ F) in He. unfold id_and_owner, owned_by in He.
      rewrite Hi, Ho, !N.eqb_refl in He. discriminate.
Qed.

(** ** Signing up *)

Lemma cast_username_ok v : cast_failed (cast_username v) = false.
Proof. destruct v; reflexivity. Qed.

Lemma cast_email_ok v : cast_failed (cast_email v) = false.
Proof. destruct v; reflexivity. Qed.

(** A signup request that passes the field checks and whose email or
    username, as the schema normalises them, matches a stored account: the
    lookup returns a matching account [found], the answer is 400 and the
    database is unchanged; the message depends on the comparison of line
    104 between the email of the request and the email of [found]. *)
Lemma signup_existing db secret e username email password existing :
  lookup_ok choose ->
  truthy username = true -> truthy email = true -> truthy password = true ->
  lt_num (length_of username) 3%float = false ->
  lt_num (length_of password) 6%float = false ->
  In existing (users db) -> or_filter email username existing = true ->
  exists found,
    In found (users db) /\ or_filter email username found = true /\
    run (signup secret e username email password) db
    = (Returned (mkResponse 400
         (Error (if strict_eq_string email (Server.email found)
                 then email_registered else username_taken))), db).
Proof.
  intros [Hin Hsome] Tu Te Tp Lu Lp Hex Hf.
  set (l := filter (or_filter email username) (users db)).
  assert (Hl : l <> []).
  { intros E. assert (In existing l) by (apply filter_In; split; assumption).
    rewrite E in H. contradiction. }
  destruct (choose l) as [found|] eqn:C; [|exfalso; exact (Hsome l Hl C)].
  apply Hin in C as Hfound. apply filter_In in Hfound. destruct Hfound as [H1 H2].
  exists found. split; [exact H1|]. split; [exact H2|].
  unfold signup, res. cbn [Server.run]. rewrite Tu, Te, Tp, Lu, Lp.
  cbn [negb orb Server.run exec]. rewrite cast_email_ok, cast_username_ok.
  cbn [orb]. fold l. rewrite C. cbn [option_map Server.run hydrate doc_email or_else].
  destruct (strict_eq_string email (Server.email found)); reflexivity.
Qed.

(** C6 (the defect).  The lookup of the signup handler finds an account
    whose stored email is the email of the request as the schema
    normalises it (trimmed, in lower case), but line 104 then compares the
    stored email with the string of the request as it was sent.  So when
    the email of the request is registered and is written differently
    (with a capital letter, say), the conflict is not reported as an email
    conflict: the answer is 400 "Username already taken.", whether the
    username is taken too or free.  The request is refused and the
    database is unchanged, as for every conflict.  (The stored emails are
    in normalised form, so none of them is the string as it was sent.) *)
Theorem signup_email_conflict_names_username db secret e username em password existing :
  lookup_ok choose ->
  truthy username = true -> em <> "" -> truthy password = true ->
  lt_num (length_of username) 3%float = false ->
  lt_num (length_of password) 6%float = false ->
  In existing (users db) ->
  cast_email (VStr em) = CastOk (Some (email existing)) ->
  (forall u, In u (users db) -> email u <> em) ->
  run (signup secret e username (VStr em) password) db
  = (Returned (mkResponse 400 (Error username_taken)), db).
Proof.
  intros L Tu Hem Tp Lu Lp Hex Hc Hraw.
  assert (Te : truthy (VStr em) = true).
  { simpl. now apply negb_true_iff, String.eqb_neq. }
  assert (Hf : or_filter (VStr em) username existing = true).
  { unfold or_filter. rewrite Hc. cbn [matches]. now rewrite String.eqb_refl. }
  destruct (signup_existing db secret e username (VStr em) password existing
              L Tu Te Tp Lu Lp Hex Hf) as (found & Hin & _ & R).
  rewrite R. cbn [strict_eq_string].
  destruct (String.eqb_spec em (email found)) as [E|_]; [|reflexivity].
  exfalso. exact (Hraw found Hin (eq_sym E)).
Qed.

(** ** Adding an expense *)

(** C2 (the defect).  POST /api/expenses tests its fields with [!field], so
    an amount of zero counts as missing: whatever the other four fields are,
    the request is answered 400 "All fields are required." and nothing is
    stored. *)
Theorem expenses_post_rejects_zero_amount db uid u e date item quantity mode x :
  find_user uid db = Some u ->
  is_zero x = true ->
  run (expenses_post e (ValidToken uid) date item (VNum x) quantity mode) db
  = (Returned (mkResponse 400 (Error "All fields are required.")), db).
Proof.
  intros Hu Hz. unfold expenses_post, authMiddleware, res. cbn [Server.run exec].
  rewrite Hu. cbn [option_map Server.run].
  assert (T : truthy (VNum x) = false) by (simpl; now rewrite Hz).
  rewrite T. cbn [negb]. rewrite !orb_true_r. reflexivity.
Qed.

End Store.
End ServerProps.

(* ================================================================== *)
(** * Properties of the client table *)
(* ================================================================== *)

Module ClientProps.
Import JS Client ClientObs.

Section Table.

Variable Date_parse : string -> option Z.

Local Abbreviation before := (fun a b => negb (comes_after Date_parse a b)).

Lemma before_spec a b :
  parses Date_parse a -> parses Date_parse b ->
  (before a b = true <-> date_le Date_parse a b).
Proof.
  unfold parses, date_le, comes_after, compare_dates. intros Ha Hb.
  destruct (Date_parse (date a)) as [x|]; [|contradiction].
  destruct (Date_parse (date b)) as [y|]; [|contradiction].
  rewrite negb_true_iff, Z.ltb_ge. split.
  - intros H. exists x, y. repeat split; lia.
  - intros (x' & y' & [= <-] & [= <-] & H). lia.
Qed.

Lemma sort_by_date l :
  Forall (parses Date_parse) l ->
  StronglySorted (date_le Date_parse) (sort Date_parse l) /\
  Forall (parses Date_parse) (sort Date_parse l).
Proof.
  intros Hl.
  assert (Hp : Forall (parses Date_parse) (sort Date_parse l)).
  { rewrite Forall_forall in Hl |- *. intros x Hx. apply Hl.
    apply (Permutation_in _ (SortProps.sort_perm before l)). exact Hx. }
  split; [|exact Hp].
  assert (H : StronglySorted (fun x y => before x y = true) (sort Date_parse l)).
  { apply (SortProps.sort_sorted before (parses Date_parse)); [| |exact Hl].
    - intros x y Px Py. unfold parses, comes_after, compare_dates in *.
      destruct (Date_parse (date x)); [|contradiction].
      destruct (Date_parse (date y)); [|contradiction].
      rewrite negb_false_iff, negb_true_iff, Z.ltb_lt, Z.ltb_ge. lia.
    - intros x y z Px Py Pz. rewrite !before_spec by assumption.
      intros (a & b & Ha & Hb & H1) (b' & c & Hb' & Hc & H2).
      exists a, c. repeat split; try assumption. rewrite Hb in Hb'. injection Hb' as <-. lia. }
  revert Hp. induction H as [|x t Ht IH Hx]; intros Hp; constructor.
  - apply IH. now inversion Hp.
  - inversion Hp as [|? ? Px Pt]; subst. rewrite Forall_forall in Hx, Pt |- *.
    intros y Hy. apply before_spec; auto.
Qed.

Lemma render_rows_nth l : forall budget i r,
  nth_error (render_rows budget l) i = Some r ->
  exists exp,
    nth_error l i = Some exp /\ row_expense r = exp /\
    row_balance r = balance_after budget (firstn (S i) l) /\
    row_negative r = PrimFloat.ltb (row_balance r) zero /\
    row_balance_text r = toFixed2 (row_balance r).
Proof.
  induction l as [|exp t IH]; intros budget i r H.
  - destruct i; discriminate.
  - destruct i as [|i]; simpl in H.
    + injection H as <-. exists exp. simpl. auto.
    + destruct (IH _ _ _ H) as (exp' & H1 & H2 & H3 & H4 & H5).
      exists exp'. split; [exact H1|]. split; [exact H2|].
      split; [|split; assumption]. rewrite H3. reflexivity.
Qed.

Lemma render_rows_length l : forall budget,
  List.length (render_rows budget l) = List.length l.
Proof. induction l as [|exp t IH]; intros budget; simpl; [reflexivity|]. now rewrite IH. Qed.

(** C8 (as amended).  For an array of expenses whose dates all parse,
    [updateTable] sorts the array by date ascending and renders one row per
    record in that order; row [i] carries the running balance obtained from
    the budget by subtracting the amounts of rows [1..i] one after the
    other in floating point, and it is flagged exactly when that balance
    is below zero.  (For the empty array the empty state is shown.) *)
Theorem updateTable_running_balance totalBudget expenses :
  Forall (parses Date_parse) expenses ->
  match expenses with
  | [] => updateTable Date_parse totalBudget expenses = ([], EmptyState)
  | _ :: _ =>
      let sorted := sort Date_parse expenses in
      exists rows,
        updateTable Date_parse totalBudget expenses = (sorted, Rows rows) /\
        Permutation sorted expenses /\
        StronglySorted (date_le Date_parse) sorted /\
        List.length rows = List.length expenses /\
        forall i r, nth_error rows i = Some r ->
          exists exp,
            nth_error sorted i = Some exp /\ row_expense r = exp /\
            row_balance r = balance_after totalBudget (firstn (S i) sorted) /\
            row_negative r = PrimFloat.ltb (row_balance r) zero /\
            row_balance_text r = toFixed2 (row_balance r)
  end.
Proof.
  intros Hp. destruct expenses as [|e0 t]; [reflexivity|].
  intros sorted. exists (render_rows totalBudget sorted).
  split; [reflexivity|]. split; [apply SortProps.sort_perm|].
  split; [apply sort_by_date; exact Hp|].
  split.
  - rewrite render_rows_length. apply SortProps.sort_length.
  - apply render_rows_nth.
Qed.

End Table.
End ClientProps.

(* ================================================================== *)
(** * The properties on the sample data *)
(* ================================================================== *)

Module Checks.
Import JS Mongoose Server Fixtures ServerObs ServerProps.

Local Abbreviation run := (Server.run hash first_match).
Local Abbreviation trace := (Server.trace hash first_match).

Lemma first_match_ok : lookup_ok first_match.
Proof.
  split.
  - intros [|x l] u H; simpl in H; [discriminate|]. injection H as <-. now left.
  - intros [|x l] H; simpl; [now elim H | discriminate].
Defined.

(** C4 on the sample data: setting the budget of alice to 25. *)
Lemma budget_set_spec_witness :
  let r := run (budget_set (ValidToken 1%N) (VNum 25%float)) db_users in
  fst r = Returned (mkResponse 200 (Budget "Budget updated." (Some 25%float))) /\
  budget_written db_users (snd r) 1%N (Some 25%float).
Proof.
  exact (proj2 (budget_set_spec hash first_match db_users 1%N alice (VNum 25%float) eq_refl)
               25%float eq_refl eq_refl eq_refl).
Defined.

(** Against C4 as stated: the guard of PUT /api/budget/set lets the string
    "5" and [null] through; both are answered 200 and written, although
    neither is a Number. *)
Lemma budget_set_accepts_non_numbers :
  (let r := run (budget_set (ValidToken 1%N) (VStr "5")) db_users in
   fst r = Returned (mkResponse 200 (Budget "Budget updated." (Some 5%float))) /\
   stored_budget 1%N (snd r) = Some (Some 5%float)) /\
  (let r := run (budget_set (ValidToken 1%N) VNull) db_users in
   fst r = Returned (mkResponse 200 (Budget "Budget updated." None)) /\
   stored_budget 1%N (snd r) = Some None).
Proof. vm_compute. repeat split. Qed.

(** C5 on the sample data: adding 2.5 to the budget 10 of alice. *)
Lemma budget_add_spec_witness :
  let r := run (budget_add (ValidToken 1%N) (VNum 2.5%float)) db_users in
  fst r = Returned (mkResponse 200 (Budget "Money added to budget." (Some 12.5%float))) /\
  budget_written db_users (snd r) 1%N (Some 12.5%float).
Proof.
  exact (proj2 (budget_add_spec hash first_match db_users 1%N alice (VNum 2.5%float) eq_refl)
               2.5%float eq_refl eq_refl eq_refl eq_refl).
Defined.

(** Against C5 as stated: PUT /api/budget/add accepts the boolean [true],
    which is not a Number, and adds 1; it accepts the string "5" and turns
    the total 10 into 105. *)
Lemma budget_add_accepts_non_numbers :
  (let r := run (budget_add (ValidToken 1%N) (VBool true)) db_users in
   fst r = Returned (mkResponse 200 (Budget "Money added to budget." (Some 11%float))) /\
   stored_budget 1%N (snd r) = Some (Some 11%float)) /\
  (let r := run (budget_add (ValidToken 1%N) (VStr "5")) db_users in
   fst r = Returned (mkResponse 200 (Budget "Money added to budget." (Some 105%float))) /\
   stored_budget 1%N (snd r) = Some (Some 105%float)).
Proof. vm_compute. repeat split. Qed.

(** C10 on the sample data. *)
Lemma budget_set_null_and_string_witness :
  let r := run (budget_set (ValidToken 1%N) (VStr "5")) db_users in
  fst r = Returned (mkResponse 200 (Budget "Budget updated." (Some 5%float))) /\
  budget_written db_users (snd r) 1%N (Some 5%float).
Proof.
  exact (proj2 (proj2 (proj2 (proj2
    (budget_set_null_and_string hash first_match db_users 1%N alice eq_refl))))).
Defined.

(** C9 on the sample data: the hook on the document of alice as the auth
    middleware loads it. *)
Lemma budget_operations_keep_password_hash_witness :
  pre_save hash (hydrate false alice) = Some (hydrate false alice).
Proof.
  exact (proj1 (budget_operations_keep_password_hash hash first_match)
               (hydrate false alice) eq_refl).
Defined.

(** C1 on the sample data: clearing the data of alice, who owns one
    expense. *)
Lemma clear_two_steps_witness :
  exists db2,
    run (expenses_delete (ValidToken 1%N)) db_ledgers
      = (Returned (mkResponse 200 (Message "All data cleared.")), db2) /\
    ledger 1%N db2 = [] /\
    budget_written (mkDB [alice; bob] [rice]) db2 1%N (Some zero).
Proof.
  destruct (clear_two_steps hash first_match db_ledgers 1%N alice eq_refl)
    as (db2 & H1 & _ & _ & _ & H5 & H6).
  exists db2. split; [exact H1|]. split; [exact H5 | exact H6].
Defined.

(** Against C1 as stated: while DELETE /api/expenses of alice waits for its
    second operation, the store holds no expense of hers and still her
    budget 10; a listing and a profile request served at that moment return
    exactly that. *)
Lemma clear_is_not_atomic :
  exists mid,
    In mid (trace (expenses_delete (ValidToken 1%N)) db_ledgers) /\
    ledger 1%N mid = [] /\
    stored_budget 1%N mid = Some (Some 10%float) /\
    fst (run (expenses_get (ValidToken 1%N)) mid)
      = Returned (mkResponse 200 (Expenses [])) /\
    fst (run (me (ValidToken 1%N)) mid)
      = Returned (mkResponse 200
          (Profile (mkView 1%N (Some "alice") (Some "a@x.com") (Some 10%float)))).
Proof.
  exists (mkDB [alice; bob] [rice]).
  split; [right; left; reflexivity|]. vm_compute. repeat split.
Qed.

(** C3 on the sample data: the listing of alice, and the two additions of
    the scenario made by bob, whose ledger is empty. *)
Lemma expenses_get_sorted_witness :
  run (expenses_get (ValidToken 1%N)) db_ledgers
    = (Returned (mkResponse 200 (Expenses [tea])), db_ledgers) /\
  (let post e d :=
     expenses_post e (ValidToken 2%N) (VStr d) (VStr "Tea") (VNum 50%float)
                   (VStr "1") (VStr "Cash") in
   let db1 := snd (run (post (mkEnv 11%N 5000) "2024-01-10") db_users) in
   let db2 := snd (run (post (mkEnv 12%N 6000) "2024-01-02") db1) in
   exists first second,
     fst (run (expenses_get (ValidToken 2%N)) db2)
       = Returned (mkResponse 200 (Expenses [first; second])) /\
     date first = "2024-01-02" /\ e_id first = 12%N /\
     date second = "2024-01-10" /\ e_id second = 11%N).
Proof.
  split.
  - exact (proj1 (expenses_get_sorted hash first_match db_ledgers 1%N alice eq_refl)).
  - refine (proj2 (proj2 (proj2 (proj2
      (expenses_get_sorted hash first_match db_users 2%N bob eq_refl))))
      (mkEnv 11%N 5000) (mkEnv 12%N 6000) eq_refl eq_refl eq_refl _).
    discriminate.
Defined.

(** C7 on the sample data: alice asks to delete the expense of bob. *)
Lemma expenses_delete_id_owner_witness :
  run (expenses_delete_id (ValidToken 1%N) (Some 8%N)) db_ledgers
  = (Returned (mkResponse 404 (Error "Expense not found.")), db_ledgers).
Proof.
  refine (proj1 (expenses_delete_id_owner hash first_match db_ledgers 1%N alice eq_refl _)
                2%N rice _ eq_refl _).
  - repeat constructor; simpl; intuition discriminate.
  - right; left; reflexivity.
  - discriminate.
Defined.

(** C6 on the sample data: the store holds alice / a@x.com, and the
    requests carry the email A@X.com, once with the username alice, which
    is taken too, and once with the free username zed. *)
Lemma signup_email_conflict_names_username_witness :
  run (signup (Some "k") (mkEnv 3%N 2000) (VStr "alice") (VStr "A@X.com") (VStr "secret1"))
      db_users
    = (Returned (mkResponse 400 (Error username_taken)), db_users) /\
  run (signup (Some "k") (mkEnv 3%N 2000) (VStr "zed") (VStr "A@X.com") (VStr "secret1"))
      db_users
    = (Returned (mkResponse 400 (Error username_taken)), db_users).
Proof.
  assert (Hraw : forall u, In u (users db_users) -> email u <> "A@X.com").
  { intros u [<-|[<-|[]]]; discriminate. }
  split.
  - refine (signup_email_conflict_names_username hash first_match db_users (Some "k")
              (mkEnv 3%N 2000) (VStr "alice") "A@X.com" (VStr "secret1") alice
              first_match_ok eq_refl _ eq_refl _ _ _ eq_refl Hraw).
    + discriminate.
    + vm_compute; reflexivity.
    + vm_compute; reflexivity.
    + left; reflexivity.
  - refine (signup_email_conflict_names_username hash first_match db_users (Some "k")
              (mkEnv 3%N 2000) (VStr "zed") "A@X.com" (VStr "secret1") alice
              first_match_ok eq_refl _ eq_refl _ _ _ eq_refl Hraw).
    + discriminate.
    + vm_compute; reflexivity.
    + vm_compute; reflexivity.
    + left; reflexivity.
Defined.

(** C2 on the sample data: alice posts a complete expense whose amount
    is 0. *)
Lemma expenses_post_rejects_zero_amount_witness :
  run (expenses_post (mkEnv 9%N 4000) (ValidToken 1%N) (VStr "2024-01-05") (VStr "Tea")
         (VNum 0%float) (VStr "1") (VStr "Cash")) db_users
  = (Returned (mkResponse 400 (Error "All fields are required.")), db_users).
Proof.
  exact (expenses_post_rejects_zero_amount hash first_match db_users 1%N alice
           (mkEnv 9%N 4000) (VStr "2024-01-05") (VStr "Tea") (VStr "1") (VStr "Cash")
           0%float eq_refl eq_refl).
Defined.

End Checks.

Module ClientChecks.
Import JS Client Fixtures ClientObs ClientProps.

(** C8 on the sample data: the table of [milk] and [salt] with a budget of
    1000; [salt], dated earlier, comes first. *)
Lemma updateTable_running_balance_witness :
  exists rows,
    updateTable iso_date 1000%float [milk; salt] = ([salt; milk], Rows rows) /\
    StronglySorted (date_le iso_date) [salt; milk] /\
    List.length rows = 2%nat /\
    forall i r, nth_error rows i = Some r ->
      row_balance r = balance_after 1000%float (firstn (S i) [salt; milk]).
Proof.
  destruct (updateTable_running_balance iso_date 1000%float [milk; salt])
    as (rows & H1 & _ & H3 & H4 & H5).
  - repeat constructor; discriminate.
  - exists rows. split; [exact H1|]. split; [exact H3|]. split; [exact H4|].
    intros i r Hr. destruct (H5 i r Hr) as (exp & _ & _ & Hb & _). exact Hb.
Defined.

(** Against C8 as stated: with a budget of 1e16 and two expenses of 1, the
    second row shows 10000000000000000.00, while the budget minus the sum of
    the two amounts is 9999999999999998. *)
Lemma running_balance_differs_from_budget_minus_sum :
  let budget := 1e16%float in
  exists r1 r2,
    snd (updateTable iso_date budget [milk; salt]) = Rows [r1; r2] /\
    row_balance r2 = 1e16%float /\
    row_balance_text r2 = "10000000000000000.00" /\
    PrimFloat.sub budget (PrimFloat.add 1 1) = 9999999999999998%float /\
    toFixed2 (PrimFloat.sub budget (PrimFloat.add 1 1)) = "9999999999999998.00" /\
    PrimFloat.eqb (row_balance r2) (PrimFloat.sub budget (PrimFloat.add 1 1)) = false.
Proof. vm_compute. eexists _, _. repeat split. Qed.

(** The first end-to-end scenario of the specification: alice registers,
    sets a budget of 1000 and adds a tea for 50; the listing has that one
    record and the table shows the running balance 950; after the expense
    is deleted the listing is empty. *)
Example end_to_end :
  let run {A} (p : Server.prog A) db := Server.run hash first_match p db in
  let db0 := Server.mkDB [] [] in
  let db1 := snd (run (Server.signup (Some "k") (Server.mkEnv 1%N 1000)
                         (VStr "alice") (VStr "a@x.com") (VStr "secret1")) db0) in
  let db2 := snd (run (Server.budget_set (Server.ValidToken 1%N) (VNum 1000%float)) db1) in
  let db3 := snd (run (Server.expenses_post (Server.mkEnv 7%N 3000) (Server.ValidToken 1%N)
                         (VStr "2024-01-05") (VStr "Tea") (VNum 50%float)
                         (VStr "1") (VStr "Cash")) db2) in
  let listing := fst (run (Server.expenses_get (Server.ValidToken 1%N)) db3) in
  let db4 := snd (run (Server.expenses_delete_id (Server.ValidToken 1%N) (Some 7%N)) db3) in
  Server.users db1 = [Server.mkUser 1%N "alice" "a@x.com" (hash "secret1") (Some 0%float) 1000] /\
  Server.users db2 = [Server.mkUser 1%N "alice" "a@x.com" (hash "secret1") (Some 1000%float) 1000] /\
  listing = Server.Returned (Server.mkResponse 200 (Server.Expenses [
      Server.mkExpense 7%N 1%N "2024-01-05" "Tea" 50%float "1" "Cash" 3000])) /\
  snd (updateTable iso_date 1000%float (map of_json (Server.expenses db3)))
    = Rows [mkRow (mkExpense "7" "2024-01-05" "Tea" (VNum 50%float) "1" "Cash")
                  "50.00" 950%float "950.00" false] /\
  fst (run (Server.expenses_get (Server.ValidToken 1%N)) db4)
    = Server.Returned (Server.mkResponse 200 (Server.Expenses [])).
Proof. vm_compute. repeat split. Qed.

End ClientChecks.

(* ================================================================== *)
(** * Further properties of the server *)
(* ================================================================== *)

Module ServerExtra.
Import JS Mongoose Server ServerObs ExtraObs.

Section Routes.

Variable bcrypt_hash : string -> string.
Variable choose : list User -> option User.

Local Abbreviation run := (Server.run bcrypt_hash choose).
Local Abbreviation save_user := (Server.save_user bcrypt_hash).
Local Abbreviation write := (ExtraObs.write bcrypt_hash).
Local Abbreviation writes := (ExtraObs.writes bcrypt_hash).

Ltac split_all := repeat match goal with |- _ /\ _ => split end.

(** ** The auth middleware *)

Lemma authMiddleware_denied a next db :
  unauthenticated a db -> denied (run (authMiddleware a next) db) db.
Proof.
  unfold unauthenticated, denied, authMiddleware, res.
  destruct a as [| |uid]; intros H; cbn [Server.run exec].
  - eexists. reflexivity.
  - eexists. reflexivity.
  - rewrite H. cbn. eexists. reflexivity.
Qed.

Lemma authMiddleware_enters uid u next db :
  find_user uid db = Some u ->
  fst (run (next (hydrate false u)) db) <> Thrown ->
  run (authMiddleware (ValidToken uid) next) db = run (next (hydrate false u)) db.
Proof.
  intros Hu Hn. unfold authMiddleware. cbn [Server.run exec]. rewrite Hu.
  cbn [option_map]. destruct (run (next (hydrate false u)) db) as [[r|] db'];
    [reflexivity | now elim Hn].
Qed.

(** X1.  A request without a token, with a token that does not verify, or
    with a token of an account that is not in the store is answered 401 by
    every protected route, whatever its arguments, and the database is not
    touched. *)
Theorem protected_routes_require_session a db :
  unauthenticated a db ->
  denied (run (me a) db) db /\
  (forall amount, denied (run (budget_set a amount) db) db) /\
  (forall amount, denied (run (budget_add a amount) db) db) /\
  denied (run (expenses_get a) db) db /\
  (forall e date item amount quantity mode,
     denied (run (expenses_post e a date item amount quantity mode) db) db) /\
  (forall id, denied (run (expenses_delete_id a id) db) db) /\
  denied (run (expenses_delete a) db) db.
Proof.
  intros H. repeat split; intros; apply authMiddleware_denied; exact H.
Qed.

(** ** What a protected route writes *)

Lemma writes_one A db db' : write A db db' -> writes A db db'.
Proof. intros H. eapply writes_more; [exact H | apply writes_none]. Qed.

Lemma find_user_hydrate_id A db u : find_user A db = Some u -> doc_id (hydrate false u) = A.
Proof. intros H. exact (ServerProps.find_user_id A db u H). Qed.

Lemma save_budget_outcome A db u v :
  find_user A db = Some u ->
  forall o db', save_user (set_totalBudget (hydrate false u) v) db = (o, db') ->
  write A db db'.
Proof.
  intros Hu o db' H. pose proof (write_budget bcrypt_hash A db u v Hu) as W.
  rewrite H in W. exact W.
Qed.

(** Every protected route changes the database only through writes made
    in the name of the account it authenticated. *)
Lemma routes_write A db :
  writes A db (snd (run (me (ValidToken A)) db)) /\
  (forall v, writes A db (snd (run (budget_set (ValidToken A) v) db))) /\
  (forall v, writes A db (snd (run (budget_add (ValidToken A) v) db))) /\
  writes A db (snd (run (expenses_get (ValidToken A)) db)) /\
  (forall e da it am qu mo,
     writes A db (snd (run (expenses_post e (ValidToken A) da it am qu mo) db))) /\
  (forall id, writes A db (snd (run (expenses_delete_id (ValidToken A) id) db))) /\
  writes A db (snd (run (expenses_delete (ValidToken A)) db)).
Proof.
  destruct (find_user A db) as [u|] eqn:Hu.
  2:{ assert (D : forall next, snd (run (authMiddleware (ValidToken A) next) db) = db).
      { intros next. destruct (authMiddleware_denied (ValidToken A) next db Hu) as [m ->].
        reflexivity. }
      repeat split; intros;
        unfold me, budget_set, budget_add, expenses_get, expenses_post,
               expenses_delete_id, expenses_delete;
        rewrite D; apply writes_none. }
  pose proof (find_user_hydrate_id A db u Hu) as Hid.
  repeat split; intros.
  - unfold me, authMiddleware, res. cbn [Server.run exec]. rewrite Hu. cbn.
    apply writes_none.
  - unfold budget_set, authMiddleware, res. cbn [Server.run exec]. rewrite Hu.
    cbn [option_map Server.run].
    destruct (is_undefined v || isNaN v || lt_num v zero);
      cbn [Server.run exec]; [apply writes_none|].
    destruct (save_user _ db) as [[d|] db'] eqn:S; cbn;
      apply writes_one; exact (save_budget_outcome A db u _ Hu _ _ S).
  - unfold budget_add, authMiddleware, res. cbn [Server.run exec]. rewrite Hu.
    cbn [option_map Server.run].
    destruct (is_undefined v || isNaN v || le_num v zero);
      cbn [Server.run exec]; [apply writes_none|].
    destruct (save_user _ db) as [[d|] db'] eqn:S; cbn;
      apply writes_one; exact (save_budget_outcome A db u _ Hu _ _ S).
  - unfold expenses_get, authMiddleware, res. cbn [Server.run exec]. rewrite Hu. cbn.
    apply writes_none.
  - unfold expenses_post, authMiddleware, res. cbn [Server.run exec]. rewrite Hu.
    cbn [option_map Server.run].
    destruct (negb (truthy da) || negb (truthy it) || negb (truthy am)
              || negb (truthy qu) || negb (truthy mo));
      cbn [Server.run exec]; [apply writes_none|].
    match goal with
    | |- context [save_expense ?d db] =>
        pose proof (write_insert bcrypt_hash A db d Hid) as W;
        destruct (save_expense d db) as [[x|] db']; cbn in W |- *;
        apply writes_one; exact W
    end.
  - unfold expenses_delete_id, authMiddleware, res. cbn [Server.run exec]. rewrite Hu.
    cbn [option_map Server.run exec]. rewrite Hid.
    destruct id as [i|]; cbn; [|apply writes_none].
    destruct (find (id_and_owner i A) (expenses db)); cbn; [|apply writes_none].
    apply writes_one, write_delete.
  - unfold expenses_delete, authMiddleware, res. cbn [Server.run exec]. rewrite Hu.
    cbn [option_map Server.run exec]. rewrite Hid.
    set (db1 := mkDB (users db) (filter (fun e => negb (owned_by A e)) (expenses db))).
    assert (Hu1 : find_user A db1 = Some u) by exact Hu.
    eapply writes_more; [apply write_deleteMany|]. fold db1.
    destruct (save_user _ db1) as [[d|] db'] eqn:S; cbn;
      apply writes_one; exact (save_budget_outcome A db1 u _ Hu1 _ _ S).
Qed.

(** ** Saving a loaded document *)

Lemma budget_doc_modified b u v p :
  p <> P_totalBudget -> isModified (set_totalBudget (hydrate b u) v) p = false.
Proof.
  intros Hp. unfold set_totalBudget, isModified.
  destruct (castNumber v) as [c|]; simpl; [|reflexivity].
  destruct (same_budget (totalBudget u) c); simpl; [reflexivity|].
  destruct p; try reflexivity. now elim Hp.
Qed.

Lemma save_loaded_doc d db :
  doc_isNew d = false -> isModified d P_password = false ->
  snd (save_user d db) = db \/
  snd (save_user d db) = mkDB (update_user d (users db)) (expenses db).
Proof.
  intros Hn Hm. unfold Server.save_user.
  destruct (validate_user d); [|now left]. simpl.
  rewrite (ServerProps.pre_save_unmodified bcrypt_hash d Hm), Hn. now right.
Qed.

Lemma update_user_ids d l : map u_id (update_user d l) = map u_id l.
Proof.
  unfold update_user. rewrite map_map. apply map_ext. intros u.
  destruct (u_id u =? doc_id d)%N; reflexivity.
Qed.

Lemma update_user_usernames d l :
  isModified d P_username = false -> map username (update_user d l) = map username l.
Proof.
  intros H. unfold update_user. rewrite map_map. apply map_ext. intros u.
  destruct (u_id u =? doc_id d)%N; [|reflexivity].
  unfold apply_modified. rewrite H. reflexivity.
Qed.

Lemma update_user_emails d l :
  isModified d P_email = false -> map email (update_user d l) = map email l.
Proof.
  intros H. unfold update_user. rewrite map_map. apply map_ext. intros u.
  destruct (u_id u =? doc_id d)%N; [|reflexivity].
  unfold apply_modified. rewrite H. reflexivity.
Qed.

Lemma find_user_update_other d us es B :
  B <> doc_id d ->
  find_user B (mkDB (update_user d us) es) = find_user B (mkDB us es).
Proof.
  intros Hne. rewrite ServerProps.find_user_update.
  destruct (find_user B (mkDB us es)) as [w|] eqn:Hw; [|reflexivity].
  apply ServerProps.find_user_id in Hw. simpl.
  replace (u_id w =? doc_id d)%N with false; [reflexivity|].
  symmetry. apply N.eqb_neq. congruence.
Qed.

(** ** A write in the name of [A] leaves every other account alone *)

Lemma ledger_remove_first_other A B i l :
  A <> B ->
  filter (owned_by B) (remove_first (id_and_owner i A) l) = filter (owned_by B) l.
Proof.
  intros Hne. induction l as [|x t IH]; simpl; [reflexivity|].
  destruct (id_and_owner i A x) eqn:F; simpl.
  - unfold id_and_owner, owned_by in *. apply andb_prop in F. destruct F as [_ F].
    apply N.eqb_eq in F. replace (userId x =? B)%N with false; [reflexivity|].
    symmetry. apply N.eqb_neq. congruence.
  - now rewrite IH.
Qed.

Lemma ledger_deleteMany_other A B l :
  A <> B ->
  filter (owned_by B) (filter (fun e => negb (owned_by A e)) l) = filter (owned_by B) l.
Proof.
  intros Hne. induction l as [|x t IH]; simpl; [reflexivity|].
  unfold owned_by in *. destruct (userId x =? A)%N eqn:EA; simpl.
  - apply N.eqb_eq in EA. replace (userId x =? B)%N with false; [exact IH|].
    symmetry. apply N.eqb_neq. congruence.
  - destruct (userId x =? B)%N; [now rewrite IH | exact IH].
Qed.

Lemma write_others A B db db' :
  write A db db' -> A <> B -> data_of B db' = data_of B db.
Proof.
  intros W Hne. unfold data_of, ledger.
  destruct W as [db u v Hu|db d Hd|db i|db].
  - pose proof (ServerProps.find_user_id A db u Hu) as Hid.
    destruct (save_loaded_doc (set_totalBudget (hydrate false u) v) db) as [E|E].
    + now rewrite ServerProps.set_totalBudget_isNew.
    + apply budget_doc_modified. discriminate.
    + rewrite E. reflexivity.
    + rewrite E. destruct db as [us es]. simpl. f_equal.
      apply find_user_update_other.
      replace (doc_id (set_totalBudget (hydrate false u) v)) with (u_id u)
        by (unfold set_totalBudget; destruct (castNumber v); reflexivity).
      congruence.
  - unfold save_expense. destruct (validate_expense d) as [x|] eqn:V; [|reflexivity].
    destruct (existsb (fun y => (e_id y =? e_id x)%N) (expenses db)); [reflexivity|].
    simpl. f_equal. rewrite filter_app. simpl.
    assert (Hx : userId x = A).
    { unfold validate_expense in V.
      destruct (edoc_date d) as [[?|]|], (edoc_item d) as [[?|]|],
               (edoc_amount d) as [[?|]|], (edoc_quantity d) as [[?|]|],
               (edoc_mode d) as [[?|]|]; try discriminate.
      destruct (required _ && required _ && required _ && required _); [|discriminate].
      injection V as <-. exact Hd. }
    unfold owned_by. replace (userId x =? B)%N with false; [apply app_nil_r|].
    symmetry. apply N.eqb_neq. congruence.
  - simpl. f_equal. now apply ledger_remove_first_other.
  - simpl. f_equal. now apply ledger_deleteMany_other.
Qed.

Lemma writes_others A B db db' :
  writes A db db' -> A <> B -> data_of B db' = data_of B db.
Proof.
  intros W Hne. induction W as [db|db db1 db2 W1 W2 IH]; [reflexivity|].
  rewrite IH. exact (write_others A B db db1 W1 Hne).
Qed.

(** X2.  A request that is not made in the name of account [B] (another
    account's session, or no valid session at all) never changes what is
    stored for [B]: its record, budget included, and its expenses are the
    same after every protected route, whatever the arguments. *)
Theorem routes_keep_other_accounts B a db :
  not_as B a ->
  data_of B (snd (run (me a) db)) = data_of B db /\
  (forall v, data_of B (snd (run (budget_set a v) db)) = data_of B db) /\
  (forall v, data_of B (snd (run (budget_add a v) db)) = data_of B db) /\
  data_of B (snd (run (expenses_get a) db)) = data_of B db /\
  (forall e da it am qu mo,
     data_of B (snd (run (expenses_post e a da it am qu mo) db)) = data_of B db) /\
  (forall id, data_of B (snd (run (expenses_delete_id a id) db)) = data_of B db) /\
  data_of B (snd (run (expenses_delete a) db)) = data_of B db.
Proof.
  intros Ha. destruct a as [| |A].
  - repeat split; intros; reflexivity.
  - repeat split; intros; reflexivity.
  - simpl in Ha. destruct (routes_write A db) as (W1 & W2 & W3 & W4 & W5 & W6 & W7).
    repeat split; intros; apply (writes_others A B); auto.
Qed.

(** ** The unique indexes of the users *)

Lemma write_unique A db db' : write A db db' -> users_unique db -> users_unique db'.
Proof.
  intros W U. destruct W as [db u v Hu|db d Hd|db i|db]; try exact U.
  - destruct (save_loaded_doc (set_totalBudget (hydrate false u) v) db) as [E|E].
    + now rewrite ServerProps.set_totalBudget_isNew.
    + apply budget_doc_modified. discriminate.
    + rewrite E. exact U.
    + rewrite E. unfold users_unique in *. simpl.
      rewrite update_user_ids, update_user_usernames, update_user_emails;
        [exact U | apply budget_doc_modified; discriminate
                 | apply budget_doc_modified; discriminate].
  - unfold save_expense. destruct (validate_expense d) as [x|]; [|exact U].
    destruct (existsb (fun y => (e_id y =? e_id x)%N) (expenses db)); exact U.
Qed.

Lemma writes_unique A db db' : writes A db db' -> users_unique db -> users_unique db'.
Proof.
  intros W. induction W as [db|db db1 db2 W1 W2 IH]; intros U; [exact U|].
  apply IH. exact (write_unique A db db1 W1 U).
Qed.

Lemma NoDup_map_snoc {A B : Type} (f : A -> B) (l : list A) (x : A) :
  NoDup (map f l) -> (forall y, In y l -> f y <> f x) -> NoDup (map f (l ++ [x])).
Proof.
  intros H Hx. rewrite map_app. simpl. apply NoDup_app; [exact H | repeat constructor; auto|].
  intros b Hb [<-|[]]. apply in_map_iff in Hb. destruct Hb as (y & Hy & Hin).
  exact (Hx y Hin Hy).
Qed.

Lemma duplicate_user_false u l :
  duplicate_user u l = false ->
  forall v, In v l ->
    u_id v <> u_id u /\ username v <> username u /\ email v <> email u.
Proof.
  intros H v Hv. unfold duplicate_user in H.
  assert (E : ((u_id v =? u_id u)%N || String.eqb (username v) (username u)
               || String.eqb (email v) (email u)) = false).
  { destruct ((u_id v =? u_id u)%N || String.eqb (username v) (username u)
              || String.eqb (email v) (email u)) eqn:E; [|reflexivity].
    assert (T : existsb (fun w => (u_id w =? u_id u)%N
                 || String.eqb (username w) (username u)
                 || String.eqb (email w) (email u)) l = true).
    { apply existsb_exists. exists v. split; assumption. }
    rewrite H in T. discriminate. }
  apply orb_false_elim in E. destruct E as [E E3].
  apply orb_false_elim in E. destruct E as [E1 E2].
  apply N.eqb_neq in E1. apply String.eqb_neq in E2. apply String.eqb_neq in E3. auto.
Qed.

Lemma save_new_unique d db :
  doc_isNew d = true -> users_unique db -> users_unique (snd (save_user d db)).
Proof.
  intros Hn U. unfold Server.save_user.
  destruct (validate_user d); [|exact U]. simpl.
  destruct (pre_save bcrypt_hash d) as [d'|] eqn:P; [|exact U].
  assert (Hn' : doc_isNew d' = true).
  { unfold pre_save in P. destruct (negb (isModified d P_password)).
    - injection P as <-. exact Hn.
    - destruct (doc_password d); [|discriminate]. injection P as <-. exact Hn. }
  rewrite Hn'. destruct (duplicate_user (to_User d') (users db)) eqn:D; [exact U|].
  pose proof (duplicate_user_false _ _ D) as F.
  destruct U as (U1 & U2 & U3). unfold users_unique. simpl.
  repeat split; apply NoDup_map_snoc; try assumption; intros y Hy; apply (F y Hy).
Qed.

(** X3.  The unique indexes hold for ever: when ids, usernames and emails
    are pairwise distinct among the stored accounts, they still are after
    any request to POST /api/auth/signup or to a protected route, whatever
    the request carries. *)
Theorem routes_keep_users_unique db :
  users_unique db ->
  (forall secret e un em pw, users_unique (snd (run (signup secret e un em pw) db))) /\
  (forall a,
     users_unique (snd (run (me a) db)) /\
     (forall v, users_unique (snd (run (budget_set a v) db))) /\
     (forall v, users_unique (snd (run (budget_add a v) db))) /\
     users_unique (snd (run (expenses_get a) db)) /\
     (forall e da it am qu mo,
        users_unique (snd (run (expenses_post e a da it am qu mo) db))) /\
     (forall id, users_unique (snd (run (expenses_delete_id a id) db))) /\
     users_unique (snd (run (expenses_delete a) db))).
Proof.
  intros U. split.
  - intros secret e un em pw. unfold signup, res. cbn [Server.run].
    destruct (negb (truthy un) || negb (truthy em) || negb (truthy pw));
      cbn [Server.run]; [exact U|].
    destruct (lt_num (length_of un) 3%float); cbn [Server.run]; [exact U|].
    destruct (lt_num (length_of pw) 6%float); cbn [Server.run exec]; [exact U|].
    destruct (cast_failed (cast_email em) || cast_failed (cast_username un));
      cbn; [exact U|].
    destruct (choose (filter (or_filter em un) (users db))) as [w|]; cbn [option_map].
    + destruct (strict_eq_string em (or_else (doc_email (hydrate true w)) ""));
        cbn; exact U.
    + cbn [Server.run exec].
      pose proof (save_new_unique (new_User e un em pw) db eq_refl U) as S.
      destruct (save_user (new_User e un em pw) db) as [[d|] db']; cbn in *;
        [destruct (jwt_sign_throws secret); cbn|]; exact S.
  - intros a. destruct a as [| |A].
    + split_all; intros; exact U.
    + split_all; intros; exact U.
    + destruct (routes_write A db) as (W1 & W2 & W3 & W4 & W5 & W6 & W7).
      split_all; intros; eapply writes_unique; eauto.
Qed.

(** ** Signing up *)

(** X4.  POST /api/auth/signup refuses a request with a missing or empty
    field, with a username string of fewer than 3 characters or with a
    password string of fewer than 6 characters: it answers 400 with the
    message of the first failed check and does not touch the database. *)
Theorem signup_rejects_malformed secret e un em pw db :
  let r := run (signup secret e un em pw) db in
  (truthy un = false \/ truthy em = false \/ truthy pw = false ->
     r = (Returned (mkResponse 400 (Error "All fields are required.")), db)) /\
  (forall s, un = VStr s -> s <> "" -> (String.length s < 3)%nat ->
     truthy em = true -> truthy pw = true ->
     r = (Returned (mkResponse 400 (Error "Username must be at least 3 characters.")), db)) /\
  (forall s, pw = VStr s -> s <> "" -> (String.length s < 6)%nat ->
     truthy un = true -> truthy em = true ->
     lt_num (length_of un) 3%float = false ->
     r = (Returned (mkResponse 400 (Error "Password must be at least 6 characters.")), db)).
Proof.
  intros r. subst r. unfold signup, res. cbn [Server.run]. split_all.
  - intros H.
    assert (G : negb (truthy un) || negb (truthy em) || negb (truthy pw) = true).
    { destruct H as [H|[H|H]]; rewrite H; cbn; rewrite ?orb_true_r; reflexivity. }
    rewrite G. reflexivity.
  - intros s -> Hs Hl Te Tp. rewrite Te, Tp.
    assert (Tu : truthy (VStr s) = true).
    { simpl. apply negb_true_iff. now apply String.eqb_neq. }
    rewrite Tu. cbn [negb orb].
    assert (L : lt_num (length_of (VStr s)) 3%float = true).
    { destruct s as [|a [|b [|c s']]]; [now elim Hs | reflexivity | reflexivity |].
      simpl in Hl. lia. }
    rewrite L. reflexivity.
  - intros s -> Hs Hl Tu Te Lu. rewrite Tu, Te, Lu.
    assert (Tp : truthy (VStr s) = true).
    { simpl. apply negb_true_iff. now apply String.eqb_neq. }
    rewrite Tp. cbn [negb orb].
    assert (L : lt_num (length_of (VStr s)) 6%float = true).
    { destruct s as [|a1 [|a2 [|a3 [|a4 [|a5 [|a6 s']]]]]];
        [now elim Hs | reflexivity | reflexivity | reflexivity | reflexivity | reflexivity |].
      simpl in Hl. lia. }
    rewrite L. reflexivity.
Qed.

Lemma toLowerCase_nonempty s : s <> "" -> toLowerCase s <> "".
Proof. destruct s; [congruence | discriminate]. Qed.

Lemma trim_nonempty s : trim s <> "" -> s <> "".
Proof. intros H E. subst s. now apply H. Qed.

Lemma length_ge_nonempty n s : (S n <= String.length s)%nat -> s <> "".
Proof. destruct s; simpl; [lia | discriminate]. Qed.

Lemma or_filter_strings em un u :
  or_filter (VStr em) (VStr un) u
  = String.eqb (toLowerCase (trim em)) (email u) || String.eqb (trim un) (username u).
Proof. reflexivity. Qed.

(** A signup that passes every check: the account is saved, and the answer
    is 201 unless signing the token throws. *)
Lemma signup_creates db secret e un em pw :
  lookup_ok choose ->
  lt_num (length_of (VStr un)) 3%float = false ->
  lt_num (length_of (VStr pw)) 6%float = false ->
  (3 <= String.length (trim un))%nat ->
  trim em <> "" ->
  (6 <= String.length pw)%nat ->
  (forall u, In u (users db) ->
     u_id u <> fresh_id e /\ username u <> trim un /\ email u <> toLowerCase (trim em)) ->
  run (signup secret e (VStr un) (VStr em) (VStr pw)) db
  = (Returned
       (if jwt_sign_throws secret
        then mkResponse 500 (Error "Server error. Please try again.")
        else mkResponse 201
               (Auth "Account created successfully!" (fresh_id e)
                     (public_view (new_account bcrypt_hash e un em pw)))),
     mkDB (users db ++ [new_account bcrypt_hash e un em pw]) (expenses db)).
Proof.
  intros [Hin _] Lu Lp Vu Ve Vp Hfree.
  assert (Nu : trim un <> "") by exact (length_ge_nonempty 2 _ Vu).
  assert (Np : pw <> "") by exact (length_ge_nonempty 5 _ Vp).
  assert (Tu : truthy (VStr un) = true).
  { simpl. apply negb_true_iff, String.eqb_neq. now apply trim_nonempty. }
  assert (Te : truthy (VStr em) = true).
  { simpl. apply negb_true_iff, String.eqb_neq. now apply trim_nonempty. }
  assert (Tp : truthy (VStr pw) = true).
  { simpl. now apply negb_true_iff, String.eqb_neq. }
  assert (F : filter (or_filter (VStr em) (VStr un)) (users db) = []).
  { clear - Hfree. revert Hfree. generalize (users db) as l. intros l Hfree.
    induction l as [|u t IH]; [reflexivity|]. simpl.
    destruct (Hfree u (or_introl eq_refl)) as (_ & H2 & H3).
    rewrite or_filter_strings.
    apply not_eq_sym, String.eqb_neq in H2. apply not_eq_sym, String.eqb_neq in H3.
    rewrite H2, H3. cbn [orb]. apply IH. intros w Hw. apply Hfree. now right. }
  assert (C : choose [] = None).
  { destruct (choose []) as [w|] eqn:E; [|reflexivity]. now apply Hin in E. }
  unfold signup, res. cbn [Server.run]. rewrite Tu, Te, Tp, Lu, Lp.
  cbn [negb orb Server.run exec]. rewrite ServerProps.cast_email_ok,
    ServerProps.cast_username_ok. cbn [orb]. rewrite F, C.
  cbn [option_map Server.run exec].
  change (new_User e (VStr un) (VStr em) (VStr pw))
    with (mkUserDoc (fresh_id e) true (Some (trim un)) (Some (toLowerCase (trim em)))
                    (Some pw) (Some zero) (now e) [P_username; P_email; P_password] false).
  assert (D : duplicate_user (new_account bcrypt_hash e un em pw) (users db) = false).
  { unfold duplicate_user. clear - Hfree. revert Hfree.
    generalize (users db) as l. intros l Hfree.
    induction l as [|u t IH]; [reflexivity|].
    cbn [existsb new_account u_id username email].
    destruct (Hfree u (or_introl eq_refl)) as (H1 & H2 & H3).
    apply N.eqb_neq in H1. apply String.eqb_neq in H2. apply String.eqb_neq in H3.
    rewrite H1, H2, H3. cbn [orb]. apply IH. intros w Hw. apply Hfree. now right. }
  apply toLowerCase_nonempty in Ve.
  unfold new_account, public_view in *.
  set (tu := trim un) in *. set (le := toLowerCase (trim em)) in *.
  unfold Server.save_user, validate_user, pre_save, isModified, required, minlength.
  cbn [doc_invalid doc_isNew doc_username doc_email doc_password doc_modified
       existsb path_eqb negb andb orb].
  apply String.eqb_neq in Nu, Ve, Np. rewrite Nu, Ve, Np.
  apply Nat.leb_le in Vu, Vp. rewrite Vu, Vp.
  cbn [negb andb doc_isNew]. unfold to_User.
  cbn [doc_id doc_username doc_email doc_password doc_totalBudget doc_createdAt or_else].
  rewrite D. destruct (jwt_sign_throws secret); reflexivity.
Qed.

(** X5.  A signup with string fields that pass the checks of the handler
    and the validators of the schema, whose id, trimmed username and
    normalised email are not yet used, appends exactly one account: trimmed
    username, trimmed lower-case email, the bcrypt hash of the password and
    a budget of 0.  With a signing secret it is answered 201 with a token
    for that account; without one (JWT_SECRET undefined or empty)
    [jwt.sign] throws after the save, and the answer is 500 although the
    account is stored.  A token for the new account is a session: GET
    /api/auth/me with it returns the public view of the account. *)
Theorem signup_creates_account db secret e un em pw :
  lookup_ok choose ->
  lt_num (length_of (VStr un)) 3%float = false ->
  lt_num (length_of (VStr pw)) 6%float = false ->
  (3 <= String.length (trim un))%nat ->
  trim em <> "" ->
  (6 <= String.length pw)%nat ->
  (forall u, In u (users db) ->
     u_id u <> fresh_id e /\ username u <> trim un /\ email u <> toLowerCase (trim em)) ->
  let account := new_account bcrypt_hash e un em pw in
  let db' := mkDB (users db ++ [account]) (expenses db) in
  run (signup secret e (VStr un) (VStr em) (VStr pw)) db
  = (Returned
       (if jwt_sign_throws secret
        then mkResponse 500 (Error "Server error. Please try again.")
        else mkResponse 201
               (Auth "Account created successfully!" (fresh_id e) (public_view account))),
     db') /\
  run (me (ValidToken (fresh_id e))) db'
  = (Returned (mkResponse 200 (Profile (public_view account))), db').
Proof.
  intros L Lu Lp Vu Ve Vp Hfree account db'. split.
  - exact (signup_creates db secret e un em pw L Lu Lp Vu Ve Vp Hfree).
  - assert (Hf : find_user (fresh_id e) db' = Some account).
    { unfold find_user, db'. simpl. clear - Hfree.
      induction (users db) as [|u t IH]; simpl.
      - now rewrite N.eqb_refl.
      - destruct (Hfree u (or_introl eq_refl)) as (H1 & _). apply N.eqb_neq in H1.
        rewrite H1. apply IH. intros w Hw. apply Hfree. now right. }
    unfold me, authMiddleware, res. cbn [Server.run exec]. rewrite Hf. reflexivity.
Qed.

End Routes.

Section Sessions.

Variable bcrypt_hash : string -> string.
Variable bcrypt_compare : string -> string -> bool.
Variable choose : list User -> option User.

Local Abbreviation login := (Login.login bcrypt_compare choose).

Lemma hydrate_view u : view (hydrate true u) = public_view u.
Proof. reflexivity. Qed.

(** X6.  POST /api/auth/login answers 200 only when a stored account with
    the requested username accepts the password, and the token it issues
    names that account.  When no stored account with that username accepts
    the password string, the answer is the same 401 message whether the
    username is unknown or the password is wrong. *)
Theorem login_needs_matching_password secret un pw db :
  lookup_ok choose ->
  (status (login secret un pw db) = 200 ->
   exists u s,
     In u (users db) /\ Login.username_filter un u = true /\
     pw = VStr s /\ bcrypt_compare s (password u) = true /\
     login secret un pw db
     = mkResponse 200 (Auth "Login successful!" (u_id u) (public_view u))) /\
  (forall s, pw = VStr s -> s <> "" -> truthy un = true ->
     (forall u, In u (users db) -> Login.username_filter un u = true ->
        bcrypt_compare s (password u) = false) ->
     login secret un pw db = mkResponse 401 (Error Login.invalid_credentials)).
Proof.
  intros [Hin _]. unfold Login.login. split.
  - destruct (negb (truthy un) || negb (truthy pw)); [discriminate|].
    destruct (choose (filter (Login.username_filter un) (users db))) as [u|] eqn:C;
      cbn [option_map]; [|discriminate].
    apply Hin, filter_In in C. destruct C as [C1 C2].
    unfold Login.comparePassword. destruct pw as [| |b|x|s]; try discriminate.
    cbn [hydrate doc_password].
    destruct (bcrypt_compare s (password u)) eqn:B; [|discriminate].
    destruct (Login.no_secret secret); [discriminate|]. intros _.
    exists u, s. rewrite hydrate_view. auto.
  - intros s -> Hs Tu Hno.
    assert (Tp : truthy (VStr s) = true).
    { simpl. now apply negb_true_iff, String.eqb_neq. }
    rewrite Tu, Tp. cbn [negb orb].
    destruct (choose (filter (Login.username_filter un) (users db))) as [u|] eqn:C;
      cbn [option_map]; [|reflexivity].
    apply Hin, filter_In in C. destruct C as [C1 C2].
    unfold Login.comparePassword. cbn [hydrate doc_password].
    rewrite (Hno u C1 C2). reflexivity.
Qed.

(** X7.  Signing up and then logging in with the same username and
    password succeeds: when [bcrypt.compare] accepts a password against its
    own hash and the signing secret is configured, the login after a
    successful signup is answered 200 with a token for the new account and
    its public view. *)
Theorem login_after_signup db e un em pw secret :
  lookup_ok choose ->
  bcrypt_compare pw (bcrypt_hash pw) = true ->
  secret <> "" ->
  lt_num (length_of (VStr un)) 3%float = false ->
  lt_num (length_of (VStr pw)) 6%float = false ->
  (3 <= String.length (trim un))%nat ->
  trim em <> "" ->
  (6 <= String.length pw)%nat ->
  (forall u, In u (users db) ->
     u_id u <> fresh_id e /\ username u <> trim un /\ email u <> toLowerCase (trim em)) ->
  let db' := snd (Server.run bcrypt_hash choose
                    (signup (Some secret) e (VStr un) (VStr em) (VStr pw)) db) in
  login (Some secret) (VStr un) (VStr pw) db'
  = mkResponse 200 (Auth "Login successful!" (fresh_id e)
                         (public_view (new_account bcrypt_hash e un em pw))).
Proof.
  intros L B Hsec Lu Lp Vu Ve Vp Hfree db'.
  subst db'.
  rewrite (signup_creates bcrypt_hash choose db (Some secret) e un em pw L Lu Lp Vu Ve Vp Hfree).
  cbn [snd]. destruct L as [Hin Hsome].
  set (account := new_account bcrypt_hash e un em pw).
  assert (F : filter (Login.username_filter (VStr un)) (users db ++ [account]) = [account]).
  { rewrite filter_app.
    assert (F1 : filter (Login.username_filter (VStr un)) (users db) = []).
    { clear - Hfree. revert Hfree. generalize (users db) as l. intros l Hfree.
      induction l as [|u t IH]; [reflexivity|]. simpl.
      destruct (Hfree u (or_introl eq_refl)) as (_ & H2 & _).
      change (Login.username_filter (VStr un) u) with (String.eqb (trim un) (username u)).
      apply not_eq_sym, String.eqb_neq in H2. rewrite H2.
      apply IH. intros w Hw. apply Hfree. now right. }
    rewrite F1. simpl.
    change (Login.username_filter (VStr un) account) with (String.eqb (trim un) (trim un)).
    now rewrite String.eqb_refl. }
  assert (C : choose [account] = Some account).
  { destruct (choose [account]) as [w|] eqn:C.
    - apply Hin in C. destruct C as [<-|[]]. reflexivity.
    - exfalso. apply (Hsome [account]); [discriminate | exact C]. }
  assert (Np : pw <> "") by exact (length_ge_nonempty 5 _ Vp).
  assert (Nu : un <> "").
  { apply trim_nonempty. exact (length_ge_nonempty 2 _ Vu). }
  unfold Login.login. cbn [users truthy].
  apply String.eqb_neq in Np, Nu. rewrite Np, Nu. cbn [negb orb].
  rewrite F, C. cbn [option_map]. unfold Login.comparePassword.
  cbn [hydrate doc_password]. change (password account) with (bcrypt_hash pw).
  rewrite B. unfold Login.no_secret. apply String.eqb_neq in Hsec. rewrite Hsec.
  reflexivity.
Qed.

End Sessions.

Section Ledger.

Variable bcrypt_hash : string -> string.
Variable choose : list User -> option User.

Local Abbreviation run := (Server.run bcrypt_hash choose).
Local Abbreviation save_user := (Server.save_user bcrypt_hash).

Lemma find_snoc_fresh (f : Expense -> bool) l r :
  (forall x, In x l -> f x = false) -> f r = true ->
  find f (l ++ [r]) = Some r /\ remove_first f (l ++ [r]) = l.
Proof.
  intros Hl Hr. induction l as [|x t IH]; simpl.
  - rewrite Hr. auto.
  - rewrite (Hl x (or_introl eq_refl)). destruct IH as [I1 I2].
    + intros y Hy. apply Hl. now right.
    + rewrite I1, I2. auto.
Qed.

Lemma id_unused_spec i db :
  id_unused i db -> forall x, In x (expenses db) -> e_id x <> i.
Proof.
  unfold id_unused. intros H x Hx E.
  assert (T : existsb (fun y => (e_id y =? i)%N) (expenses db) = true).
  { apply existsb_exists. exists x. split; [exact Hx | now apply N.eqb_eq]. }
  rewrite H in T. discriminate.
Qed.

(** X8.  A POST /api/expenses whose five fields are non-empty strings (the
    amount any truthy value that [parseFloat] reads as a Number) stores one
    record with the generated id, the creation time and the parsed amount
    at the end of the collection and returns it with 201; the account's
    ledger grows by exactly that record.  Deleting the returned id right
    after gives back the database as it was before the two requests. *)
Theorem expenses_post_then_delete db uid u e da it am qu mo x :
  find_user uid db = Some u ->
  da <> "" -> it <> "" -> qu <> "" -> mo <> "" ->
  truthy am = true -> parseFloat am = x -> is_nan x = false ->
  id_unused (fresh_id e) db ->
  let r := {| e_id := fresh_id e; userId := uid; date := da; item := it; amount := x;
              quantity := qu; mode := mo; createdAt := now e |} in
  let db' := mkDB (users db) (expenses db ++ [r]) in
  run (expenses_post e (ValidToken uid) (VStr da) (VStr it) am (VStr qu) (VStr mo)) db
    = (Returned (mkResponse 201 (Created r)), db') /\
  ledger uid db' = (ledger uid db ++ [r])%list /\
  run (expenses_delete_id (ValidToken uid) (Some (fresh_id e))) db'
    = (Returned (mkResponse 200 (Message "Expense deleted.")), db).
Proof.
  intros Hu Hda Hit Hqu Hmo Tam Hx Hn Hid r db'.
  assert (T : forall s, s <> "" -> truthy (VStr s) = true).
  { intros s Hs. simpl. now apply negb_true_iff, String.eqb_neq. }
  split; [|split].
  - exact (ServerProps.run_expenses_post_valid bcrypt_hash choose db uid u e da it am qu mo x
             Hu (T _ Hda) (T _ Hit) Tam (T _ Hqu) (T _ Hmo) Hx Hn Hid).
  - unfold db'. destruct db as [us es]. rewrite ServerProps.ledger_app. simpl.
    unfold owned_by. simpl. now rewrite N.eqb_refl.
  - assert (Hu' : find_user uid db' = Some u) by exact Hu.
    rewrite (ServerProps.run_expenses_delete_id bcrypt_hash choose db' uid u _ Hu').
    destruct (find_snoc_fresh (id_and_owner (fresh_id e) uid) (expenses db) r) as [F1 F2].
    + intros y Hy. unfold id_and_owner.
      apply (id_unused_spec _ _ Hid) in Hy. apply N.eqb_neq in Hy. now rewrite Hy.
    + unfold id_and_owner, owned_by. simpl. now rewrite !N.eqb_refl.
    + unfold db'. cbn [expenses users]. rewrite F1, F2. destruct db; reflexivity.
Qed.

(** X9.  A POST /api/expenses whose fields are all truthy but whose amount
    [parseFloat] cannot read (it gives NaN, as for the string "abc" or the
    boolean [true]) is not a validation failure: the schema refuses NaN,
    the save throws, and the answer is 500 "Server error." with nothing
    stored. *)
Theorem expenses_post_unreadable_amount db uid u e da it am qu mo :
  find_user uid db = Some u ->
  truthy da = true -> truthy it = true -> truthy am = true ->
  truthy qu = true -> truthy mo = true ->
  is_nan (parseFloat am) = true ->
  run (expenses_post e (ValidToken uid) da it am qu mo) db
  = (Returned (mkResponse 500 (Error "Server error.")), db).
Proof.
  intros Hu Tda Tit Tam Tqu Tmo Hn.
  unfold expenses_post, authMiddleware, res. cbn [Server.run exec].
  rewrite Hu. cbn [option_map Server.run]. rewrite Tda, Tit, Tam, Tqu, Tmo.
  cbn [negb orb Server.run exec]. unfold save_expense, validate_expense, new_Expense.
  cbn [edoc_amount].
  change (castNumber (VNum (parseFloat am)))
    with (if is_nan (parseFloat am) then @CastError float else CastOk (Some (parseFloat am))).
  rewrite Hn. cbn [edoc_date edoc_item].
  destruct (castString da) as [[?|]|], (castString it) as [[?|]|]; reflexivity.
Qed.

(** X10.  DELETE /api/expenses/:id with a segment that is not a well-formed
    id is answered 500, and with the id of no stored expense 404; neither
    changes the database. *)
Theorem expenses_delete_id_not_found db uid u :
  find_user uid db = Some u ->
  run (expenses_delete_id (ValidToken uid) None) db
    = (Returned (mkResponse 500 (Error "Server error.")), db) /\
  (forall i, (forall x, In x (expenses db) -> e_id x <> i) ->
     run (expenses_delete_id (ValidToken uid) (Some i)) db
     = (Returned (mkResponse 404 (Error "Expense not found.")), db)).
Proof.
  intros Hu. split.
  - unfold expenses_delete_id, authMiddleware, res. cbn [Server.run exec].
    rewrite Hu. reflexivity.
  - intros i Hi. rewrite (ServerProps.run_expenses_delete_id bcrypt_hash choose db uid u _ Hu).
    destruct (find (id_and_owner i uid) (expenses db)) as [x|] eqn:F; [|reflexivity].
    apply find_some in F. destruct F as [Hx F]. unfold id_and_owner in F.
    apply andb_prop in F. destruct F as [F _]. apply N.eqb_eq in F.
    now elim (Hi x Hx).
Qed.

Lemma find_remove_first_unique f (l : list Expense) i :
  NoDup (map e_id l) -> (forall x, f x = true -> e_id x = i) ->
  find f (remove_first f l) = None.
Proof.
  intros Hnd Hf. induction l as [|x t IH]; simpl; [reflexivity|].
  inversion Hnd as [|? ? Hx Ht]; subst. destruct (f x) eqn:Fx.
  - destruct (find f t) as [y|] eqn:Fy; [|reflexivity].
    apply find_some in Fy. destruct Fy as [Hy Fy]. exfalso. apply Hx.
    rewrite (Hf x Fx), <- (Hf y Fy). now apply in_map.
  - simpl. rewrite Fx. apply IH. exact Ht.
Qed.

(** X11.  A delete cannot be repeated: with unique ids, once
    DELETE /api/expenses/:id has been answered 200, the same request is
    answered 404 and changes nothing. *)
Theorem expenses_delete_id_twice db uid u i :
  find_user uid db = Some u ->
  NoDup (map e_id (expenses db)) ->
  let first := run (expenses_delete_id (ValidToken uid) (Some i)) db in
  fst first = Returned (mkResponse 200 (Message "Expense deleted.")) ->
  run (expenses_delete_id (ValidToken uid) (Some i)) (snd first)
  = (Returned (mkResponse 404 (Error "Expense not found.")), snd first).
Proof.
  intros Hu Hnd first. subst first.
  rewrite (ServerProps.run_expenses_delete_id bcrypt_hash choose db uid u _ Hu).
  destruct (find (id_and_owner i uid) (expenses db)) as [x|] eqn:F; [|discriminate].
  cbn [fst snd]. intros _.
  set (db1 := mkDB (users db) (remove_first (id_and_owner i uid) (expenses db))).
  assert (Hu1 : find_user uid db1 = Some u) by exact Hu.
  rewrite (ServerProps.run_expenses_delete_id bcrypt_hash choose db1 uid u _ Hu1).
  unfold db1 at 1. cbn [expenses].
  rewrite (find_remove_first_unique _ _ i Hnd); [reflexivity|].
  intros y Fy. unfold id_and_owner in Fy. apply andb_prop in Fy.
  destruct Fy as [Fy _]. now apply N.eqb_eq in Fy.
Qed.

End Ledger.

Section Budget.

Variable bcrypt_hash : string -> string.
Variable choose : list User -> option User.

Local Abbreviation run := (Server.run bcrypt_hash choose).
Local Abbreviation save_user := (Server.save_user bcrypt_hash).

(** Numbers that are strictly equal ([===]) are on the same side of zero. *)
Lemma eqb_ltb_zero a b :
  PrimFloat.eqb a b = true -> PrimFloat.ltb a zero = PrimFloat.ltb b zero.
Proof.
  rewrite FloatAxioms.eqb_spec, !FloatAxioms.ltb_spec.
  change (Prim2SF zero) with (S754_zero false).
  unfold SFeqb, SFltb, SFcompare.
  destruct (Prim2SF a) as [[|]|[|]| |[|] ma ea], (Prim2SF b) as [[|]|[|]| |[|] mb eb];
    simpl; try reflexivity; try discriminate;
    repeat match goal with
           | |- context [Z.compare ?x ?y] => destruct (Z.compare x y)
           | |- context [Pos.compare_cont ?c ?x ?y] => destruct (Pos.compare_cont c x y)
           | |- context [CompOpp ?c] => destruct c
           end; simpl; try reflexivity; discriminate.
Qed.

Lemma not_negative_same old c :
  same_budget old c = true -> not_negative c -> not_negative old.
Proof.
  destruct old as [a|], c as [b|]; simpl; try discriminate; auto.
  intros E H. now rewrite (eqb_ltb_zero a b E).
Qed.

Lemma castNumber_not_negative v c :
  castNumber v = CastOk c -> lt_num v zero = false -> not_negative c.
Proof.
  unfold lt_num. destruct v as [| |b|x|s]; simpl.
  - intros [= <-] _. exact I.
  - intros [= <-] _. exact I.
  - destruct (is_nan _); [discriminate|]. intros [= <-] H. exact H.
  - destruct (is_nan x); [discriminate|]. intros [= <-] H. exact H.
  - destruct s as [|a s']; [intros [= <-] _; exact I|].
    destruct (is_nan _); [discriminate|]. intros [= <-] H. exact H.
Qed.

(** X12.  PUT /api/budget/set never stores a negative total: whenever it
    answers 200, whatever the amount in the body was, the total stored for
    the account afterwards is [null] or a Number that is not below zero. *)
Theorem budget_set_never_negative db uid u v :
  find_user uid db = Some u ->
  let r := run (budget_set (ValidToken uid) v) db in
  (exists b, fst r = Returned (mkResponse 200 b)) ->
  exists c, stored_budget uid (snd r) = Some c /\ not_negative c.
Proof.
  intros Hu r [b Hb].
  destruct (is_undefined v || isNaN v || lt_num v zero) eqn:G.
  - exfalso. subst r. revert Hb. unfold budget_set, authMiddleware, res.
    cbn [Server.run exec]. rewrite Hu. cbn [option_map Server.run]. rewrite G.
    discriminate.
  - destruct (ServerProps.budget_set_accepted bcrypt_hash choose db uid u v Hu G)
      as (c & Hc & _ & _ & _ & Hw).
    fold r in Hw. apply orb_false_elim in G. destruct G as [_ G3].
    pose proof (castNumber_not_negative v c Hc G3) as Hnn.
    destruct Hw as [Hw | (Hdb & old & Ho & Hs)].
    + exists c. auto.
    + exists old. rewrite Hdb. split; [exact Ho|].
      exact (not_negative_same old c Hs Hnn).
Qed.

Lemma filter_none_owned uid (l : list Expense) :
  filter (owned_by uid) l = [] -> filter (fun e => negb (owned_by uid e)) l = l.
Proof.
  induction l as [|x t IH]; simpl; [reflexivity|].
  destruct (owned_by uid x); simpl; [discriminate|]. intros H. now rewrite IH.
Qed.

Lemma save_same_budget db uid u v c :
  find_user uid db = Some u -> castNumber v = CastOk c ->
  same_budget (totalBudget u) c = true ->
  exists d', save_user (set_totalBudget (hydrate false u) v) db = (Some d', db).
Proof.
  intros Hu Hc Hs.
  unfold Server.save_user, set_totalBudget, validate_user, pre_save, isModified.
  rewrite Hc. simpl. rewrite Hs. simpl. eexists. f_equal.
  destruct db as [us es]. simpl. f_equal. now apply ServerProps.update_user_unmodified.
Qed.

Lemma run_clear db uid u :
  find_user uid db = Some u ->
  exists db2 u2,
    run (expenses_delete (ValidToken uid)) db
      = (Returned (mkResponse 200 (Message "All data cleared.")), db2) /\
    ledger uid db2 = [] /\ find_user uid db2 = Some u2 /\
    same_budget (totalBudget u2) (Some zero) = true.
Proof.
  intros Hu. pose proof (ServerProps.find_user_id _ _ _ Hu) as Hid. subst uid.
  set (db1 := mkDB (users db) (filter (fun e => negb (owned_by (u_id u) e)) (expenses db))).
  assert (Hu1 : find_user (u_id u) db1 = Some u) by exact Hu.
  destruct (ServerProps.save_set_totalBudget bcrypt_hash db1 (u_id u) u (VNum zero)
              (Some zero) Hu1 eq_refl) as (d' & db2 & Hs & Hd & He & _ & Hw).
  assert (Hl : ledger (u_id u) db2 = []).
  { unfold ledger. rewrite He. apply ServerProps.ledger_after_deleteMany. }
  assert (R : run (expenses_delete (ValidToken (u_id u))) db
              = (Returned (mkResponse 200 (Message "All data cleared.")), db2)).
  { unfold expenses_delete, authMiddleware, res. cbn [Server.run exec]. rewrite Hu.
    cbn [option_map Server.run exec].
    change (doc_id (hydrate false u)) with (u_id u). fold db1.
    rewrite Hs. reflexivity. }
  destruct Hw as [Hw | (Hdb & old & Ho & Hsame)].
  - unfold stored_budget in Hw. destruct (find_user (u_id u) db2) as [u2|] eqn:Hu2;
      [|discriminate].
    exists db2, u2. injection Hw as Hw. rewrite Hw.
    split; [exact R|]. split; [exact Hl|]. split; [exact Hu2 | reflexivity].
  - exists db2, u. rewrite Hdb in *. unfold stored_budget in Ho.
    rewrite Hu1 in Ho. injection Ho as <-.
    split; [exact R|]. split; [exact Hl|]. split; [exact Hu1 | exact Hsame].
Qed.

(** X13.  DELETE /api/expenses is idempotent: sent a second time it is
    answered 200 again and leaves the database exactly as the first one
    left it. *)
Theorem expenses_delete_idempotent db uid u :
  find_user uid db = Some u ->
  let first := run (expenses_delete (ValidToken uid)) db in
  fst first = Returned (mkResponse 200 (Message "All data cleared.")) /\
  run (expenses_delete (ValidToken uid)) (snd first) = first.
Proof.
  intros Hu first. destruct (run_clear db uid u Hu) as (db2 & u2 & R & Hl & Hu2 & Hs).
  subst first. rewrite R. cbn [fst snd]. split; [reflexivity|].
  destruct (save_same_budget db2 uid u2 (VNum zero) (Some zero) Hu2 eq_refl Hs) as [d' Hsave].
  pose proof (ServerProps.find_user_id _ _ _ Hu2) as Hid.
  unfold expenses_delete, authMiddleware, res. cbn [Server.run exec]. rewrite Hu2.
  cbn [option_map Server.run exec].
  change (doc_id (hydrate false u2)) with (u_id u2). rewrite Hid.
  rewrite (filter_none_owned uid (expenses db2) Hl).
  replace (mkDB (users db2) (expenses db2)) with db2 by (destruct db2; reflexivity).
  rewrite Hsave. reflexivity.
Qed.

End Budget.
End ServerExtra.

(* ================================================================== *)
(** * The page and the server together *)
(* ================================================================== *)

Module AppProps.
Import JS Mongoose Client Server ServerObs ExtraObs AppObs.

Section Page.

Variable bcrypt_hash : string -> string.
Variable choose : list User -> option User.
Variable cast_id : string -> option ObjectId.
Variable Date_parse : string -> option Z.

Local Abbreviation run := (Server.run bcrypt_hash choose).
Local Abbreviation updateDisplay := (App.updateDisplay Date_parse).

(** ** The display *)

Lemma render_rows_expenses l : forall b, map row_expense (render_rows b l) = l.
Proof. induction l as [|x t IH]; intros b; simpl; [reflexivity|]. now rewrite IH. Qed.

Lemma updateTable_shows b l :
  table_expenses (snd (updateTable Date_parse b l)) = fst (updateTable Date_parse b l).
Proof. destruct l as [|x t]; [reflexivity|]. simpl. apply render_rows_expenses. Qed.

Lemma updateTable_perm b l : Permutation (fst (updateTable Date_parse b l)) l.
Proof.
  destruct l as [|x t]; [constructor|]. cbn [updateTable fst].
  apply SortProps.sort_perm.
Qed.

Lemma updateDisplay_fields p :
  App.token (updateDisplay p) = App.token p /\
  App.cached_user (updateDisplay p) = App.cached_user p /\
  App.href (updateDisplay p) = App.href p /\
  App.totalBudget (updateDisplay p) = App.totalBudget p /\
  App.events (updateDisplay p) = App.events p /\
  App.expenses (updateDisplay p)
    = fst (updateTable Date_parse (App.totalBudget p) (App.expenses p)) /\
  App.tbody (updateDisplay p)
    = Some (snd (updateTable Date_parse (App.totalBudget p) (App.expenses p))).
Proof.
  unfold App.updateDisplay.
  destruct (updateTable Date_parse (App.totalBudget p) (App.expenses p)) as [sorted t].
  repeat split.
Qed.

Lemma updateDisplay_displayed p : displayed (updateDisplay p).
Proof.
  unfold displayed, App.updateDisplay.
  pose proof (updateTable_shows (App.totalBudget p) (App.expenses p)) as H.
  destruct (updateTable Date_parse (App.totalBudget p) (App.expenses p)) as [sorted t].
  eexists _, t. cbn. repeat split. exact H.
Qed.

(** The page after [updateDisplay] is in sync when its globals are. *)
Lemma updateDisplay_in_sync uid p db c :
  Permutation (App.expenses p) (map of_json (ledger uid db)) ->
  stored_budget uid db = Some c ->
  App.totalBudget p = App.or_zero (App.json_budget c) ->
  in_sync uid (updateDisplay p) db.
Proof.
  intros Hp Hc Hb. split; [|apply updateDisplay_displayed].
  destruct (updateDisplay_fields p) as (_ & _ & _ & Hb' & _ & He & _).
  split.
  - rewrite He. eapply Permutation_trans; [apply updateTable_perm | exact Hp].
  - exists c. rewrite Hb'. auto.
Qed.

(** A change of the page that leaves the globals and the screen alone. *)
Lemma in_sync_same_view uid p p' db :
  same_view p p' -> in_sync uid p db -> in_sync uid p' db.
Proof.
  intros (Hb & He & Hs & Ht) [[Hp (c & Hc & Hbc)] (s & t & H1 & H2 & H3 & H4)].
  split.
  - split; [now rewrite He|]. exists c. now rewrite Hb.
  - exists s, t. rewrite Hs, Ht, Hb, He. auto.
Qed.

Lemma same_view_alert msg p : same_view p (App.alert msg p).
Proof. repeat split. Qed.

Lemma same_view_logout p : same_view p (App.logout p).
Proof. repeat split. Qed.

Lemma same_view_refl p : same_view p p.
Proof. repeat split. Qed.

(** ** Numbers in JSON *)

Lemma eqb_cases a b :
  PrimFloat.eqb a b = true ->
  a = b \/ (exists s1 s2, Prim2SF a = S754_zero s1 /\ Prim2SF b = S754_zero s2).
Proof.
  rewrite FloatAxioms.eqb_spec. intros H.
  destruct (Prim2SF a) as [s1|s1| |s1 m1 e1] eqn:Ea, (Prim2SF b) as [s2|s2| |s2 m2 e2] eqn:Eb;
    try discriminate H;
    try (right; eexists _, _; split; reflexivity);
    try (exfalso; destruct s1, s2; discriminate H);
    left; apply FloatAxioms.Prim2SF_inj; rewrite Ea, Eb.
  - destruct s1, s2; try discriminate H; reflexivity.
  - unfold SFeqb, SFcompare in H.
    destruct s1, s2; try discriminate H;
      destruct (Z.compare e1 e2) eqn:Ee; try discriminate H;
      destruct (Pos.compare_cont Eq m1 m2) eqn:Em; simpl in H; try discriminate H;
      apply Z.compare_eq in Ee; apply Pos.compare_eq in Em; subst; reflexivity.
Qed.

Lemma json_number_zero a s : Prim2SF a = S754_zero s -> json_number a = VNum zero.
Proof.
  intros E. unfold json_number, is_nan, is_infinity, is_zero.
  rewrite !FloatAxioms.eqb_spec, FloatAxioms.abs_spec, E. destruct s; reflexivity.
Qed.

Lemma json_number_eqb a b : PrimFloat.eqb a b = true -> json_number a = json_number b.
Proof.
  intros H. destruct (eqb_cases a b H) as [->|(s1 & s2 & Ea & Eb)]; [reflexivity|].
  now rewrite (json_number_zero a s1 Ea), (json_number_zero b s2 Eb).
Qed.

(** [json_number] is idempotent on what it sends as a Number. *)
Lemma json_number_idem x y : json_number x = VNum y -> json_number y = VNum y.
Proof.
  unfold json_number. destruct (is_nan x || is_infinity x) eqn:E; [discriminate|].
  destruct (is_zero x) eqn:Z.
  - intros [= <-]. reflexivity.
  - intros [= <-]. now rewrite E, Z.
Qed.

Lemma or_zero_json x y : json_number x = VNum y -> App.or_zero (VNum y) = y.
Proof.
  unfold json_number. destruct (is_nan x || is_infinity x) eqn:E; [discriminate|].
  destruct (is_zero x) eqn:Z.
  - intros [= <-]. reflexivity.
  - intros [= <-]. unfold App.or_zero, truthy. apply orb_false_elim in E. destruct E as [E _].
    now rewrite Z, E.
Qed.

(** ** Requests *)


(** A request from a page with a valid token that is answered with another
    status than 401. *)
Lemma apiRequest_answered route p db uid r db' :
  App.token p = Some (ValidToken uid) ->
  run (route (ValidToken uid)) db = (Returned r, db') ->
  (status r =? 401) = false ->
  App.apiRequest bcrypt_hash choose true route (p, db) = (Some (Some r), (p, db')).
Proof.
  intros Ht Hr Hs. unfold App.apiRequest, App.authHeaders. rewrite Ht, Hr, Hs. reflexivity.
Qed.

Lemma apiRequest_offline route w :
  App.apiRequest bcrypt_hash choose false route w
  = (Some None, (App.alert cannot_connect (fst w), snd w)).
Proof. destruct w. reflexivity. Qed.

Lemma apiRequest_denied route p db :
  denied (run (route (App.authHeaders p)) db) db ->
  App.apiRequest bcrypt_hash choose true route (p, db) = (Some None, (App.logout p, db)).
Proof.
  intros [msg H]. unfold App.apiRequest. rewrite H. reflexivity.
Qed.


(** ** The budget handlers *)

(** A Number that passed the check of a prompt, as the server receives it. *)
Lemma json_number_checked x :
  is_nan x = false -> is_infinity x = false ->
  exists y, json_number x = VNum y /\ is_nan y = false /\
    (PrimFloat.leb zero x = true -> PrimFloat.ltb y zero = false) /\
    (PrimFloat.ltb zero x = true -> PrimFloat.leb y zero = false).
Proof.
  intros Hn Hi. unfold json_number. rewrite Hn, Hi. cbn [orb].
  destruct (is_zero x) eqn:Z.
  - exists zero. repeat split. intros H. exfalso. revert Z H. unfold is_zero.
    rewrite FloatAxioms.eqb_spec, FloatAxioms.ltb_spec.
    change (Prim2SF zero) with (S754_zero false).
    destruct (Prim2SF x) as [[|]|[|]| |[|] m e]; simpl; discriminate.
  - exists x. split; [reflexivity|]. split; [exact Hn|].
    rewrite FloatAxioms.leb_spec, !FloatAxioms.ltb_spec, FloatAxioms.leb_spec.
    change (Prim2SF zero) with (S754_zero false).
    split; destruct (Prim2SF x) as [[|]|[|]| |[|] m e]; simpl; intros H;
      reflexivity || discriminate H.
Qed.

Lemma run_budget_set_rejected db uid u amount :
  find_user uid db = Some u ->
  is_undefined amount || isNaN amount || lt_num amount zero = true ->
  run (budget_set (ValidToken uid) amount) db
  = (Returned (mkResponse 400 (Error valid_budget_amount)), db).
Proof.
  intros Hu G. unfold budget_set, authMiddleware, res. cbn [Server.run exec].
  rewrite Hu. cbn [option_map Server.run]. rewrite G. reflexivity.
Qed.

Lemma run_budget_add_cases db uid u amount :
  find_user uid db = Some u ->
  let r := run (budget_add (ValidToken uid) amount) db in
  if is_undefined amount || isNaN amount || le_num amount zero then
    r = (Returned (mkResponse 400 (Error valid_amount_to_add)), db)
  else
    match castNumber (plus (budget_value u) amount) with
    | CastOk c =>
        exists db', r = (Returned (mkResponse 200 (Budget "Money added to budget." c)), db') /\
                    budget_written db db' uid c
    | CastError => r = (Returned (mkResponse 500 (Error "Server error.")), db)
    end.
Proof.
  intros Hu r. subst r. unfold budget_add, authMiddleware, res. cbn [Server.run exec].
  rewrite Hu. cbn [option_map Server.run].
  destruct (is_undefined amount || isNaN amount || le_num amount zero); [reflexivity|].
  cbn [Server.run exec].
  change (get_totalBudget (hydrate false u)) with (budget_value u).
  destruct (castNumber (plus (budget_value u) amount)) as [c|] eqn:Hc.
  - destruct (ServerProps.save_set_totalBudget bcrypt_hash db uid u _ c Hu Hc)
      as (d' & db' & Hs & Hd & Hw).
    rewrite Hs. cbn. rewrite Hd. exists db'. split; [reflexivity | exact Hw].
  - rewrite (ServerProps.save_cast_error bcrypt_hash db u _ Hc). reflexivity.
Qed.

(** After a write of the Number [t], the page that shows what JSON
    carries of [t] is in sync. *)
Lemma budget_written_in_sync uid p db db' t z :
  in_sync uid p db ->
  budget_written db db' uid (Some t) ->
  json_number t = VNum z ->
  in_sync uid (updateDisplay (App.set_totalBudget z p)) db'.
Proof.
  intros [[Hp _] _] (He & _ & Hw) Hj.
  assert (Hl : ledger uid db' = ledger uid db) by (unfold ledger; now rewrite He).
  pose proof (or_zero_json t z Hj) as Hz.
  destruct Hw as [Hw | (Hdb & old & Ho & Hs)].
  - apply (updateDisplay_in_sync uid _ db' (Some t)).
    + cbn [App.set_totalBudget App.expenses]. now rewrite Hl.
    + exact Hw.
    + cbn [App.set_totalBudget App.totalBudget App.json_budget]. now rewrite Hj, Hz.
  - subst db'. apply (updateDisplay_in_sync uid _ db old).
    + exact Hp.
    + exact Ho.
    + cbn [App.set_totalBudget App.totalBudget].
      destruct old as [o|]; [|discriminate Hs]. cbn [same_budget] in Hs.
      cbn [App.json_budget]. rewrite (json_number_eqb o t Hs). now rewrite Hj, Hz.
Qed.

Lemma body_totalBudget_number msg x y :
  json_number x = VNum y -> App.body_totalBudget (Budget msg (Some y)) = Some y.
Proof.
  intros Hj. unfold App.body_totalBudget, App.json_budget.
  now rewrite (json_number_idem x y Hj).
Qed.

(** X15.  The "set budget" handler keeps the page in sync with the server,
    whatever is typed into the prompt, as long as it is not read as
    Infinity: a cancelled prompt does nothing; a text that [parseFloat]
    reads as NaN or as a negative Number is refused by the page with an
    alert and no request; every other text passes the guard of the server
    as well, the Number is stored, and the page shows it. *)
Theorem on_set_budget_keeps_in_sync online uid p db budget :
  logged_in uid p db -> in_sync uid p db ->
  (forall text, budget = Some text -> is_infinity (parseFloat (VStr text)) = false) ->
  exists p' db',
    App.on_set_budget bcrypt_hash choose online Date_parse budget (p, db)
      = (Some tt, (p', db')) /\
    in_sync uid p' db' /\
    (budget = None -> p' = p /\ db' = db) /\
    (forall text, budget = Some text ->
       let x := parseFloat (VStr text) in
       if negb (is_nan x) && PrimFloat.leb zero x then
         online = true ->
         exists y, json_number x = VNum y /\ budget_written db db' uid (Some y) /\
                   App.totalBudget p' = y /\ App.events p' = App.events p
       else p' = App.alert "Please enter a valid positive number." p /\ db' = db).
Proof.
  intros [Ht [u Hu]] Hsync Hfin. destruct budget as [text|].
  2:{ exists p, db. split; [reflexivity|]. split; [exact Hsync|]. split; [auto | discriminate]. }
  specialize (Hfin text eq_refl). cbn [App.on_set_budget].
  set (x := parseFloat (VStr text)) in *.
  destruct (negb (is_nan x) && PrimFloat.leb zero x) eqn:Hcheck.
  2:{ eexists _, db. split; [reflexivity|]. split.
      - apply (in_sync_same_view uid p); [apply same_view_alert | exact Hsync].
      - split; [discriminate|]. intros t [= <-]. fold x. rewrite Hcheck. split; reflexivity. }
  apply andb_prop in Hcheck. destruct Hcheck as [Hn Hle]. apply negb_true_iff in Hn.
  destruct (json_number_checked x Hn Hfin) as (y & Hj & Hny & Hlt & _).
  specialize (Hlt Hle).
  destruct online.
  - assert (G : is_undefined (VNum y) || isNaN (VNum y) || lt_num (VNum y) zero = false).
    { unfold isNaN, lt_num. cbn [is_undefined ToNumber orb]. now rewrite Hny, Hlt. }
    destruct (ServerProps.budget_set_accepted bcrypt_hash choose db uid u (VNum y) Hu G)
      as (c & Hc & Hr & Hw).
    cbn [castNumber ToNumber] in Hc. rewrite Hny in Hc. injection Hc as <-.
    destruct (run (budget_set (ValidToken uid) (VNum y)) db) as [o db'] eqn:R.
    cbn [fst snd] in Hr, Hw. subst o.
    exists (updateDisplay (App.set_totalBudget y p)), db'. split; [|split; [|split]].
    + unfold App.setBudget, App.bind. rewrite Hj.
      rewrite (apiRequest_answered (fun a => budget_set a (VNum y)) p db uid _ db' Ht R eq_refl).
      cbn [App.ok status json andb Z.leb Z.compare Pos.compare Pos.compare_cont App.ret].
      rewrite (body_totalBudget_number _ x y Hj). reflexivity.
    + exact (budget_written_in_sync uid p db db' y y Hsync Hw (json_number_idem x y Hj)).
    + discriminate.
    + intros t [= <-]. fold x. rewrite Hn, Hle. intros _. exists y.
      destruct (updateDisplay_fields (App.set_totalBudget y p)) as (_ & _ & _ & Hb & He & _).
      rewrite Hb, He. auto.
  - eexists _, db. split; [|split; [|split]].
    + unfold App.setBudget, App.bind. rewrite apiRequest_offline. reflexivity.
    + apply (in_sync_same_view uid p); [apply same_view_alert | exact Hsync].
    + discriminate.
    + intros t [= <-]. fold x. rewrite Hn, Hle. discriminate.
Qed.

(** X16.  A text that [parseFloat] reads as Infinity passes the check of
    the "set budget" handler, is sent as [null] (JSON has no infinities)
    and passes the guard of the server: the stored total becomes [null]
    while the page, which gets [null] back, changes nothing and keeps
    showing the budget it had. *)
Theorem on_set_budget_infinity uid p db text :
  logged_in uid p db ->
  parseFloat (VStr text) = infinity ->
  exists db',
    App.on_set_budget bcrypt_hash choose true Date_parse (Some text) (p, db)
      = (Some tt, (p, db')) /\
    budget_written db db' uid None.
Proof.
  intros [Ht [u Hu]] Hx. cbn [App.on_set_budget]. rewrite Hx.
  change (negb (is_nan infinity) && PrimFloat.leb zero infinity) with true. cbn iota.
  change (json_number infinity) with VNull.
  destruct (ServerProps.budget_set_accepted bcrypt_hash choose db uid u VNull Hu eq_refl)
    as (c & Hc & Hr & Hw).
  injection Hc as <-.
  destruct (run (budget_set (ValidToken uid) VNull) db) as [o db'] eqn:R.
  cbn [fst snd] in Hr, Hw. subst o. exists db'. split; [|exact Hw].
  unfold App.setBudget, App.bind. change (json_number infinity) with VNull.
  rewrite (apiRequest_answered (fun a => budget_set a VNull) p db uid _ db' Ht R eq_refl).
  destruct p; reflexivity.
Qed.

(** X17.  The "add money" handler keeps the page in sync with the server
    unless the new total overflows: a text that the page accepts (read by
    [parseFloat] as a finite Number above zero) also passes the guard of
    the server, the floating-point sum of the stored total ([null] as 0)
    and the Number is stored, and the page shows it.  A text read as
    Infinity is sent as [null], which the server refuses: neither the page
    nor the database changes.  A text the page refuses gives an alert and
    no request. *)
Theorem on_add_money_keeps_in_sync online uid u p db addAmount :
  App.token p = Some (ValidToken uid) -> find_user uid db = Some u ->
  in_sync uid p db ->
  (forall text, addAmount = Some text ->
     is_infinity (PrimFloat.add (ToNumber (budget_value u))
                                (ToNumber (json_number (parseFloat (VStr text))))) = false) ->
  exists p' db',
    App.on_add_money bcrypt_hash choose online Date_parse addAmount (p, db)
      = (Some tt, (p', db')) /\
    in_sync uid p' db' /\
    (forall text, addAmount = Some text ->
       let x := parseFloat (VStr text) in
       if negb (is_nan x) && PrimFloat.ltb zero x then
         online = true ->
         if is_infinity x then p' = p /\ db' = db
         else
           exists y total,
             json_number x = VNum y /\
             total = PrimFloat.add (ToNumber (budget_value u)) y /\
             (is_nan total = false ->
                budget_written db db' uid (Some total) /\
                json_number total = VNum (App.totalBudget p'))
       else p' = App.alert "Please enter a valid positive number." p /\ db' = db).
Proof.
  intros Ht Hu Hsync Hfin. destruct addAmount as [text|].
  2:{ exists p, db. split; [reflexivity|]. split; [exact Hsync | discriminate]. }
  specialize (Hfin text eq_refl). cbn [App.on_add_money].
  set (x := parseFloat (VStr text)) in *.
  destruct (negb (is_nan x) && PrimFloat.ltb zero x) eqn:Hcheck.
  2:{ eexists _, db. split; [reflexivity|]. split.
      - apply (in_sync_same_view uid p); [apply same_view_alert | exact Hsync].
      - intros t [= <-]. fold x. rewrite Hcheck. split; reflexivity. }
  apply andb_prop in Hcheck. destruct Hcheck as [Hn Hlt]. apply negb_true_iff in Hn.
  destruct online.
  2:{ eexists _, db. split; [|split].
      - unfold App.addMoneyToBudget, App.bind. rewrite apiRequest_offline. reflexivity.
      - apply (in_sync_same_view uid p); [apply same_view_alert | exact Hsync].
      - intros t [= <-]. fold x. rewrite Hn, Hlt. discriminate. }
  pose proof (run_budget_add_cases db uid u (json_number x) Hu) as Hcases.
  cbv zeta in Hcases.
  destruct (run (budget_add (ValidToken uid) (json_number x)) db) as [o db'] eqn:R.
  destruct (is_infinity x) eqn:Hi.
  - (* sent as null, which the server refuses *)
    assert (Hj : json_number x = VNull).
    { unfold json_number. rewrite Hi. now rewrite orb_true_r. }
    rewrite Hj in *. cbn in Hcases. injection Hcases as -> ->.
    exists p, db. split; [|split].
    + unfold App.addMoneyToBudget, App.bind. rewrite Hj.
      rewrite (apiRequest_answered (fun a => budget_add a VNull) p db uid _ db Ht R eq_refl).
      reflexivity.
    + exact Hsync.
    + intros t [= <-]. fold x. rewrite Hn, Hlt, Hi. intros _. split; reflexivity.
  - destruct (json_number_checked x Hn Hi) as (y & Hj & Hny & _ & Hle).
    specialize (Hle Hlt). rewrite Hj in *.
    assert (G : is_undefined (VNum y) || isNaN (VNum y) || le_num (VNum y) zero = false).
    { unfold isNaN, le_num. cbn [is_undefined ToNumber orb]. now rewrite Hny, Hle. }
    rewrite G in Hcases.
    set (total := PrimFloat.add (ToNumber (budget_value u)) y) in *.
    assert (Hp : plus (budget_value u) (VNum y) = VNum total).
    { subst total. unfold budget_value. destruct (totalBudget u); reflexivity. }
    rewrite Hp in Hcases.
    change (castNumber (VNum total))
      with (if is_nan total then @CastError float else CastOk (Some total)) in Hcases.
    change (is_infinity total = false) in Hfin.
    destruct (is_nan total) eqn:Hnt.
    + injection Hcases as -> ->. exists p, db. split; [|split].
      * unfold App.addMoneyToBudget, App.bind. rewrite Hj.
        rewrite (apiRequest_answered (fun a => budget_add a (VNum y)) p db uid _ db Ht R eq_refl).
        reflexivity.
      * exact Hsync.
      * intros t [= <-]. fold x. rewrite Hn, Hlt, Hi. intros _. exists y, total.
        split; [exact Hj|]. split; [reflexivity|]. intros H. congruence.
    + destruct Hcases as (db2 & [= -> ->] & Hw).
      assert (Hjt : exists z, json_number total = VNum z).
      { unfold json_number. rewrite Hnt, Hfin. cbn [orb].
        destruct (is_zero total); eauto. }
      destruct Hjt as [z Hjt].
      exists (updateDisplay (App.set_totalBudget z p)), db2. split; [|split].
      * unfold App.addMoneyToBudget, App.bind. rewrite Hj.
        rewrite (apiRequest_answered (fun a => budget_add a (VNum y)) p db uid _ db2 Ht R eq_refl).
        cbn [App.ok status json andb Z.leb Z.compare Pos.compare Pos.compare_cont App.ret
             App.body_totalBudget App.json_budget].
        rewrite Hjt. reflexivity.
      * exact (budget_written_in_sync uid p db db2 total z Hsync Hw Hjt).
      * intros t [= <-]. fold x. rewrite Hn, Hlt, Hi. intros _. exists y, total.
        split; [exact Hj|]. split; [reflexivity|]. intros _. split; [exact Hw|].
        destruct (updateDisplay_fields (App.set_totalBudget z p)) as (_ & _ & _ & Hb & _).
        rewrite Hb. exact Hjt.
Qed.

(** ** Clearing *)

(** X18.  The "clear data" handler, once confirmed on a page with a valid
    session, empties the account's ledger on the server and leaves the
    page in sync with it: no expense, a budget of 0, the empty-state row
    and a summary of three times 0.00.  When the confirmation is declined,
    nothing happens. *)
Theorem on_clear_data_clears uid p db :
  logged_in uid p db ->
  (exists p' db',
     App.on_clear_data bcrypt_hash choose true Date_parse true (p, db)
       = (Some tt, (p', db')) /\
     ledger uid db' = [] /\ in_sync uid p' db' /\
     App.expenses p' = [] /\ App.totalBudget p' = zero /\
     App.tbody p' = Some EmptyState /\
     App.summaryEl p' = Some (App.mkSummary "0.00" "0.00" "0.00" false) /\
     App.events p' = App.events p) /\
  App.on_clear_data bcrypt_hash choose true Date_parse false (p, db) = (Some tt, (p, db)).
Proof.
  intros [Ht [u Hu]]. split; [|reflexivity].
  destruct (ServerExtra.run_clear bcrypt_hash choose db uid u Hu)
    as (db2 & u2 & R & Hl & Hu2 & Hs).
  set (p' := updateDisplay (App.set_expenses [] (App.set_totalBudget zero p))).
  exists p', db2. split; [|split; [exact Hl|split]].
  - unfold App.on_clear_data, App.clearAllData, App.bind.
    rewrite (apiRequest_answered expenses_delete p db uid _ db2 Ht R eq_refl). reflexivity.
  - apply (updateDisplay_in_sync uid _ db2 (totalBudget u2)).
    + rewrite Hl. constructor.
    + unfold stored_budget. now rewrite Hu2.
    + cbn [App.set_expenses App.set_totalBudget App.totalBudget].
      destruct (totalBudget u2) as [o|]; [|discriminate Hs]. cbn [same_budget] in Hs.
      cbn [App.json_budget]. now rewrite (json_number_eqb o zero Hs).
  - repeat split.
Qed.

(** ** Adding an expense *)

Lemma same_view_emit e p : same_view p (App.emit e p).
Proof. repeat split. Qed.

Lemma same_view_trans p q r : same_view p q -> same_view q r -> same_view p r.
Proof.
  intros (A1 & A2 & A3 & A4) (B1 & B2 & B3 & B4). repeat split; congruence.
Qed.

Lemma run_expenses_post_cases db uid u e da it am qu mo :
  find_user uid db = Some u ->
  let r := run (expenses_post e (ValidToken uid) da it am qu mo) db in
  (negb (truthy da) || negb (truthy it) || negb (truthy am)
     || negb (truthy qu) || negb (truthy mo) = true /\
   r = (Returned (mkResponse 400 (Error "All fields are required.")), db)) \/
  r = (Returned (mkResponse 500 (Error "Server error.")), db) \/
  (exists x, userId x = uid /\
     r = (Returned (mkResponse 201 (Created x)), mkDB (users db) (expenses db ++ [x]))).
Proof.
  intros Hu r. subst r. pose proof (ServerProps.find_user_id _ _ _ Hu) as Hid.
  unfold expenses_post, authMiddleware, res. cbn [Server.run exec].
  rewrite Hu. cbn [option_map Server.run].
  destruct (negb (truthy da) || negb (truthy it) || negb (truthy am)
            || negb (truthy qu) || negb (truthy mo)); [left; auto|].
  right. cbn [Server.run exec]. unfold save_expense.
  destruct (validate_expense _) as [x|] eqn:V; [|left; reflexivity].
  destruct (existsb _ (expenses db)); [left; reflexivity|].
  right. exists x. split; [|reflexivity].
  unfold validate_expense, new_Expense in V. cbn [edoc_date edoc_item edoc_amount
    edoc_quantity edoc_mode edoc_id edoc_userId edoc_createdAt] in V.
  destruct (castString da) as [[?|]|]; try discriminate V.
  destruct (castString it) as [[?|]|]; try discriminate V.
  destruct (castNumber _) as [[?|]|]; try discriminate V.
  destruct (castString qu) as [[?|]|]; try discriminate V.
  destruct (castString mo) as [[?|]|]; try discriminate V.
  destruct (_ && _); [|discriminate V]. injection V as <-. exact Hid.
Qed.

(** X19.  The form handler keeps the page in sync with the server,
    whatever the five inputs hold and whether or not the server can be
    reached: either nothing is stored and the page only shows an alert, or
    exactly one expense of the account is appended to the collection,
    the same record is added to the array of the page, which is rendered
    again, and the form is reset. *)
Theorem on_submit_keeps_in_sync online uid p db e date item quantity amount mode :
  logged_in uid p db -> in_sync uid p db ->
  exists p' db',
    App.on_submit bcrypt_hash choose online Date_parse e date item quantity amount mode (p, db)
      = (Some tt, (p', db')) /\
    in_sync uid p' db' /\
    ((db' = db /\ exists msg, p' = App.alert msg p) \/
     (exists x, userId x = uid /\ db' = mkDB (users db) (expenses db ++ [x]) /\
        Permutation (App.expenses p') (App.expenses p ++ [of_json x]) /\
        App.events p'
          = (App.events p ++ [App.FormReset; App.SetDefaultDate; App.FocusItem])%list)).
Proof.
  intros [Ht [u Hu]] Hsync. unfold App.on_submit.
  destruct (negb (truthy (VStr date)) || _ || _ || _ || _).
  { eexists _, db. split; [reflexivity|]. split.
    - apply (in_sync_same_view uid p); [apply same_view_alert | exact Hsync].
    - left. eauto. }
  unfold App.addExpense, App.bind. destruct online.
  2:{ rewrite apiRequest_offline. eexists _, db. split; [reflexivity|]. split.
      - apply (in_sync_same_view uid p); [apply same_view_alert | exact Hsync].
      - left. eauto. }
  set (route := fun a => expenses_post e a (VStr date) (VStr (trim item))
                  (json_number (parseFloat (VStr amount))) (VStr (trim quantity)) (VStr mode)).
  destruct (run_expenses_post_cases db uid u e (VStr date) (VStr (trim item))
              (json_number (parseFloat (VStr amount))) (VStr (trim quantity)) (VStr mode) Hu)
    as [[_ R] | [R | (x & Hx & R)]].
  - rewrite (apiRequest_answered route p db uid _ db Ht R eq_refl).
    eexists _, db. split; [reflexivity|]. split.
    + apply (in_sync_same_view uid p); [apply same_view_alert | exact Hsync].
    + left. eauto.
  - rewrite (apiRequest_answered route p db uid _ db Ht R eq_refl).
    eexists _, db. split; [reflexivity|]. split.
    + apply (in_sync_same_view uid p); [apply same_view_alert | exact Hsync].
    + left. eauto.
  - rewrite (apiRequest_answered route p db uid _ _ Ht R eq_refl).
    set (db' := mkDB (users db) (expenses db ++ [x])).
    set (q := updateDisplay (App.set_expenses (App.expenses p ++ [of_json x]) p)).
    exists (App.emit App.FocusItem (App.emit App.SetDefaultDate (App.emit App.FormReset q))), db'.
    split; [reflexivity|].
    destruct (updateDisplay_fields (App.set_expenses (App.expenses p ++ [of_json x]) p))
      as (_ & _ & _ & _ & He & Hex & _). fold q in He, Hex.
    destruct Hsync as [[Hp (c & Hc & Hb)] _].
    assert (Hl : ledger uid db' = (ledger uid db ++ [x])%list).
    { unfold db'. destruct db as [us es]. rewrite ServerProps.ledger_app. simpl.
      unfold owned_by. rewrite Hx, N.eqb_refl. reflexivity. }
    split; [|right; exists x; split; [exact Hx|split; [reflexivity|split]]].
    + apply (in_sync_same_view uid q).
      { eapply same_view_trans; [apply same_view_emit|].
        eapply same_view_trans; apply same_view_emit. }
      apply (updateDisplay_in_sync uid _ db' c).
      * cbn [App.set_expenses App.expenses]. rewrite Hl, map_app.
        apply Permutation_app_tail. exact Hp.
      * exact Hc.
      * exact Hb.
    + cbn [App.emit App.expenses]. rewrite Hex. apply updateTable_perm.
    + cbn [App.emit App.events]. rewrite He. cbn [App.set_expenses App.events].
      rewrite <- !app_assoc. reflexivity.
Qed.

Lemma run_expenses_post_missing db uid u e da it am qu mo :
  find_user uid db = Some u ->
  truthy am = false ->
  run (expenses_post e (ValidToken uid) da it am qu mo) db
  = (Returned (mkResponse 400 (Error "All fields are required.")), db).
Proof.
  intros Hu T. unfold expenses_post, authMiddleware, res. cbn [Server.run exec].
  rewrite Hu. cbn [option_map Server.run]. rewrite T. cbn [negb]. rewrite !orb_true_r.
  reflexivity.
Qed.

(** X20.  The page itself runs into the truthiness test of the server:
    with the five inputs filled in and an amount text that [parseFloat]
    reads as zero (or as NaN or an infinity, which JSON sends as [null]),
    the check of the page passes, the server answers 400, and the user is
    told "All fields are required."; nothing is stored and the table does
    not change. *)
Theorem on_submit_zero_amount uid p db e date item quantity amount mode :
  logged_in uid p db ->
  date <> "" -> trim item <> "" -> trim quantity <> "" -> amount <> "" -> mode <> "" ->
  truthy (json_number (parseFloat (VStr amount))) = false ->
  App.on_submit bcrypt_hash choose true Date_parse e date item quantity amount mode (p, db)
  = (Some tt, (App.alert "All fields are required." p, db)).
Proof.
  intros [Ht [u Hu]] Hd Hi Hq Ha Hm Hz.
  assert (T : forall s, s <> "" -> negb (truthy (VStr s)) = false).
  { intros s Hs. simpl. apply negb_false_iff. now apply negb_true_iff, String.eqb_neq. }
  unfold App.on_submit. rewrite (T _ Hd), (T _ Hi), (T _ Hq), (T _ Ha), (T _ Hm).
  cbn [orb]. unfold App.addExpense, App.bind.
  rewrite (apiRequest_answered
             (fun a => expenses_post e a (VStr date) (VStr (trim item))
                         (json_number (parseFloat (VStr amount)))
                         (VStr (trim quantity)) (VStr mode))
             p db uid _ db Ht
             (run_expenses_post_missing db uid u e _ _ _ _ _ Hu Hz) eq_refl).
  reflexivity.
Qed.

(** ** Deleting an expense *)

Lemma Permutation_filter' {A : Type} (f : A -> bool) (l l' : list A) :
  Permutation l l' -> Permutation (filter f l) (filter f l').
Proof.
  induction 1 as [|x l l' _ IH|x y l|l l' l'' _ IH1 _ IH2]; simpl.
  - constructor.
  - destruct (f x); [now constructor | exact IH].
  - destruct (f x), (f y); try apply Permutation_refl. apply perm_swap.
  - eapply Permutation_trans; eassumption.
Qed.

Lemma filter_all {A : Type} (f : A -> bool) (l : list A) :
  (forall x, In x l -> f x = true) -> filter f l = l.
Proof.
  induction l as [|x t IH]; simpl; intros H; [reflexivity|].
  rewrite (H x (or_introl eq_refl)), IH; [reflexivity|]. intros y Hy. apply H. now right.
Qed.

Lemma ledger_remove_first uid i (l : list Expense) :
  NoDup (map e_id l) ->
  filter (owned_by uid) (remove_first (id_and_owner i uid) l)
  = filter (fun e => negb (e_id e =? i)%N) (filter (owned_by uid) l).
Proof.
  induction l as [|x t IH]; simpl; intros Hnd; [reflexivity|].
  inversion Hnd as [|? ? Hx Hnt]; subst. unfold id_and_owner at 1.
  destruct (e_id x =? i)%N eqn:Ei; cbn [andb].
  - destruct (owned_by uid x) eqn:Ox.
    + simpl. rewrite Ei. cbn [negb]. symmetry. apply filter_all.
      intros y Hy. apply filter_In in Hy. destruct Hy as [Hy _].
      apply negb_true_iff, N.eqb_neq. intros E. apply Hx.
      apply N.eqb_eq in Ei. rewrite Ei, <- E. now apply in_map.
    + simpl. rewrite Ox. apply IH. exact Hnt.
  - simpl. destruct (owned_by uid x); simpl; [rewrite Ei; cbn [negb]; f_equal|];
      apply IH; exact Hnt.
Qed.

Lemma filter_map_of_json (f : expense -> bool) (g : Expense -> bool) (l : list Expense) :
  (forall x, In x l -> f (of_json x) = g x) ->
  filter f (map of_json l) = map of_json (filter g l).
Proof.
  induction l as [|x t IH]; simpl; intros H; [reflexivity|].
  rewrite (H x (or_introl eq_refl)), IH by (intros y Hy; apply H; now right).
  destruct (g x); reflexivity.
Qed.

(** X21.  A click on the delete button of a row removes that expense on
    the server and on the page: with unique ids, and ids that the server
    reads back from the path as they were sent, the request is answered
    200, exactly the expense of the row leaves the collection, and the
    page, which drops the rows with that id and renders again, stays in
    sync. *)
Theorem on_delete_click_keeps_in_sync uid p db id :
  logged_in uid p db -> in_sync uid p db ->
  NoDup (map e_id (expenses db)) -> ids_round_trip cast_id db ->
  In id (map _id (App.expenses p)) ->
  exists p' db' x,
    App.on_delete_click bcrypt_hash choose true cast_id Date_parse (Some id) (p, db)
      = (Some tt, (p', db')) /\
    In x (ledger uid db) /\ _id (of_json x) = id /\
    users db' = users db /\
    (forall y, In y (expenses db') <-> In y (expenses db) /\ y <> x) /\
    in_sync uid p' db' /\ App.events p' = App.events p.
Proof.
  intros [Ht [u Hu]] Hsync Hnd Hrt Hin.
  destruct Hsync as [[Hp (c & Hc & Hb)] Hdisp].
  assert (Hx : exists x, In x (ledger uid db) /\ _id (of_json x) = id).
  { apply in_map_iff in Hin. destruct Hin as (r & Hr & Hin).
    apply (Permutation_in _ Hp) in Hin. apply in_map_iff in Hin.
    destruct Hin as (x & Hx & Hin). exists x. split; [exact Hin | congruence]. }
  destruct Hx as (x & Hxl & Hxid).
  assert (Hxe : In x (expenses db) /\ owned_by uid x = true).
  { unfold ledger in Hxl. now apply filter_In in Hxl. }
  destruct Hxe as [Hxe Hxo].
  assert (Hcast : cast_id id = Some (e_id x)) by (rewrite <- Hxid; apply Hrt; exact Hxe).
  pose proof (ServerProps.run_expenses_delete_id bcrypt_hash choose db uid u (e_id x) Hu) as R.
  destruct (find (id_and_owner (e_id x) uid) (expenses db)) as [x0|] eqn:F.
  2:{ exfalso. apply (find_none _ _ F) in Hxe. unfold id_and_owner in Hxe.
      now rewrite N.eqb_refl, Hxo in Hxe. }
  assert (Hx0 : x0 = x).
  { apply find_some in F. destruct F as [Hx0 F]. unfold id_and_owner in F.
    apply andb_prop in F. destruct F as [F _]. apply N.eqb_eq in F.
    exact (ServerProps.NoDup_ids_inj _ _ _ Hnd Hx0 Hxe F). }
  subst x0.
  set (db' := mkDB (users db) (remove_first (id_and_owner (e_id x) uid) (expenses db))) in *.
  set (l' := filter (fun exp => negb (String.eqb (_id exp) id)) (App.expenses p)).
  exists (updateDisplay (App.set_expenses l' p)), db', x.
  split; [|split; [exact Hxl|split; [exact Hxid|split; [reflexivity|split; [|split]]]]].
  - cbn [App.on_delete_click]. unfold App.deleteExpense, App.bind. rewrite Hcast.
    rewrite (apiRequest_answered (fun a => expenses_delete_id a (Some (e_id x)))
               p db uid _ db' Ht R eq_refl).
    reflexivity.
  - intros y. unfold db'. cbn [expenses].
    rewrite (ServerProps.remove_first_In _ _ x (e_id x) Hnd F eq_refl y).
    split; intros [Hy Hne]; (split; [exact Hy|]).
    + intros ->. now apply Hne.
    + intros E. apply Hne. exact (ServerProps.NoDup_ids_inj _ _ _ Hnd Hy Hxe E).
  - apply (updateDisplay_in_sync uid _ db' c).
    + cbn [App.set_expenses App.expenses]. unfold l'.
      eapply Permutation_trans; [apply Permutation_filter'; exact Hp|].
      unfold ledger, db'. cbn [expenses].
      rewrite (ledger_remove_first uid (e_id x) _ Hnd).
      rewrite (filter_map_of_json _ (fun e => negb (e_id e =? e_id x)%N)); [apply Permutation_refl|].
      intros y Hy. f_equal. apply filter_In in Hy. destruct Hy as [Hy _].
      destruct (e_id y =? e_id x)%N eqn:E.
      * apply N.eqb_eq in E.
        rewrite (ServerProps.NoDup_ids_inj _ _ _ Hnd Hy Hxe E), Hxid. apply String.eqb_refl.
      * apply String.eqb_neq. intros E'. apply N.eqb_neq in E. apply E.
        pose proof (Hrt y Hy) as Hy'. rewrite E', Hcast in Hy'. congruence.
    + exact Hc.
    + exact Hb.
  - destruct (updateDisplay_fields (App.set_expenses l' p)) as (_ & _ & _ & _ & He & _).
    rewrite He. reflexivity.
Qed.

(** ** Without a session, without a connection *)

(** X22.  When the server no longer accepts the token of the page, the
    first request of any handler is answered 401 and the page logs out:
    the token and the cached profile are removed and the browser is sent
    to the login page.  The database is not touched, and the handlers
    that write change nothing else on the page. *)
Theorem expired_session_logs_out p db :
  unauthenticated (App.authHeaders p) db ->
  (exists p',
     App.loadData bcrypt_hash choose true Date_parse (p, db) = (Some tt, (p', db)) /\
     App.token p' = None /\ App.cached_user p' = None /\
     App.href p' = Some "login.html") /\
  App.on_clear_data bcrypt_hash choose true Date_parse true (p, db)
    = (Some tt, (App.logout p, db)) /\
  (forall id,
     App.on_delete_click bcrypt_hash choose true cast_id Date_parse (Some id) (p, db)
     = (Some tt, (App.logout p, db))) /\
  (forall text,
     negb (is_nan (parseFloat (VStr text))) && PrimFloat.leb zero (parseFloat (VStr text))
       = true ->
     App.on_set_budget bcrypt_hash choose true Date_parse (Some text) (p, db)
     = (Some tt, (App.logout p, db))) /\
  (forall text,
     negb (is_nan (parseFloat (VStr text))) && PrimFloat.ltb zero (parseFloat (VStr text))
       = true ->
     App.on_add_money bcrypt_hash choose true Date_parse (Some text) (p, db)
     = (Some tt, (App.logout p, db))) /\
  (forall e date item quantity amount mode,
     date <> "" -> trim item <> "" -> trim quantity <> "" -> amount <> "" -> mode <> "" ->
     App.on_submit bcrypt_hash choose true Date_parse e date item quantity amount mode (p, db)
     = (Some tt, (App.logout p, db))).
Proof.
  intros Hun.
  assert (D : forall next, App.apiRequest bcrypt_hash choose true
                (fun a => authMiddleware a next) (p, db) = (Some None, (App.logout p, db))).
  { intros next. apply apiRequest_denied.
    apply ServerExtra.authMiddleware_denied. exact Hun. }
  split; [|split; [|split; [|split; [|split]]]].
  - eexists. split.
    + unfold App.loadData, App.fetchUserProfile, App.fetchExpenses, App.bind.
      unfold me. rewrite D. cbn [App.ret].
      unfold expenses_get.
      rewrite (apiRequest_denied (fun a => authMiddleware a _) (App.logout p) db).
      * reflexivity.
      * apply ServerExtra.authMiddleware_denied. exact I.
    + unfold App.updateDisplay. cbn. repeat split.
  - unfold App.on_clear_data, App.clearAllData, App.bind, expenses_delete. rewrite D.
    reflexivity.
  - intros id. cbn [App.on_delete_click].
    unfold App.deleteExpense, App.bind, expenses_delete_id. rewrite D. reflexivity.
  - intros text Hc. cbn [App.on_set_budget]. rewrite Hc.
    unfold App.setBudget, App.bind, budget_set. rewrite D. reflexivity.
  - intros text Hc. cbn [App.on_add_money]. rewrite Hc.
    unfold App.addMoneyToBudget, App.bind, budget_add. rewrite D. reflexivity.
  - intros e date item quantity amount mode Hd Hi Hq Ha Hm.
    assert (T : forall s, s <> "" -> negb (truthy (VStr s)) = false).
    { intros s Hs. simpl. apply negb_false_iff. now apply negb_true_iff, String.eqb_neq. }
    unfold App.on_submit. rewrite (T _ Hd), (T _ Hi), (T _ Hq), (T _ Ha), (T _ Hm).
    cbn [orb]. unfold App.addExpense, App.bind, expenses_post. rewrite D. reflexivity.
Qed.

(** X23.  When the server cannot be reached, no handler changes the
    database.  The handlers that write show the alert of [apiRequest] and
    leave the page as it is; [loadData] shows it twice and, since
    [fetchExpenses] then gives no expenses, empties the array and the
    table of the page. *)
Theorem offline_changes_nothing p db :
  (exists p',
     App.loadData bcrypt_hash choose false Date_parse (p, db) = (Some tt, (p', db)) /\
     App.events p' = (App.events p ++ [App.Alert cannot_connect; App.Alert cannot_connect])%list /\
     App.totalBudget p' = App.totalBudget p /\
     App.expenses p' = [] /\ App.tbody p' = Some EmptyState) /\
  App.on_clear_data bcrypt_hash choose false Date_parse true (p, db)
    = (Some tt, (App.alert cannot_connect p, db)) /\
  (forall id,
     App.on_delete_click bcrypt_hash choose false cast_id Date_parse (Some id) (p, db)
     = (Some tt, (App.alert cannot_connect p, db))) /\
  (forall text,
     negb (is_nan (parseFloat (VStr text))) && PrimFloat.leb zero (parseFloat (VStr text))
       = true ->
     App.on_set_budget bcrypt_hash choose false Date_parse (Some text) (p, db)
     = (Some tt, (App.alert cannot_connect p, db))) /\
  (forall text,
     negb (is_nan (parseFloat (VStr text))) && PrimFloat.ltb zero (parseFloat (VStr text))
       = true ->
     App.on_add_money bcrypt_hash choose false Date_parse (Some text) (p, db)
     = (Some tt, (App.alert cannot_connect p, db))) /\
  (forall e date item quantity amount mode,
     date <> "" -> trim item <> "" -> trim quantity <> "" -> amount <> "" -> mode <> "" ->
     App.on_submit bcrypt_hash choose false Date_parse e date item quantity amount mode (p, db)
     = (Some tt, (App.alert cannot_connect p, db))).
Proof.
  split; [|split; [|split; [|split; [|split]]]].
  - eexists. split.
    + unfold App.loadData, App.fetchUserProfile, App.fetchExpenses, App.bind.
      rewrite !apiRequest_offline. cbn [App.ret fst snd]. rewrite !apiRequest_offline.
      reflexivity.
    + unfold App.updateDisplay. cbn. rewrite <- app_assoc. repeat split.
  - unfold App.on_clear_data, App.clearAllData, App.bind. rewrite apiRequest_offline.
    reflexivity.
  - intros id. cbn [App.on_delete_click]. unfold App.deleteExpense, App.bind.
    rewrite apiRequest_offline. reflexivity.
  - intros text Hc. cbn [App.on_set_budget]. rewrite Hc.
    unfold App.setBudget, App.bind. rewrite apiRequest_offline. reflexivity.
  - intros text Hc. cbn [App.on_add_money]. rewrite Hc.
    unfold App.addMoneyToBudget, App.bind. rewrite apiRequest_offline. reflexivity.
  - intros e date item quantity amount mode Hd Hi Hq Ha Hm.
    assert (T : forall s, s <> "" -> negb (truthy (VStr s)) = false).
    { intros s Hs. simpl. apply negb_false_iff. now apply negb_true_iff, String.eqb_neq. }
    unfold App.on_submit. rewrite (T _ Hd), (T _ Hi), (T _ Hq), (T _ Ha), (T _ Hm).
    cbn [orb]. unfold App.addExpense, App.bind. rewrite apiRequest_offline. reflexivity.
Qed.

End Page.
End AppProps.

(* ================================================================== *)
(** * Further properties of the table *)
(* ================================================================== *)

Module ClientExtra.
Import JS Client ClientObs TableObs.

Section Table.

Variable Date_parse : string -> option Z.

Local Abbreviation before := (fun a b => negb (comes_after Date_parse a b)).
Local Abbreviation sort := (Client.sort Date_parse).

Lemma insert_in_order x l :
  match l with [] => True | y :: _ => before x y = true end ->
  StableSort.insert before x l = x :: l.
Proof. destruct l as [|y t]; simpl; [reflexivity|]. now intros ->. Qed.

Lemma sort_in_order l :
  Sorted (fun a b => before a b = true) l -> sort l = l.
Proof.
  induction 1 as [|x l Hl IH Hx]; [reflexivity|].
  unfold Client.sort, StableSort.sort in *. simpl. rewrite IH.
  apply insert_in_order. destruct Hx; [exact I | assumption].
Qed.

(** X24.  Rendering again does not reorder the table: when every date of
    the array parses, [updateTable] applied to the array it has sorted
    gives the same array and the same rows. *)
Theorem updateTable_again totalBudget expenses :
  Forall (parses Date_parse) expenses ->
  let r := updateTable Date_parse totalBudget expenses in
  updateTable Date_parse totalBudget (fst r) = r.
Proof.
  intros Hp r. subst r. destruct expenses as [|e0 t]; [reflexivity|].
  cbn [updateTable fst].
  destruct (ClientProps.sort_by_date Date_parse (e0 :: t) Hp) as [Hs Hps].
  assert (E : sort (sort (e0 :: t)) = sort (e0 :: t)).
  { apply sort_in_order. apply StronglySorted_Sorted.
    revert Hps. induction Hs as [|x l Hl IH Hx]; intros Hps; constructor.
    - apply IH. now inversion Hps.
    - inversion Hps as [|? ? Px Pl]; subst. rewrite Forall_forall in Hx, Pl |- *.
      intros y Hy. apply (ClientProps.before_spec Date_parse); auto. }
  destruct (sort (e0 :: t)) as [|s0 st] eqn:Es.
  - pose proof (SortProps.sort_length before (e0 :: t)) as L.
    unfold Client.sort in Es. rewrite Es in L. discriminate L.
  - cbn [updateTable]. rewrite E. reflexivity.
Qed.

Lemma on_day_after v x y :
  on_day Date_parse v x = true -> comes_after Date_parse x y = true ->
  on_day Date_parse v y = false.
Proof.
  unfold on_day, comes_after, compare_dates.
  destruct (Date_parse (date x)) as [a|]; [|discriminate].
  destruct (Date_parse (date y)) as [b|]; [|reflexivity].
  intros Ha Hb. apply Z.eqb_eq in Ha. apply Z.ltb_lt in Hb. apply Z.eqb_neq. lia.
Qed.

Lemma filter_insert v x l :
  filter (on_day Date_parse v) (StableSort.insert before x l)
  = filter (on_day Date_parse v) (x :: l).
Proof.
  induction l as [|y t IH]; [reflexivity|]. cbn [StableSort.insert].
  destruct (comes_after Date_parse x y) eqn:C; cbn [negb]; [|reflexivity].
  cbn [filter] in *. rewrite IH.
  destruct (on_day Date_parse v x) eqn:Dx; [|reflexivity].
  now rewrite (on_day_after v x y Dx C).
Qed.

(** X25.  The sort of the table is stable: when every date of the array
    parses, the records of one day are in the same order after
    [updateTable] as they were in the array (so the order in which the API
    lists the expenses of a day, by creation time, is the order of their
    rows). *)
Theorem updateTable_stable totalBudget expenses v :
  Forall (parses Date_parse) expenses ->
  filter (on_day Date_parse v) (fst (updateTable Date_parse totalBudget expenses))
  = filter (on_day Date_parse v) expenses.
Proof.
  intros _. destruct expenses as [|e0 t]; [reflexivity|]. cbn [updateTable fst].
  generalize (e0 :: t) as l. intros l. induction l as [|x l IH]; [reflexivity|].
  unfold Client.sort, StableSort.sort in *. cbn [fold_right].
  rewrite filter_insert. cbn [filter]. now rewrite IH.
Qed.

End Table.

(** ** The calendar *)

Lemma leap_cases y :
  (days_in_month y 2 = 29 /\ y mod 4 = 0 /\ (y mod 100 <> 0 \/ y mod 400 = 0))
  \/ days_in_month y 2 = 28.
Proof.
  unfold days_in_month. cbn [Z.eqb Pos.eqb].
  destruct (y mod 4 =? 0) eqn:E4; destruct (y mod 100 =? 0) eqn:E100;
    destruct (y mod 400 =? 0) eqn:E400; cbn [andb orb negb];
    rewrite ?Z.eqb_eq, ?Z.eqb_neq in *;
    first [right; reflexivity
          | left; split; [reflexivity|]; split; [|auto]; Z.div_mod_to_equations; lia].
Qed.

Ltac months m H :=
  assert (m = 1 \/ m = 2 \/ m = 3 \/ m = 4 \/ m = 5 \/ m = 6 \/ m = 7 \/ m = 8 \/ m = 9
          \/ m = 10 \/ m = 11 \/ m = 12) as H by lia;
  repeat (destruct H as [H|H]); subst m.

Lemma dfc_lower y m d :
  1 <= m <= 12 -> 1 <= d ->
  days_from_civil y 1 1 <= days_from_civil y m d.
Proof.
  intros Hm Hd. months m H; unfold days_from_civil; cbn [Z.leb Z.compare Pos.compare Pos.compare_cont];
    Z.div_mod_to_equations; lia.
Qed.

Lemma dfc_upper y m d :
  1 <= m <= 12 -> d <= days_in_month y m ->
  days_from_civil y m d < days_from_civil (y + 1) 1 1.
Proof.
  intros Hm Hd. destruct (leap_cases y) as [(L & L4 & L100)|L];
  months m H; try rewrite L in Hd; unfold days_in_month in Hd; cbn in Hd;
    unfold days_from_civil; cbn [Z.leb Z.compare Pos.compare Pos.compare_cont];
    replace (y + 1 - 1) with y by lia;
    Z.div_mod_to_equations; lia.
Qed.

Lemma dfc_jan y y' : y <= y' -> days_from_civil y 1 1 <= days_from_civil y' 1 1.
Proof.
  intros H. unfold days_from_civil; cbn [Z.leb Z.compare Pos.compare Pos.compare_cont].
  Z.div_mod_to_equations; lia.
Qed.

Lemma dfc_month y m m' d d' :
  1 <= m -> m < m' -> m' <= 12 -> d <= days_in_month y m -> 1 <= d' ->
  days_from_civil y m d < days_from_civil y m' d'.
Proof.
  intros H1 H2 H3 Hd Hd'.
  destruct (leap_cases y) as [(L & L4 & L100)|L];
  months m H; try lia; try rewrite L in Hd; unfold days_in_month in Hd; cbn in Hd;
  months m' H'; try lia;
    unfold days_from_civil; cbn [Z.leb Z.compare Pos.compare Pos.compare_cont];
    Z.div_mod_to_equations; lia.
Qed.

(** ** Digits and the order of strings *)

Lemma ascii_compare_code a b :
  OrdersEx.Ascii_as_OT.compare a b = Z.compare (code a) (code b).
Proof. unfold OrdersEx.Ascii_as_OT.compare, code. symmetry. apply N2Z.inj_compare. Qed.

Lemma code_inj a b : code a = code b -> a = b.
Proof.
  unfold code. intros H. apply N2Z.inj in H.
  rewrite <- (ascii_N_embedding a), <- (ascii_N_embedding b). now rewrite H.
Qed.

Lemma digit_val_range c : is_digit c = true -> 0 <= digit_val c <= 9.
Proof. unfold is_digit, digit_val. cbv zeta. lia. Qed.

Lemma scan_bounds s : forall acc n v k r,
  scan_digits s acc n = (v, k, r) ->
  n <= k /\ acc * 10 ^ (k - n) <= v < (acc + 1) * 10 ^ (k - n).
Proof.
  induction s as [|c s IH]; intros acc n v k r; cbn [scan_digits].
  - intros [= <- <- <-]. rewrite Z.sub_diag. cbn. lia.
  - destruct (is_digit c) eqn:D.
    + intros H. apply IH in H. destruct H as [H1 H2].
      pose proof (digit_val_range c D) as Hd.
      split; [lia|].
      replace (k - n) with (Z.succ (k - (n + 1))) by lia.
      rewrite Z.pow_succ_r by lia.
      assert (P : 0 < 10 ^ (k - (n + 1))) by (apply Z.pow_pos_nonneg; lia).
      nia.
    + intros [= <- <- <-]. rewrite Z.sub_diag. cbn. lia.
Qed.

Lemma scan_lt s1 : forall s2 a n v1 v2 k r1 r2,
  scan_digits s1 a n = (v1, k, r1) ->
  scan_digits s2 a n = (v2, k, r2) ->
  OrdersEx.String_as_OT.compare s1 s2 = Lt ->
  v1 < v2 \/ (v1 = v2 /\ OrdersEx.String_as_OT.compare r1 r2 = Lt).
Proof.
  induction s1 as [|c1 s1 IH]; intros [|c2 s2] a n v1 v2 k r1 r2;
    cbn [scan_digits OrdersEx.String_as_OT.compare]; try discriminate.
  - intros [= <- <- <-]. destruct (is_digit c2) eqn:D2.
    + intros H. apply scan_bounds in H. lia.
    + intros [= <- <-] _. right. split; reflexivity.
  - rewrite ascii_compare_code.
    destruct (is_digit c1) eqn:D1, (is_digit c2) eqn:D2.
    + intros H1 H2. destruct (Z.compare_spec (code c1) (code c2)) as [E|L|G];
        try discriminate.
      * apply code_inj in E. subst c2. apply (IH s2 _ _ _ _ _ _ _ H1 H2).
      * intros _. left. apply scan_bounds in H1, H2.
        assert (P : 0 < 10 ^ (k - (n + 1))) by (apply Z.pow_pos_nonneg; lia).
        unfold digit_val in *. nia.
    + intros H1 [= <- <- <-]. apply scan_bounds in H1. lia.
    + intros [= <- <- <-] H2. apply scan_bounds in H2. lia.
    + intros [= <- <- <-] [= <- <-] H. right. split; [reflexivity|].
      cbn [OrdersEx.String_as_OT.compare]. rewrite ascii_compare_code. exact H.
Qed.

(** ** Dates in the format of the date input *)

Lemma iso_date_inv s t :
  iso_date s = Some t ->
  exists y m d r2 r4,
    scan_digits s 0 0 = (y, 4, String "-"%char r2) /\
    scan_digits r2 0 0 = (m, 2, String "-"%char r4) /\
    scan_digits r4 0 0 = (d, 2, "") /\
    1 <= m <= 12 /\ 1 <= d <= days_in_month y m /\
    t = days_from_civil y m d * 86400000.
Proof.
  unfold iso_date.
  destruct (scan_digits s 0 0) as [[y ny] r1].
  destruct r1 as [|c1 r2]; [discriminate|].
  destruct c1 as [[] [] [] [] [] [] [] []]; try discriminate.
  destruct (scan_digits r2 0 0) as [[m nm] r3] eqn:S2.
  destruct r3 as [|c3 r4]; [discriminate|].
  destruct c3 as [[] [] [] [] [] [] [] []]; try discriminate.
  destruct (scan_digits r4 0 0) as [[d nd] r5] eqn:S4.
  destruct r5; [|discriminate].
  destruct (_ && _) eqn:V; [|discriminate]. intros [= <-].
  repeat (apply andb_prop in V; destruct V as [V ?]).
  rewrite ?Z.eqb_eq, ?Z.leb_le in *. subst.
  exists y, m, d, r2, r4. repeat split; auto.
Qed.

Lemma iso_date_mono s1 s2 t1 t2 :
  iso_date s1 = Some t1 -> iso_date s2 = Some t2 ->
  OrdersEx.String_as_OT.compare s1 s2 = Lt ->
  t1 < t2.
Proof.
  intros H1 H2 L.
  destruct (iso_date_inv _ _ H1) as (y1 & m1 & d1 & p1 & q1 & Y1 & M1 & D1 & Vm1 & Vd1 & ->).
  destruct (iso_date_inv _ _ H2) as (y2 & m2 & d2 & p2 & q2 & Y2 & M2 & D2 & Vm2 & Vd2 & ->).
  assert (days_from_civil y1 m1 d1 < days_from_civil y2 m2 d2); [|lia].
  destruct (scan_lt _ _ _ _ _ _ _ _ _ Y1 Y2 L) as [Hy | [-> Lm]].
  - pose proof (dfc_upper y1 m1 d1 Vm1 (proj2 Vd1)).
    pose proof (dfc_jan (y1 + 1) y2 ltac:(lia)).
    pose proof (dfc_lower y2 m2 d2 Vm2 (proj1 Vd2)). lia.
  - cbn [OrdersEx.String_as_OT.compare] in Lm.
    change (OrdersEx.Ascii_as_OT.compare "-" "-") with Eq in Lm.
    destruct (scan_lt _ _ _ _ _ _ _ _ _ M1 M2 Lm) as [Hm | [-> Ld]].
    + apply dfc_month; lia.
    + cbn [OrdersEx.String_as_OT.compare] in Ld.
      change (OrdersEx.Ascii_as_OT.compare "-" "-") with Eq in Ld.
      destruct (scan_lt _ _ _ _ _ _ _ _ _ D1 D2 Ld) as [Hd | [_ F]]; [|discriminate F].
      unfold days_from_civil. lia.
Qed.

(** ** The listing and the table *)

Import Server ServerObs AppObs.

Lemma listing_in_table_order a b :
  iso_dated a -> iso_dated b -> expense_le a b ->
  negb (comes_after iso_date (of_json a) (of_json b)) = true.
Proof.
  unfold iso_dated, comes_after, compare_dates, of_json. cbn [Client.date].
  intros Ha Hb Hle.
  destruct (iso_date (Server.date a)) as [ta|] eqn:Ea; [|contradiction].
  destruct (iso_date (Server.date b)) as [tb|] eqn:Eb; [|contradiction].
  apply negb_true_iff, Z.ltb_ge.
  destruct Hle as [Hlt | [He _]].
  - pose proof (iso_date_mono _ _ _ _ Ea Eb Hlt). lia.
  - rewrite He in Ea. rewrite Ea in Eb. injection Eb as <-. lia.
Qed.

(** X26.  For expenses dated in the format of the date input, the table
    shows the listing of the API as it was sent: the order of the dates as
    strings, by which the server sorts, is the order of the days, by which
    the page sorts, so the sort of [updateTable] moves no record and the
    rows are in the order of the listing, by date and within a day by
    creation time. *)
Theorem table_in_listing_order totalBudget l :
  Forall iso_dated l ->
  let listing := map of_json (sort_expenses l) in
  let r := updateTable iso_date totalBudget listing in
  fst r = listing /\ table_expenses (snd r) = listing.
Proof.
  intros Hl listing r.
  assert (E : fst r = listing).
  { subst r. destruct listing as [|x t] eqn:El; [reflexivity|].
    cbn [updateTable fst]. rewrite <- El. apply sort_in_order.
    subst listing.
    assert (Hv : Forall iso_dated (sort_expenses l)).
    { rewrite Forall_forall in Hl |- *. intros y Hy. apply Hl.
      apply (Permutation_in _ (SortProps.sort_perm expense_leb l)). exact Hy. }
    pose proof (ServerProps.sort_expenses_sorted l) as Hs. clear El.
    induction Hs as [|y s Hs IH Hy]; [constructor|].
    inversion Hv as [|? ? Vy Vs]; subst. cbn [map]. constructor; [apply IH; exact Vs|].
    destruct s as [|z s']; [constructor|]. cbn [map]. constructor.
    inversion Hy as [|? ? Hyz _]; subst. inversion Vs as [|? ? Vz _]; subst.
    now apply listing_in_table_order. }
  split; [exact E|]. rewrite <- E. subst r. apply AppProps.updateTable_shows.
Qed.

End ClientExtra.

(* ================================================================== *)
(** * The further properties on the sample data *)
(* ================================================================== *)

Module ExtraChecks.
Import JS Mongoose Server Fixtures ExtraFixtures ServerObs ExtraObs ServerExtra.

Local Abbreviation run := (Server.run hash first_match).
Local Abbreviation login := (Login.login compare first_match).

Lemma db_users_unique : users_unique db_users.
Proof. repeat split; repeat constructor; simpl; intuition discriminate. Defined.

Lemma carol_is_new u :
  In u (users db_users) ->
  u_id u <> fresh_id carol_env /\ username u <> trim carol_name /\
  email u <> toLowerCase (trim carol_email).
Proof.
  intros [<-|[<-|[]]]; repeat split; vm_compute; discriminate.
Defined.

(** X1 on the sample data: a token for the account 9, which is not in the
    store. *)
Lemma protected_routes_require_session_witness :
  let a := ValidToken 9%N in
  denied (run (me a) db_ledgers) db_ledgers /\
  denied (run (budget_set a (VNum 5%float)) db_ledgers) db_ledgers /\
  denied (run (expenses_delete_id a (Some 7%N)) db_ledgers) db_ledgers /\
  denied (run (expenses_delete a) db_ledgers) db_ledgers.
Proof.
  destruct (protected_routes_require_session hash first_match (ValidToken 9%N) db_ledgers
              eq_refl) as (H1 & H2 & _ & _ & _ & H6 & H7).
  exact (conj H1 (conj (H2 _) (conj (H6 _) H7))).
Defined.

(** X2 on the sample data: alice clears her data and deletes by id; what
    is stored for bob stays. *)
Lemma routes_keep_other_accounts_witness :
  data_of 2%N (snd (run (expenses_delete (ValidToken 1%N)) db_ledgers))
    = (Some bob, [rice]) /\
  data_of 2%N (snd (run (expenses_delete_id (ValidToken 1%N) (Some 8%N)) db_ledgers))
    = (Some bob, [rice]).
Proof.
  assert (H : not_as 2%N (ValidToken 1%N)) by (simpl; discriminate).
  destruct (routes_keep_other_accounts hash first_match 2%N (ValidToken 1%N) db_ledgers H)
    as (_ & _ & _ & _ & _ & H6 & H7).
  exact (conj H7 (H6 (Some 8%N))).
Defined.

(** X3 on the sample data: after a second signup as alice and after a
    budget update the indexes of [db_users] still hold. *)
Lemma routes_keep_users_unique_witness :
  users_unique (snd (run (signup (Some "k") carol_env (VStr "alice") (VStr "c@x.com")
                            (VStr "secret3")) db_users)) /\
  users_unique (snd (run (budget_set (ValidToken 1%N) (VNum 5%float)) db_users)).
Proof.
  destruct (routes_keep_users_unique hash first_match db_users db_users_unique) as [H1 H2].
  destruct (H2 (ValidToken 1%N)) as (_ & H3 & _).
  exact (conj (H1 _ _ _ _ _) (H3 _)).
Defined.

(** X4 on the sample data: a missing email, a username of two characters
    and a password of five. *)
Lemma signup_rejects_malformed_witness :
  run (signup (Some "k") carol_env (VStr "carol") VUndefined (VStr "secret3")) db_users
    = (Returned (mkResponse 400 (Error "All fields are required.")), db_users) /\
  run (signup (Some "k") carol_env (VStr "ca") (VStr "c@x.com") (VStr "secret3")) db_users
    = (Returned (mkResponse 400 (Error "Username must be at least 3 characters.")),
       db_users) /\
  run (signup (Some "k") carol_env (VStr "carol") (VStr "c@x.com") (VStr "secre")) db_users
    = (Returned (mkResponse 400 (Error "Password must be at least 6 characters.")),
       db_users).
Proof.
  split; [|split].
  - apply (proj1 (signup_rejects_malformed hash first_match (Some "k") carol_env
                    (VStr "carol") VUndefined (VStr "secret3") db_users)).
    right; left; reflexivity.
  - apply (proj1 (proj2 (signup_rejects_malformed hash first_match (Some "k") carol_env
                    (VStr "ca") (VStr "c@x.com") (VStr "secret3") db_users)) "ca" eq_refl).
    + discriminate.
    + simpl; lia.
    + reflexivity.
    + reflexivity.
  - apply (proj2 (proj2 (signup_rejects_malformed hash first_match (Some "k") carol_env
                    (VStr "carol") (VStr "c@x.com") (VStr "secre") db_users)) "secre" eq_refl).
    + discriminate.
    + simpl; lia.
    + reflexivity.
    + reflexivity.
    + reflexivity.
Defined.

(** X5 on the sample data: carol registers with spaces around her name and
    capitals in her email, once with the secret set and once without. *)
Lemma signup_creates_account_witness :
  let carol := mkUser 3%N "carol" "carol@x.com" (hash "secret3") (Some 0%float) 2000 in
  let db' := mkDB [alice; bob; carol] [] in
  run (signup (Some "k") carol_env (VStr carol_name) (VStr carol_email)
         (VStr carol_password)) db_users
  = (Returned (mkResponse 201
       (Auth "Account created successfully!" 3%N (public_view carol))), db') /\
  run (signup None carol_env (VStr carol_name) (VStr carol_email)
         (VStr carol_password)) db_users
  = (Returned (mkResponse 500 (Error "Server error. Please try again.")), db') /\
  run (me (ValidToken 3%N)) db'
  = (Returned (mkResponse 200 (Profile (public_view carol))), db').
Proof.
  assert (Vu : (3 <= String.length (trim carol_name))%nat) by (vm_compute; lia).
  assert (Ve : trim carol_email <> "") by (vm_compute; discriminate).
  assert (Vp : (6 <= String.length carol_password)%nat) by (vm_compute; lia).
  destruct (signup_creates_account hash first_match db_users (Some "k") carol_env
              carol_name carol_email carol_password Checks.first_match_ok
              eq_refl eq_refl Vu Ve Vp carol_is_new) as [H1 H2].
  destruct (signup_creates_account hash first_match db_users None carol_env
              carol_name carol_email carol_password Checks.first_match_ok
              eq_refl eq_refl Vu Ve Vp carol_is_new) as [H3 _].
  exact (conj H1 (conj H3 H2)).
Defined.

(** X6 on the sample data: alice logs in with her password, and with a
    wrong one. *)
Lemma login_needs_matching_password_witness :
  (exists u s,
     In u (users db_users) /\ Login.username_filter (VStr "alice") u = true /\
     VStr "secret1" = VStr s /\ compare s (password u) = true /\
     login (Some "k") (VStr "alice") (VStr "secret1") db_users
     = mkResponse 200 (Auth "Login successful!" (u_id u) (public_view u))) /\
  login (Some "k") (VStr "alice") (VStr "secret2") db_users
  = mkResponse 401 (Error Login.invalid_credentials).
Proof.
  split.
  - apply (proj1 (login_needs_matching_password compare first_match (Some "k")
                    (VStr "alice") (VStr "secret1") db_users Checks.first_match_ok)).
    reflexivity.
  - apply (proj2 (login_needs_matching_password compare first_match (Some "k")
                    (VStr "alice") (VStr "secret2") db_users Checks.first_match_ok)
                 "secret2" eq_refl).
    + discriminate.
    + reflexivity.
    + intros u [<-|[<-|[]]]; intros H; [reflexivity | discriminate H].
Defined.

(** X7 on the sample data: carol registers and logs in. *)
Lemma login_after_signup_witness :
  let db' := snd (run (signup (Some "k") carol_env (VStr carol_name) (VStr carol_email)
                         (VStr carol_password)) db_users) in
  login (Some "k") (VStr carol_name) (VStr carol_password) db'
  = mkResponse 200 (Auth "Login successful!" 3%N
      (mkView 3%N (Some "carol") (Some "carol@x.com") (Some 0%float))).
Proof.
  refine (login_after_signup hash compare first_match db_users carol_env
            carol_name carol_email carol_password "k" Checks.first_match_ok
            eq_refl _ eq_refl eq_refl _ _ _ carol_is_new).
  - discriminate.
  - vm_compute; lia.
  - vm_compute; discriminate.
  - vm_compute; lia.
Defined.

(** X8 on the sample data: alice posts a tea with the amount sent as the
    string "50", then deletes it. *)
Lemma expenses_post_then_delete_witness :
  let e := mkEnv 9%N 4000 in
  let r := mkExpense 9%N 1%N "2024-01-05" "Tea" 50%float "1" "Cash" 4000 in
  let db' := mkDB [alice; bob] [r] in
  run (expenses_post e (ValidToken 1%N) (VStr "2024-01-05") (VStr "Tea") (VStr "50")
         (VStr "1") (VStr "Cash")) db_users
    = (Returned (mkResponse 201 (Created r)), db') /\
  ledger 1%N db' = [r] /\
  run (expenses_delete_id (ValidToken 1%N) (Some 9%N)) db'
    = (Returned (mkResponse 200 (Message "Expense deleted.")), db_users).
Proof.
  refine (expenses_post_then_delete hash first_match db_users 1%N alice (mkEnv 9%N 4000)
            "2024-01-05" "Tea" (VStr "50") "1" "Cash" 50%float
            eq_refl _ _ _ _ eq_refl _ eq_refl eq_refl); try discriminate.
  vm_compute; reflexivity.
Defined.

(** X9 on the sample data: the amount "abc". *)
Lemma expenses_post_unreadable_amount_witness :
  run (expenses_post (mkEnv 9%N 4000) (ValidToken 1%N) (VStr "2024-01-05") (VStr "Tea")
         (VStr "abc") (VStr "1") (VStr "Cash")) db_users
  = (Returned (mkResponse 500 (Error "Server error.")), db_users).
Proof.
  refine (expenses_post_unreadable_amount hash first_match db_users 1%N alice
            (mkEnv 9%N 4000) (VStr "2024-01-05") (VStr "Tea") (VStr "abc") (VStr "1")
            (VStr "Cash") eq_refl eq_refl eq_refl eq_refl eq_refl eq_refl _).
  vm_compute; reflexivity.
Defined.

(** X10 on the sample data: a malformed id and the id 99. *)
Lemma expenses_delete_id_not_found_witness :
  run (expenses_delete_id (ValidToken 1%N) None) db_ledgers
    = (Returned (mkResponse 500 (Error "Server error.")), db_ledgers) /\
  run (expenses_delete_id (ValidToken 1%N) (Some 99%N)) db_ledgers
    = (Returned (mkResponse 404 (Error "Expense not found.")), db_ledgers).
Proof.
  destruct (expenses_delete_id_not_found hash first_match db_ledgers 1%N alice eq_refl)
    as [H1 H2].
  split; [exact H1|]. apply H2.
  intros x [<-|[<-|[]]]; discriminate.
Defined.

(** X11 on the sample data: alice deletes her tea twice. *)
Lemma expenses_delete_id_twice_witness :
  let db1 := mkDB [alice; bob] [rice] in
  run (expenses_delete_id (ValidToken 1%N) (Some 7%N)) db1
  = (Returned (mkResponse 404 (Error "Expense not found.")), db1).
Proof.
  refine (expenses_delete_id_twice hash first_match db_ledgers 1%N alice 7%N
            eq_refl _ eq_refl).
  repeat constructor; simpl; intuition discriminate.
Defined.

(** X12 on the sample data: the string "5" as the new budget of alice. *)
Lemma budget_set_never_negative_witness :
  exists c,
    stored_budget 1%N (snd (run (budget_set (ValidToken 1%N) (VStr "5")) db_users)) = Some c /\
    not_negative c.
Proof.
  apply (budget_set_never_negative hash first_match db_users 1%N alice (VStr "5") eq_refl).
  eexists. vm_compute. reflexivity.
Defined.

(** X13 on the sample data: alice clears her data twice. *)
Lemma expenses_delete_idempotent_witness :
  let first := run (expenses_delete (ValidToken 1%N)) db_ledgers in
  fst first = Returned (mkResponse 200 (Message "All data cleared.")) /\
  run (expenses_delete (ValidToken 1%N)) (snd first) = first.
Proof.
  exact (expenses_delete_idempotent hash first_match db_ledgers 1%N alice eq_refl).
Defined.

End ExtraChecks.

Module AppChecks.
Import JS Mongoose Client Server Fixtures ExtraFixtures ServerObs ClientObs ExtraObs AppObs.
Import TableObs AppProps ClientExtra.

Lemma alice_logged_in : logged_in 1%N page1 db_ledgers.
Proof. split; [reflexivity | exists alice; reflexivity]. Defined.

Lemma page1_in_sync : in_sync 1%N page1 db_ledgers.
Proof.
  split; [split|].
  - vm_compute. apply Permutation_refl.
  - exists (Some 10%float). split; vm_compute; reflexivity.
  - eexists _, _. vm_compute. repeat split.
Defined.

Lemma db_ledgers_ids : NoDup (map e_id (expenses db_ledgers)).
Proof. repeat constructor; simpl; intuition discriminate. Defined.

Lemma parse_id_round_trip : ids_round_trip parse_id db_ledgers.
Proof. intros x [<-|[<-|[]]]; reflexivity. Defined.


(** X15 on the sample data: alice types 25.5 into the prompt. *)
Lemma on_set_budget_keeps_in_sync_witness :
  exists p' db',
    App.on_set_budget hash first_match true iso_date (Some "25.5") (page1, db_ledgers)
      = (Some tt, (p', db')) /\
    in_sync 1%N p' db' /\
    budget_written db_ledgers db' 1%N (Some 25.5%float) /\
    App.totalBudget p' = 25.5%float.
Proof.
  destruct (on_set_budget_keeps_in_sync hash first_match iso_date true 1%N page1 db_ledgers
              (Some "25.5") alice_logged_in page1_in_sync) as (p' & db' & H1 & H2 & _ & H4).
  - intros t [= <-]. vm_compute. reflexivity.
  - exists p', db'. split; [exact H1|]. split; [exact H2|].
    specialize (H4 "25.5" eq_refl). cbv zeta in H4.
    assert (E : negb (is_nan (parseFloat (VStr "25.5")))
                && PrimFloat.leb zero (parseFloat (VStr "25.5")) = true)
      by (vm_compute; reflexivity).
    rewrite E in H4. destruct (H4 eq_refl) as (y & Hj & Hw & Hb & _).
    vm_compute in Hj. injection Hj as <-. split; assumption.
Defined.

(** X16 on the sample data: alice types Infinity into the prompt. *)
Lemma on_set_budget_infinity_witness :
  exists db',
    App.on_set_budget hash first_match true iso_date (Some "Infinity") (page1, db_ledgers)
      = (Some tt, (page1, db')) /\
    budget_written db_ledgers db' 1%N None.
Proof.
  apply (on_set_budget_infinity hash first_match iso_date 1%N page1 db_ledgers "Infinity"
           alice_logged_in).
  vm_compute. reflexivity.
Defined.

(** X17 on the sample data: alice adds 5 to her budget of 10, and then
    types Infinity. *)
Lemma on_add_money_keeps_in_sync_witness :
  (exists p' db',
     App.on_add_money hash first_match true iso_date (Some "5") (page1, db_ledgers)
       = (Some tt, (p', db')) /\
     in_sync 1%N p' db' /\
     budget_written db_ledgers db' 1%N (Some 15%float) /\
     App.totalBudget p' = 15%float) /\
  App.on_add_money hash first_match true iso_date (Some "Infinity") (page1, db_ledgers)
    = (Some tt, (page1, db_ledgers)).
Proof.
  split.
  - destruct (on_add_money_keeps_in_sync hash first_match iso_date true 1%N alice page1
                db_ledgers (Some "5") eq_refl eq_refl page1_in_sync)
      as (p' & db' & H1 & H2 & H3).
    + intros t [= <-]. vm_compute. reflexivity.
    + exists p', db'. split; [exact H1|]. split; [exact H2|].
      specialize (H3 "5" eq_refl). cbv zeta in H3.
      assert (E : negb (is_nan (parseFloat (VStr "5")))
                  && PrimFloat.ltb zero (parseFloat (VStr "5")) = true)
        by (vm_compute; reflexivity).
      rewrite E in H3. specialize (H3 eq_refl).
      change (is_infinity (parseFloat (VStr "5"))) with false in H3.
      destruct H3 as (y & total & Hj & Ht & H).
      vm_compute in Hj. injection Hj as <-.
      assert (Et : total = 15%float) by (rewrite Ht; vm_compute; reflexivity).
      rewrite Et in H. destruct H as [Hw Hb]; [reflexivity|].
      change (json_number 15%float) with (VNum 15%float) in Hb. injection Hb as Hb.
      split; [exact Hw | now symmetry].
  - destruct (on_add_money_keeps_in_sync hash first_match iso_date true 1%N alice page1
                db_ledgers (Some "Infinity") eq_refl eq_refl page1_in_sync)
      as (p' & db' & H1 & _ & H3).
    + intros t [= <-]. vm_compute. reflexivity.
    + specialize (H3 "Infinity" eq_refl). cbv zeta in H3.
      assert (E : negb (is_nan (parseFloat (VStr "Infinity")))
                  && PrimFloat.ltb zero (parseFloat (VStr "Infinity")) = true)
        by (vm_compute; reflexivity).
      rewrite E in H3. specialize (H3 eq_refl).
      change (is_infinity (parseFloat (VStr "Infinity"))) with true in H3.
      destruct H3 as [-> ->]. exact H1.
Defined.

(** X18 on the sample data: alice clears her data. *)
Lemma on_clear_data_clears_witness :
  exists p' db',
    App.on_clear_data hash first_match true iso_date true (page1, db_ledgers)
      = (Some tt, (p', db')) /\
    ledger 1%N db' = [] /\ in_sync 1%N p' db' /\
    App.tbody p' = Some EmptyState.
Proof.
  destruct (on_clear_data_clears hash first_match iso_date 1%N page1 db_ledgers
              alice_logged_in) as [(p' & db' & H1 & H2 & H3 & _ & _ & H6 & _) _].
  exists p', db'. auto.
Defined.

(** X19 on the sample data: alice submits the form with milk for 30. *)
Lemma on_submit_keeps_in_sync_witness :
  exists p' db',
    App.on_submit hash first_match true iso_date (mkEnv 9%N 4000)
      "2024-01-06" " Milk " "1" "30" "Cash" (page1, db_ledgers)
      = (Some tt, (p', db')) /\
    in_sync 1%N p' db'.
Proof.
  destruct (on_submit_keeps_in_sync hash first_match iso_date true 1%N page1 db_ledgers
              (mkEnv 9%N 4000) "2024-01-06" " Milk " "1" "30" "Cash"
              alice_logged_in page1_in_sync) as (p' & db' & H1 & H2 & _).
  exists p', db'. auto.
Defined.

(** X20 on the sample data: alice submits the form with an amount of 0. *)
Lemma on_submit_zero_amount_witness :
  App.on_submit hash first_match true iso_date (mkEnv 9%N 4000)
    "2024-01-06" "Milk" "1" "0" "Cash" (page1, db_ledgers)
  = (Some tt, (App.alert "All fields are required." page1, db_ledgers)).
Proof.
  apply (on_submit_zero_amount hash first_match iso_date 1%N page1 db_ledgers
           (mkEnv 9%N 4000) "2024-01-06" "Milk" "1" "0" "Cash" alice_logged_in);
    try discriminate; vm_compute; (discriminate || reflexivity).
Defined.

(** X21 on the sample data: alice clicks the delete button of her tea. *)
Lemma on_delete_click_keeps_in_sync_witness :
  exists p' db',
    App.on_delete_click hash first_match true parse_id iso_date (Some "7")
      (page1, db_ledgers) = (Some tt, (p', db')) /\
    (forall y, In y (expenses db') <-> In y (expenses db_ledgers) /\ y <> tea) /\
    in_sync 1%N p' db'.
Proof.
  destruct (on_delete_click_keeps_in_sync hash first_match parse_id iso_date 1%N page1
              db_ledgers "7" alice_logged_in page1_in_sync db_ledgers_ids
              parse_id_round_trip)
    as (p' & db' & x & H1 & H2 & H3 & _ & H5 & H6 & _).
  - vm_compute. left. reflexivity.
  - exists p', db'. split; [exact H1|]. split; [|exact H6].
    assert (E : x = tea).
    { vm_compute in H2. destruct H2 as [<-|[]]. reflexivity. }
    now rewrite <- E.
Defined.

(** X22 on the sample data: a page whose token names the account 9. *)
Lemma expired_session_logs_out_witness :
  App.on_clear_data hash first_match true iso_date true (page9, db_ledgers)
    = (Some tt, (App.logout page9, db_ledgers)) /\
  App.on_set_budget hash first_match true iso_date (Some "25.5") (page9, db_ledgers)
    = (Some tt, (App.logout page9, db_ledgers)) /\
  App.on_submit hash first_match true iso_date (mkEnv 9%N 4000)
    "2024-01-06" "Milk" "1" "30" "Cash" (page9, db_ledgers)
    = (Some tt, (App.logout page9, db_ledgers)).
Proof.
  destruct (expired_session_logs_out hash first_match parse_id iso_date page9 db_ledgers
              eq_refl) as (_ & H2 & _ & H4 & _ & H6).
  split; [exact H2|]. split.
  - apply H4. vm_compute. reflexivity.
  - apply H6; try discriminate; vm_compute; discriminate.
Defined.

(** X23 on the sample data: the server cannot be reached. *)
Lemma offline_changes_nothing_witness :
  App.on_clear_data hash first_match false iso_date true (page1, db_ledgers)
    = (Some tt, (App.alert cannot_connect page1, db_ledgers)) /\
  App.on_add_money hash first_match false iso_date (Some "5") (page1, db_ledgers)
    = (Some tt, (App.alert cannot_connect page1, db_ledgers)) /\
  App.on_submit hash first_match false iso_date (mkEnv 9%N 4000)
    "2024-01-06" "Milk" "1" "30" "Cash" (page1, db_ledgers)
    = (Some tt, (App.alert cannot_connect page1, db_ledgers)).
Proof.
  destruct (offline_changes_nothing hash first_match parse_id iso_date page1 db_ledgers)
    as (_ & H2 & _ & _ & H5 & H6).
  split; [exact H2|]. split.
  - apply H5. vm_compute. reflexivity.
  - apply H6; try discriminate; vm_compute; discriminate.
Defined.

(** X24 on the sample data: the table of [milk] and [salt] rendered
    twice. *)
Lemma updateTable_again_witness :
  let r := updateTable iso_date 1000%float [milk; salt] in
  updateTable iso_date 1000%float (fst r) = r.
Proof.
  apply (updateTable_again iso_date 1000%float [milk; salt]).
  repeat constructor; discriminate.
Defined.

(** X25 on the sample data: [milk] and [bread] are of the same day and
    keep their order around [salt], which moves to the front. *)
Lemma updateTable_stable_witness :
  fst (updateTable iso_date 1000%float [milk; salt; bread]) = [salt; milk; bread] /\
  filter (on_day iso_date 1704844800000)
         (fst (updateTable iso_date 1000%float [milk; salt; bread]))
  = [milk; bread].
Proof.
  split; [vm_compute; reflexivity|].
  rewrite (updateTable_stable iso_date 1000%float [milk; salt; bread] 1704844800000).
  - vm_compute. reflexivity.
  - repeat constructor; discriminate.
Defined.

(** X26 on the sample data: the listing of [tea] and [rice]. *)
Lemma table_in_listing_order_witness :
  fst (updateTable iso_date 10%float (map of_json (sort_expenses [tea; rice])))
  = [of_json rice; of_json tea].
Proof.
  apply (table_in_listing_order 10%float [tea; rice]).
  repeat constructor; vm_compute; discriminate.
Defined.

End AppChecks.
